(** * Capella STAC / Open Data Cube ingestion scripts: a shallow embedding

    The development follows the scripts of the repository:

    - [code/01_create_stac.py]  (browsing mode: builds a STAC catalog),
    - [code/02_create_cog.py]   (conversion of the images to
      cloud-optimised files),
    - [code/03_test_dataset.py] (indexing mode: builds EO3 documents and
      registers them in an Open Data Cube index).

    Python library behaviour the scripts rely on ([str.split], negative
    indexing, [datetime.strptime], [os.path.basename], [os.path.join],
    [os.path.splitext], [uuid.uuid4]) is written out in module [Py];
    [os.path] is [ntpath], the paths of the scripts being Windows paths.
    Strings are sequences of ASCII characters.  Raster I/O, reprojection,
    the file system, the catalog library, the YAML writer, external
    commands and the datacube index are external collaborators: they
    appear as the fields of an environment record, and may raise. *)

From Stdlib Require Import ZArith List String Ascii Bool Lia Floats.
From stdpp Require Import base option list strings gmap.

Open Scope string_scope.
Open Scope Z_scope.

(* ===================================================================== *)
(** ** Exceptions and outcomes *)
(* ===================================================================== *)

(** Subclasses of Python's [Exception]. *)
Inductive error : Type :=
  | ValueError
  | IndexError
  | OtherError (cls : string).

(** What can unwind the stack: an [Exception], or [SystemExit], which
    [except Exception] does not catch. *)
Inductive exn : Type :=
  | Exception (e : error)
  | SystemExit (msg : string).

Inductive outcome (A : Type) : Type :=
  | Ret (a : A)
  | Raise (e : exn).
Arguments Ret {A} a.
Arguments Raise {A} e.

#[global] Instance outcome_ret : MRet outcome := fun A a => Ret a.
#[global] Instance outcome_bind : MBind outcome := fun A B f m =>
  match m with
  | Ret a => f a
  | Raise e => Raise e
  end.

(** A call into a collaborator that fails with an [Exception] or returns. *)
Definition lib_result (A : Type) : Type := error + A.

Definition lift_lib {A} (r : lib_result A) : outcome A :=
  match r with
  | inl e => Raise (Exception e)
  | inr a => Ret a
  end.

(* ===================================================================== *)
(** ** Python primitives *)
(* ===================================================================== *)

Module Py.

(** [s.split(sep)] for a one-character separator: never the empty list. *)
Fixpoint split (sep : ascii) (s : string) : list string :=
  match s with
  | EmptyString => [EmptyString]
  | String ch s' =>
      if Ascii.eqb ch sep then EmptyString :: split sep s'
      else match split sep s' with
           | [] => [String ch EmptyString]
           | tok :: toks => String ch tok :: toks
           end
  end.

(** [l[i]] with Python's negative indices; out of range is [IndexError]. *)
Definition getitem {A} (l : list A) (i : Z) : outcome A :=
  let n := Z.of_nat (length l) in
  let j := if i <? 0 then i + n else i in
  if (0 <=? j) && (j <? n) then
    match l !! Z.to_nat j with
    | Some x => Ret x
    | None => Raise (Exception IndexError)
    end
  else Raise (Exception IndexError).

(** [needle in s] on strings. *)
Fixpoint str_in (needle s : string) : bool :=
  String.prefix needle s ||
  match s with
  | EmptyString => false
  | String _ s' => str_in needle s'
  end.

(** Truthiness of an optional string ([None] and [''] are falsy) and
    the [or] operator on such values. *)
Definition truthy (o : option string) : bool :=
  match o with
  | Some (String _ _) => true
  | _ => false
  end.

Definition or_ (x y : option string) : option string :=
  if truthy x then x else y.

(** *** Paths *)

Definition is_sep (ch : ascii) : bool :=
  Ascii.eqb ch "/" || Ascii.eqb ch "\".

(** [os.path] is [ntpath]: the paths of the scripts are Windows paths.

    [ntpath.splitdrive] (CPython 3.11).  A path that begins with two
    separators is a UNC or device path, whose drive runs up to the second
    separator found from [start]; otherwise a colon in second place ends
    a drive letter. *)
Definition upper (ch : ascii) : ascii :=
  let n := N_of_ascii ch in
  if ((97 <=? n) && (n <=? 122))%N then ascii_of_N (n - 32) else ch.

Definition normsep (ch : ascii) : ascii :=
  if Ascii.eqb ch "/" then "\"%char else ch.

Fixpoint map_chars (f : ascii -> ascii) (s : string) : string :=
  match s with
  | EmptyString => EmptyString
  | String ch s' => String (f ch) (map_chars f s')
  end.

(** [normp.find(sep, start)]: the first separator at or after [start]. *)
Fixpoint find_sep (p : string) (start : nat) : option nat :=
  match p with
  | EmptyString => None
  | String ch p' =>
      match start with
      | O => if is_sep ch then Some O else S <$> find_sep p' O
      | S start' => S <$> find_sep p' start'
      end
  end.

Definition unc_prefix : string := "\\?\UNC\".

Definition splitdrive (p : string) : string * string :=
  match p with
  | String c1 (String c2 _) =>
      if is_sep c1 && is_sep c2 then
        let normp := map_chars normsep p in
        let start :=
          if String.eqb (map_chars upper (substring 0 8 normp)) unc_prefix
          then 8%nat else 2%nat in
        match find_sep p start with
        | None => (p, "")
        | Some index =>
            match find_sep p (S index) with
            | None => (p, "")
            | Some index2 =>
                (substring 0 index2 p, substring index2 (String.length p - index2) p)
            end
        end
      else if Ascii.eqb c2 ":" then
        (substring 0 2 p, substring 2 (String.length p - 2) p)
      else ("", p)
  | _ => ("", p)
  end.

(** [ntpath.basename]: what follows the last separator of the path after
    its drive. *)
Fixpoint basename_from (p cur : string) : string :=
  match p with
  | EmptyString => cur
  | String ch p' => if is_sep ch then basename_from p' p' else basename_from p' cur
  end.

Definition basename (p : string) : string :=
  let rest := (splitdrive p).2 in
  basename_from rest rest.

(** [str.lower] on an ASCII character. *)
Definition lower (ch : ascii) : ascii :=
  let n := N_of_ascii ch in
  if ((65 <=? n) && (n <=? 90))%N then ascii_of_N (n + 32) else ch.

Definition nonempty (s : string) : bool :=
  match s with
  | EmptyString => false
  | String _ _ => true
  end.

Definition starts_with_sep (s : string) : bool :=
  match s with
  | String ch _ => is_sep ch
  | EmptyString => false
  end.

Fixpoint last_char (s : string) : option ascii :=
  match s with
  | EmptyString => None
  | String ch EmptyString => Some ch
  | String _ s' => last_char s'
  end.

Definition ends_with (test : ascii -> bool) (s : string) : bool :=
  match last_char s with
  | Some ch => test ch
  | None => false
  end.

(** [ntpath.join] of two paths (CPython 3.11): a second path with a root
    or with another drive replaces the first; otherwise it is appended,
    after a separator unless the first path is empty or ends in one. *)
Definition join (path p : string) : string :=
  let result := splitdrive path in
  let p_drive := (splitdrive p).1 in
  let p_path := (splitdrive p).2 in
  let result :=
    if starts_with_sep p_path then
      (if nonempty p_drive || negb (nonempty result.1) then p_drive else result.1, p_path)
    else if nonempty p_drive && negb (String.eqb p_drive result.1)
            && negb (String.eqb (map_chars lower p_drive) (map_chars lower result.1))
    then (p_drive, p_path)
    else
      (if nonempty p_drive && negb (String.eqb p_drive result.1) then p_drive else result.1,
       (if nonempty result.2 && negb (ends_with is_sep result.2)
        then result.2 ++ "\" else result.2) ++ p_path) in
  if nonempty result.2 && negb (starts_with_sep result.2)
     && nonempty result.1 && negb (ends_with (fun ch => Ascii.eqb ch ":") result.1)
  then result.1 ++ "\" ++ result.2
  else result.1 ++ result.2.

(** Position of the last occurrence of [ch], as [p.rfind(ch)]. *)
Fixpoint rfind (ch : ascii) (p : string) : option nat :=
  match p with
  | EmptyString => None
  | String c p' =>
      match rfind ch p' with
      | Some i => Some (S i)
      | None => if Ascii.eqb c ch then Some 0%nat else None
      end
  end.

Fixpoint all_dots (p : string) : bool :=
  match p with
  | EmptyString => true
  | String c p' => Ascii.eqb c "." && all_dots p'
  end.

(** [os.path.splitext] on a name without separators: split at the last
    dot, unless only dots precede it. *)
Definition splitext (p : string) : string * string :=
  match rfind "." p with
  | Some i =>
      if all_dots (substring 0 i p) then (p, "")
      else (substring 0 i p, substring i (String.length p - i) p)
  | None => (p, "")
  end.

(** *** datetime *)

Record datetime : Type := mk_datetime {
  year : Z; month : Z; day : Z;
  hour : Z; minute : Z; second : Z;
  microsecond : Z
}.

Definition is_leap (y : Z) : bool :=
  (y mod 4 =? 0) && (negb (y mod 100 =? 0) || (y mod 400 =? 0)).

Definition days_in_month (y m : Z) : Z :=
  if m =? 2 then (if is_leap y then 29 else 28)
  else if (m =? 4) || (m =? 6) || (m =? 9) || (m =? 11) then 30
  else 31.

(** The checks of the [datetime] constructor. *)
Definition valid_datetime (t : datetime) : bool :=
  (1 <=? year t) && (year t <=? 9999) &&
  (1 <=? month t) && (month t <=? 12) &&
  (1 <=? day t) && (day t <=? days_in_month (year t) (month t)) &&
  (0 <=? hour t) && (hour t <=? 23) &&
  (0 <=? minute t) && (minute t <=? 59) &&
  (0 <=? second t) && (second t <=? 59) &&
  (0 <=? microsecond t) && (microsecond t <=? 999999).

(** *** strptime

    [_strptime] turns the format into a regular expression, one group per
    directive, and runs a backtracking match anchored at the start of the
    data.  Every directive is an ordered list of fixed-length
    alternatives; the table is CPython's for the six directives the
    scripts use.  The match found first must consume all of the data, and
    the fields must pass the checks of the [datetime] constructor. *)

Inductive cls : Type :=
  | D (lo hi : Z)      (* a digit in the range [lo-hi] *)
  | Blank.             (* a literal space *)

Definition directive_regex (d : ascii) : option (list (list cls)) :=
  if Ascii.eqb d "Y" then Some [[D 0 9; D 0 9; D 0 9; D 0 9]]
  else if Ascii.eqb d "m" then Some [[D 1 1; D 0 2]; [D 0 0; D 1 9]; [D 1 9]]
  else if Ascii.eqb d "d" then
    Some [[D 3 3; D 0 1]; [D 1 2; D 0 9]; [D 0 0; D 1 9]; [D 1 9]; [Blank; D 1 9]]
  else if Ascii.eqb d "H" then Some [[D 2 2; D 0 3]; [D 0 1; D 0 9]; [D 0 9]]
  else if Ascii.eqb d "M" then Some [[D 0 5; D 0 9]; [D 0 9]]
  else if Ascii.eqb d "S" then Some [[D 6 6; D 0 1]; [D 0 5; D 0 9]; [D 0 9]]
  else None.

Inductive pitem : Type :=
  | PDir (name : ascii) (alts : list (list cls))
  | PLit (ch : ascii)
  | PSpaces.                                   (* \s+ *)

Definition is_space (ch : ascii) : bool :=
  let n := Z.of_N (N_of_ascii ch) in
  ((9 <=? n) && (n <=? 13)) || ((28 <=? n) && (n <=? 32)).

Definition digit_val (ch : ascii) : option Z :=
  let n := Z.of_N (N_of_ascii ch) in
  if (48 <=? n) && (n <=? 57) then Some (n - 48) else None.

(** The format as a list of pattern items; [None] for a directive outside
    the table above.  A run of whitespace in the format becomes [\s+]. *)
Fixpoint compile_format (fmt : string) : option (list pitem) :=
  match fmt with
  | EmptyString => Some []
  | String ch rest =>
      if Ascii.eqb ch "%" then
        match rest with
        | String d rest' =>
            alts ← directive_regex d;
            p ← compile_format rest';
            Some (PDir d alts :: p)
        | EmptyString => None
        end
      else if is_space ch then
        p ← compile_format rest;
        Some (match p with
              | PSpaces :: _ => p
              | _ => PSpaces :: p
              end)
      else
        p ← compile_format rest;
        Some (PLit ch :: p)
  end.

(** One alternative against the head of the data: the integer read from
    the matched text, and what is left. *)
Fixpoint match_alt (alt : list cls) (s : string) (acc : Z) : option (Z * string) :=
  match alt with
  | [] => Some (acc, s)
  | c :: alt' =>
      match s with
      | EmptyString => None
      | String ch s' =>
          match c with
          | D lo hi =>
              v ← digit_val ch;
              if (lo <=? v) && (v <=? hi) then match_alt alt' s' (10 * acc + v)
              else None
          | Blank =>
              if Ascii.eqb ch " " then match_alt alt' s' acc else None
          end
      end
  end.

(** The ways [\s+] can match, longest first. *)
Fixpoint spaces_matches (s : string) : list string :=
  match s with
  | String ch s' => if is_space ch then spaces_matches s' ++ [s'] else []
  | EmptyString => []
  end.

(** All matches of the pattern, in the order the backtracking search
    finds them; each with the groups and the unconsumed rest. *)
Fixpoint re_match (p : list pitem) (s : string) (groups : list (ascii * Z))
  : list (list (ascii * Z) * string) :=
  match p with
  | [] => [(groups, s)]
  | PDir name alts :: p' =>
      alt ← alts;
      match match_alt alt s 0 with
      | Some (v, s') => re_match p' s' ((name, v) :: groups)
      | None => []
      end
  | PLit ch :: p' =>
      match s with
      | String c s' =>
          if Ascii.eqb (lower c) (lower ch) then re_match p' s' groups else []
      | EmptyString => []
      end
  | PSpaces :: p' =>
      s' ← spaces_matches s;
      re_match p' s' groups
  end.

Fixpoint group (name : ascii) (dflt : Z) (groups : list (ascii * Z)) : Z :=
  match groups with
  | [] => dflt
  | (n, v) :: gs => if Ascii.eqb n name then v else group name dflt gs
  end.

(** [datetime.strptime(data_string, format)]. *)
Definition strptime (data_string format : string) : outcome datetime :=
  match compile_format format with
  | None => Raise (Exception ValueError)
  | Some p =>
      match re_match p data_string [] with
      | [] => Raise (Exception ValueError)
      | (groups, rest) :: _ =>
          match rest with
          | String _ _ => Raise (Exception ValueError)
          | EmptyString =>
              let t := {| year := group "Y" 1900 groups;
                          month := group "m" 1 groups;
                          day := group "d" 1 groups;
                          hour := group "H" 0 groups;
                          minute := group "M" 0 groups;
                          second := group "S" 0 groups;
                          microsecond := 0 |} in
              if valid_datetime t then Ret t else Raise (Exception ValueError)
          end
      end
  end.

(** *** Formatting *)

Definition dec_digit (d : Z) : ascii := ascii_of_N (Z.to_N (48 + d mod 10)).

(** [%0wd] for a value of at most [w] digits. *)
Fixpoint dec_fixed (w : nat) (n : Z) : string :=
  match w with
  | O => ""
  | S w' => String (dec_digit (n / 10 ^ Z.of_nat w')) (dec_fixed w' n)
  end.

(** [t.isoformat()]: the fraction is printed only when it is not zero. *)
Definition isoformat (t : datetime) : string :=
  dec_fixed 4 (year t) ++ "-" ++ dec_fixed 2 (month t) ++ "-" ++ dec_fixed 2 (day t)
  ++ "T" ++ dec_fixed 2 (hour t) ++ ":" ++ dec_fixed 2 (minute t) ++ ":"
  ++ dec_fixed 2 (second t)
  ++ (if microsecond t =? 0 then "" else "." ++ dec_fixed 6 (microsecond t)).

Definition hex_digit (d : Z) : ascii :=
  if d <? 10 then ascii_of_N (Z.to_N (48 + d)) else ascii_of_N (Z.to_N (87 + d)).

(** [%0wx] for a value below [16^w]. *)
Fixpoint hex_fixed (w : nat) (n : Z) : string :=
  match w with
  | O => ""
  | S w' => String (hex_digit (Z.land (Z.shiftr n (4 * Z.of_nat w')) 15)) (hex_fixed w' n)
  end.

(** *** uuid

    [uuid.uuid4()] is [UUID(bytes=os.urandom(16), version=4)]: the sixteen
    random bytes, read as a big-endian integer [r], with the variant and
    version bits overwritten. *)
Definition uuid4 (r : Z) : Z :=
  let i := r mod 2 ^ 128 in
  let i := Z.land i (Z.lnot (Z.shiftl 49152 48)) in       (* ~(0xc000 << 48) *)
  let i := Z.lor i (Z.shiftl 32768 48) in                 (* 0x8000 << 48 *)
  let i := Z.land i (Z.lnot (Z.shiftl 61440 64)) in       (* ~(0xf000 << 64) *)
  Z.lor i (Z.shiftl 4 76).                                (* version << 76 *)

(** [str(u)]: thirty-two hex digits in groups of 8-4-4-4-12. *)
Definition uuid_str (u : Z) : string :=
  let hex := hex_fixed 32 u in
  substring 0 8 hex ++ "-" ++ substring 8 4 hex ++ "-" ++ substring 12 4 hex
  ++ "-" ++ substring 16 4 hex ++ "-" ++ substring 20 12 hex.

End Py.

(* ===================================================================== *)
(** ** Data model *)
(* ===================================================================== *)

(** A spatial reference, compared as rasterio compares a [CRS] with a
    reference string. *)
Definition CRS : Type := string.

(** [rasterio]'s [BoundingBox(left, bottom, right, top)]; also the shape of
    the 4-tuple [transform_bounds] returns. *)
Record BoundingBox : Type := mk_bounds {
  bb_left : float; bb_bottom : float; bb_right : float; bb_top : float
}.

(** A GeoJSON-like geometry mapping: its type and its rings. *)
Record Geometry : Type := mk_geometry {
  geom_type : string;
  coordinates : list (list (float * float))
}.

(** [shapely.geometry.box(minx, miny, maxx, maxy)]: the exterior ring,
    counter-clockwise and closed. *)
Definition box (minx miny maxx maxy : float) : list (float * float) :=
  [(maxx, miny); (maxx, maxy); (minx, maxy); (minx, miny); (maxx, miny)].

(** [shapely.geometry.mapping] of a polygon with that exterior ring. *)
Definition mapping (ring : list (float * float)) : Geometry :=
  {| geom_type := "Polygon"; coordinates := [ring] |}.

(** The six coefficients of the affine transform. *)
Record Affine : Type := mk_affine {
  aff_a : float; aff_b : float; aff_c : float;
  aff_d : float; aff_e : float; aff_f : float
}.

(** What an opened raster exposes. *)
Record RasterSource : Type := mk_source {
  crs : option CRS;
  bounds : BoundingBox;
  shape : Z * Z;
  transform : Affine;
  tags : gmap string string
}.

(** The dictionary [get_metadata_from_tif] returns. *)
Record Metadata : Type := mk_metadata {
  md_id : string;
  md_datetime : Py.datetime;
  md_geometry : Geometry;
  md_product_name : string;
  md_band_name : string;
  md_shape : Z * Z;
  md_transform : Affine
}.

(** The EO3 document [build_eo3_dict] returns. *)
Record EO3Doc : Type := mk_doc {
  doc_id : string;
  doc_product_name : string;
  doc_label : string;
  doc_location : string;
  doc_crs : CRS;
  doc_processing_datetime : string;
  doc_datetime : string;
  doc_capella_filename : string;
  doc_geometry : Geometry;
  doc_grid_shape : list Z;
  doc_grid_transform : list float;
  doc_grid_crs : CRS;
  doc_measurements : gmap string string;     (* band name -> path *)
  doc_lineage : gmap string string
}.

(** A STAC asset and a STAC item. *)
Record Asset : Type := mk_asset {
  href : string;
  media_type : string;
  title : string;
  roles : list string
}.

Record Item : Type := mk_item {
  item_id : string;
  item_geometry : option Geometry;
  item_bbox : option BoundingBox;
  item_datetime : option Py.datetime;
  item_assets : gmap string Asset
}.

(** The dataset record [Doc2Dataset] resolves a document into. *)
Record Dataset : Type := mk_dataset {
  ds_doc : EO3Doc;
  ds_uri : string;
  ds_product : string
}.

(* ===================================================================== *)
(** ** 03_test_dataset.py: the product definitions *)
(* ===================================================================== *)

Module Products.

Record Measurement : Type := mk_measurement {
  m_name : string;
  m_dtype : string;
  m_nodata : float;
  m_units : string
}.

Record ProductDef : Type := mk_product {
  p_name : string;
  p_description : string;
  p_license : string;
  p_metadata_type : string;
  p_metadata_product_name : string;            (* metadata.product.name *)
  p_storage_crs : CRS;
  p_resolution_latitude : float;
  p_resolution_longitude : float;
  p_measurements : list Measurement
}.

(** The doubles nearest to -0.0001 and 0.0001. *)
Definition PRODUCT_GEC_HH_DEF : ProductDef :=
  {| p_name := "capella_gec_hh";
     p_description := "Capella GEC HH Polarization";
     p_license := "proprietary";
     p_metadata_type := "eo3";
     p_metadata_product_name := "capella_gec_hh";
     p_storage_crs := "EPSG:4326";
     p_resolution_latitude := (-0x1.a36e2eb1c432dp-14)%float;
     p_resolution_longitude := 0x1.a36e2eb1c432dp-14%float;
     p_measurements := [mk_measurement "hh" "float32" 0%float "1"] |}.

Definition PRODUCT_GEC_VV_DEF : ProductDef :=
  {| p_name := "capella_gec_vv";
     p_description := "Capella GEC VV Polarization";
     p_license := "proprietary";
     p_metadata_type := "eo3";
     p_metadata_product_name := "capella_gec_vv";
     p_storage_crs := "EPSG:4326";
     p_resolution_latitude := (-0x1.a36e2eb1c432dp-14)%float;
     p_resolution_longitude := 0x1.a36e2eb1c432dp-14%float;
     p_measurements := [mk_measurement "vv" "float32" 0%float "1"] |}.

(** The dictionary of [main] (line 179), in the order it is walked. *)
Definition products : list (string * ProductDef) :=
  [("capella_gec_hh", PRODUCT_GEC_HH_DEF); ("capella_gec_vv", PRODUCT_GEC_VV_DEF)].

End Products.

(** What the read-back of STEP 5 reports about the loaded data: its
    variables, the shape of the [hh] band, and how many of its pixels are
    neither NaN nor zero. *)
Record Loaded : Type := mk_loaded {
  data_vars : list string;
  values_shape : list Z;
  valid_count : Z
}.

(** Calls made into the datacube index, in order. *)
Inductive index_call : Type :=
  | CallResolve (doc : EO3Doc) (uri : string)
  | CallUpdate (ds : Dataset)
  | CallAdd (ds : Dataset).

(** Lines the scripts print. *)
Inductive msg : Type :=
  | MsgStart
  | MsgSkipNoCRS (filename : string)
  | MsgTagTime (t : Py.datetime)
  | MsgTagFailed (filename : string)
  | MsgFilenameTime (t : Py.datetime)
  | MsgFallbackNow (filename : string)
  | MsgFound (n : nat)
  | MsgProcessing (filename : string)
  | MsgError (tif_path : string)
  | MsgUpdateExtent
  | MsgNormalize
  | MsgSaving
  | MsgDone (root : string)
  | MsgVerifyHeader
  | MsgVerifyId (id : string)
  | MsgVerifyDatetime (t : option Py.datetime)
  | MsgVerifyHref (href : string)
  | MsgVerifyFooter
  | MsgVerifyFailed
  | MsgStep (n : Z)
  | MsgRun (command : list string)
  | MsgNoTif
  | MsgFormatError (id : string) (err : string)
  | MsgAdded (id : string)
  | MsgWriteFailed (id : string)
  | MsgProcessingError (id : string)
  | MsgSummary (success_count : Z)
  | MsgVerify
  | MsgSampleId (id : string)
  | MsgSampleCRS (c : option CRS)
  | MsgLoading
  | MsgLoaded (data : Loaded)
  | MsgLoadEmpty
  | MsgLoadFailed
  | MsgNoDatasets
  | MsgNothingIndexed.

(* ===================================================================== *)
(** ** The environment and the world *)
(* ===================================================================== *)

(** The collaborators.  The datacube index is stateful: what it answers
    may depend on every call made to it so far.  The last eleven fields
    are the calls the scripts make outside their loops over the files. *)
Record Env : Type := mk_env {
  glob_tif : list string;                                  (* glob.glob(DIR/*.tif) *)
  rasterio_open : string -> lib_result RasterSource;
  transform_bounds : CRS -> BoundingBox -> lib_result BoundingBox;
  transform_geom : CRS -> Geometry -> lib_result Geometry;
  abspath : string -> string;
  as_uri : string -> string;
  wall_clock : nat -> Py.datetime;                         (* n-th reading of the clock *)
  urandom16 : nat -> Z;                                    (* n-th draw of 16 random bytes *)
  yaml_write : string -> EO3Doc -> lib_result unit;        (* open(path,'w') + yaml.dump *)
  resolver : list index_call -> EO3Doc -> string
             -> lib_result (option Dataset * option string);
  datasets_update : list index_call -> Dataset -> lib_result unit;
  datasets_add : list index_call -> Dataset -> lib_result unit;
  makedirs : string -> lib_result unit;                    (* os.makedirs(dir, exist_ok=True) *)
  update_extent_from_items : list Item -> lib_result unit;
  normalize_hrefs : list Item -> lib_result unit;
  catalog_save : list Item -> lib_result unit;
  read_catalog : list Item -> lib_result (option Item);    (* read_file, describe, first item *)
  subprocess_run : list string -> lib_result (Z * string); (* return code and error output *)
  product_write : string -> Products.ProductDef -> lib_result unit;
  Datacube : lib_result unit;                              (* Datacube(app=...), Doc2Dataset *)
  find_datasets : list index_call -> string -> lib_result (list Dataset);
  dataset_crs : Dataset -> lib_result (option CRS);        (* the property ds.crs *)
  dc_load : list index_call -> Dataset -> lib_result (option Loaded)
    (* dc.load and the summary of its band; None: no data or no hh band *)
}.

Record World : Type := mk_world {
  clock : nat;                                 (* readings of the clock so far *)
  draws : nat;                                 (* random draws so far *)
  stdout : list msg;
  collection : list Item;                      (* items of the STAC collection *)
  yaml_files : list (string * EO3Doc);
  index_calls : list index_call
}.

Definition tick (w : World) : World :=
  mk_world (S (clock w)) (draws w) (stdout w) (collection w) (yaml_files w) (index_calls w).
Definition drawn (w : World) : World :=
  mk_world (clock w) (S (draws w)) (stdout w) (collection w) (yaml_files w) (index_calls w).
Definition printed (m : msg) (w : World) : World :=
  mk_world (clock w) (draws w) (stdout w ++ [m]) (collection w) (yaml_files w) (index_calls w).
Definition with_item (it : Item) (w : World) : World :=
  mk_world (clock w) (draws w) (stdout w) (collection w ++ [it]) (yaml_files w) (index_calls w).
Definition with_yaml (path : string) (doc : EO3Doc) (w : World) : World :=
  mk_world (clock w) (draws w) (stdout w) (collection w) (yaml_files w ++ [(path, doc)])
           (index_calls w).
Definition called (c : index_call) (w : World) : World :=
  mk_world (clock w) (draws w) (stdout w) (collection w) (yaml_files w) (index_calls w ++ [c]).

(** Computations: state passing, with exceptions.  The state reached when
    an exception is raised is kept. *)
Definition M (A : Type) : Type := World -> outcome A * World.

#[global] Instance M_ret : MRet M := fun A a w => (Ret a, w).
#[global] Instance M_bind : MBind M := fun A B f m w =>
  match m w with
  | (Ret a, w') => f a w'
  | (Raise e, w') => (Raise e, w')
  end.

Definition raise {A} (e : exn) : M A := fun w => (Raise e, w).
Definition lift {A} (o : outcome A) : M A := fun w => (o, w).
Definition print (m : msg) : M unit := fun w => (Ret tt, printed m w).
Definition now (E : Env) : M Py.datetime := fun w => (Ret (wall_clock E (clock w)), tick w).

(** [try: body  except Exception as e: handler e] *)
Definition try_except {A} (body : M A) (handler : error -> M A) : M A := fun w =>
  match body w with
  | (Raise (Exception e), w') => handler e w'
  | r => r
  end.

(** [try: body  except ValueError: handler] *)
Definition try_except_ValueError {A} (body : M A) (handler : M A) : M A := fun w =>
  match body w with
  | (Raise (Exception ValueError), w') => handler w'
  | r => r
  end.

(** [for x in xs: body x], threading a loop variable. *)
Fixpoint for_each {A S} (xs : list A) (body : A -> S -> M S) (s : S) : M S :=
  match xs with
  | [] => mret s
  | x :: xs' => s' ← body x s; for_each xs' body s'
  end.

(* ===================================================================== *)
(** ** Timestamp steps shared by the two scripts *)
(* ===================================================================== *)

(** The embedded tag: [tags.get('TIFFTAG_DATETIME') or tags.get('DATETIME')],
    parsed when truthy (01_create_stac.py lines 67-73, 03_test_dataset.py
    lines 103-105).  May raise; each caller has its own handler. *)
Definition tag_datetime (tags : gmap string string) : outcome (option Py.datetime) :=
  let datetime_str := Py.or_ (tags !! "TIFFTAG_DATETIME") (tags !! "DATETIME") in
  match datetime_str with
  | Some (String _ _ as str) =>
      t ← Py.strptime str "%Y:%m:%d %H:%M:%S"; Ret (Some t)
  | _ => Ret None
  end.

(** The timestamp field of the filename (01_create_stac.py lines 82-89,
    03_test_dataset.py lines 112-114).  May raise [IndexError] or
    [ValueError]. *)
Definition filename_datetime (item_id : string) : outcome Py.datetime :=
  let parts := Py.split "_" item_id in
  last ← Py.getitem parts (-1);
  timestamp_str ← (if String.eqb last "preview" then Py.getitem parts (-3)
                   else Py.getitem parts (-2));
  Py.strptime timestamp_str "%Y%m%d%H%M%S".

(* ===================================================================== *)
(** ** 01_create_stac.py: browsing mode *)
(* ===================================================================== *)

Module CreateStac.

Definition stac_info : Type :=
  option string * option Py.datetime * option BoundingBox * option Geometry.

(** The footprint in EPSG:4326 (lines 51-63): bounding box and polygon,
    reprojected together unless the source is already in EPSG:4326. *)
Definition footprint (E : Env) (src_crs : CRS) (bounds : BoundingBox)
  : M (BoundingBox * Geometry) :=
  let bbox_geom :=
    box (bb_left bounds) (bb_bottom bounds) (bb_right bounds) (bb_top bounds) in
  if negb (String.eqb src_crs "EPSG:4326") then
    bbox_wgs84 ← lift (lift_lib (transform_bounds E src_crs bounds));
    geom_wgs84 ← lift (lift_lib (transform_geom E src_crs (mapping bbox_geom)));
    mret (bbox_wgs84, geom_wgs84)
  else mret (bounds, mapping bbox_geom).

(** The acquisition time (lines 65-94): the tag, else the file name, else
    the clock. *)
Definition acquisition_time (E : Env) (filename item_id : string)
    (tags : gmap string string) : M Py.datetime :=
  item_datetime ←
    try_except
      (o ← lift (tag_datetime tags);
       match o with
       | Some t => print (MsgTagTime t);; mret (Some t)
       | None => mret None
       end)
      (fun _ => print (MsgTagFailed filename);; mret None);
  match item_datetime with
  | None =>
      try_except
        (t ← lift (filename_datetime item_id);
         print (MsgFilenameTime t);; mret t)
        (fun _ => print (MsgFallbackNow filename);; now E)
  | Some t => mret t
  end.

Definition get_stac_info_from_tif (E : Env) (tif_path : string) : M stac_info :=
  let filename := Py.basename tif_path in
  let item_id := (Py.splitext filename).1 in
  src ← lift (lift_lib (rasterio_open E tif_path));
  match crs src with
  | None =>
      print (MsgSkipNoCRS filename);;
      mret (None, None, None, None)
  | Some src_crs =>
      '(bbox_wgs84, geom_wgs84) ← footprint E src_crs (bounds src);
      item_datetime ← acquisition_time E filename item_id (tags src);
      mret (Some item_id, Some item_datetime, Some bbox_wgs84, Some geom_wgs84)
  end.

(** [pystac.Item(...)]: an item needs a datetime. *)
Definition pystac_Item (id : string) (geometry : option Geometry)
    (bbox : option BoundingBox) (dt : option Py.datetime) : outcome Item :=
  match dt with
  | None => Raise (Exception (OtherError "STACError"))
  | Some _ => Ret (mk_item id geometry bbox dt ∅)
  end.

Definition add_asset (it : Item) (key : string) (asset : Asset) : Item :=
  mk_item (item_id it) (item_geometry it) (item_bbox it) (item_datetime it)
          (<[key := asset]> (item_assets it)).

Definition GEOTIFF : string := "image/tiff; application=geotiff".

(** The roles of the asset, from the file name (lines 155-159). *)
Definition asset_roles (filename : string) : list string :=
  if Py.str_in "preview" filename then ["thumbnail"]
  else if Py.str_in "GEC" filename || Py.str_in "GEO" filename then ["data"; "visual"]
  else ["data"].

(** [collection.add_item(item)] *)
Definition add_item (it : Item) : M unit := fun w => (Ret tt, with_item it w).

(** The body of the loop over the files (lines 129-175). *)
Definition process_tif (E : Env) (tif_path : string) : M unit :=
  try_except
    (let filename := Py.basename tif_path in
     print (MsgProcessing filename);;
     '(item_id, item_datetime, bbox_wgs84, geom_wgs84) ← get_stac_info_from_tif E tif_path;
     match item_id with
     | None => mret tt                                         (* continue *)
     | Some item_id =>
         item ← lift (pystac_Item item_id geom_wgs84 bbox_wgs84 item_datetime);
         let tif_abs_path := abspath E tif_path in
         let item := add_asset item "data"
                       (mk_asset tif_abs_path GEOTIFF (item_id ++ " (GeoTIFF)")
                                 (asset_roles filename)) in
         add_item item
     end)
    (fun _ => print (MsgError tif_path)).

Definition ROOT_DIR : string := "D:\Capalla_data\stac".

(** A call into a collaborator that is given the collection as it is. *)
Definition with_collection {A} (call : list Item -> lib_result A) : M A :=
  fun w => (lift_lib (call (collection w)), w).

(** The read-back at the end (lines 194-210); whatever it raises is
    printed. *)
Definition verify (E : Env) : M unit :=
  try_except
    (first_item ← with_collection (read_catalog E);
     match first_item with
     | Some it =>
         print MsgVerifyHeader;;
         print (MsgVerifyId (item_id it));;
         print (MsgVerifyDatetime (item_datetime it));;
         match item_assets it !! "data" with
         | Some asset => print (MsgVerifyHref (href asset))
         | None => mret tt
         end;;
         print MsgVerifyFooter
     | None => mret tt
     end)
    (fun _ => print MsgVerifyFailed).

(** Extent, links and saving (lines 177-191).  Nothing catches an
    exception of the three calls. *)
Definition finalize (E : Env) : M unit :=
  print MsgUpdateExtent;;
  with_collection (update_extent_from_items E);;
  print MsgNormalize;;
  with_collection (normalize_hrefs E);;
  print MsgSaving;;
  with_collection (catalog_save E);;
  print (MsgDone (abspath E ROOT_DIR)).

(** The script (lines 100-210).  The catalog and the collection are built
    in memory (lines 104-118); the placeholder extent of the collection
    reads the clock twice.  Nothing catches an exception of [os.makedirs]
    either. *)
Definition script (E : Env) : M unit :=
  print MsgStart;;
  lift (lift_lib (makedirs E ROOT_DIR));;
  _ ← now E;
  _ ← now E;
  let tif_files := glob_tif E in
  match tif_files with
  | [] => raise (SystemExit "no .tif file found")
  | _ =>
      print (MsgFound (length tif_files));;
      for_each tif_files (fun tif_path _ => process_tif E tif_path) tt;;
      finalize E;;
      verify E
  end.

End CreateStac.

(* ===================================================================== *)
(** ** 03_test_dataset.py: indexing mode *)
(* ===================================================================== *)

Module TestDataset.

Definition ODC_DATASET_DIR : string := "odc_datasets".

(** [os.path.join] of one of the two relative directories of the script
    and a name that begins with [ds_] or is the name of a product: such a
    name has no drive and no root, and is appended after a separator. *)
Definition path_join (dir name : string) : string := dir ++ "\" ++ name.

(** The polygon in EPSG:4326 (lines 92-100); a reprojection that raises
    ends the extraction. *)
Definition footprint (E : Env) (src_crs : CRS) (bounds : BoundingBox) : option Geometry :=
  let bbox_geom :=
    box (bb_left bounds) (bb_bottom bounds) (bb_right bounds) (bb_top bounds) in
  if negb (String.eqb src_crs "EPSG:4326") then
    match transform_geom E src_crs (mapping bbox_geom) with
    | inr geom_wgs84 => Some geom_wgs84
    | inl _ => None
    end
  else Some (mapping bbox_geom).

(** The acquisition time (lines 102-115): the tag, else the file name,
    else nothing. *)
Definition acquisition_time (tags : gmap string string) (item_id : string)
  : option Py.datetime :=
  let item_datetime :=
    match tag_datetime tags with
    | Ret o => o
    | Raise _ => None                                            (* except: pass *)
    end in
  match item_datetime with
  | None =>
      match filename_datetime item_id with
      | Ret t => Some t
      | Raise _ => None                                          (* except: return None *)
      end
  | Some t => Some t
  end.

(** Product and band from the markers in the name (lines 117-119). *)
Definition classify (item_id : string) : option (string * string) :=
  if Py.str_in "_GEC_HH_" item_id then Some ("capella_gec_hh", "hh")
  else if Py.str_in "_GEC_VV_" item_id then Some ("capella_gec_vv", "vv")
  else None.

(** Every exception is swallowed here: the result is a dictionary or
    [None]. *)
Definition get_metadata_from_tif (E : Env) (tif_path : string) : option Metadata :=
  let filename := Py.basename tif_path in
  let item_id := (Py.splitext filename).1 in
  match rasterio_open E tif_path with
  | inl _ => None
  | inr src =>
      match crs src with
      | None => None
      | Some src_crs =>
          geom_wgs84 ← footprint E src_crs (bounds src);
          item_datetime ← acquisition_time (tags src) item_id;
          '(p_name, b_name) ← classify item_id;
          Some {| md_id := item_id;
                  md_datetime := item_datetime;
                  md_geometry := geom_wgs84;
                  md_product_name := p_name;
                  md_band_name := b_name;
                  md_shape := shape src;
                  md_transform := transform src |}
      end
  end.

(** [str(uuid.uuid4())]: one draw of sixteen random bytes. *)
Definition fresh_uuid (E : Env) : M string :=
  fun w => (Ret (Py.uuid_str (Py.uuid4 (urandom16 E (draws w)))), drawn w).

Definition build_eo3_dict (E : Env) (metadata : Metadata) (tif_path : string) : M EO3Doc :=
  dataset_uuid ← fresh_uuid E;
  let absolute_tif_path := abspath E tif_path in
  let tif_uri := as_uri E absolute_tif_path in
  processing ← now E;
  mret {| doc_id := dataset_uuid;
          doc_product_name := md_product_name metadata;
          doc_label := md_id metadata;
          doc_location := tif_uri;
          doc_crs := "EPSG:4326";
          doc_processing_datetime := Py.isoformat processing;
          doc_datetime := Py.isoformat (md_datetime metadata);
          doc_capella_filename := md_id metadata;
          doc_geometry := md_geometry metadata;
          doc_grid_shape := [(md_shape metadata).1; (md_shape metadata).2];
          doc_grid_transform :=
            [aff_a (md_transform metadata); aff_b (md_transform metadata);
             aff_c (md_transform metadata); aff_d (md_transform metadata);
             aff_e (md_transform metadata); aff_f (md_transform metadata)];
          doc_grid_crs := "EPSG:4326";
          doc_measurements := {[ md_band_name metadata := Py.basename absolute_tif_path ]};
          doc_lineage := ∅ |}.

(** Calls into the collaborators; the index sees its own history. *)
Definition yaml_dump (E : Env) (yaml_path : string) (doc : EO3Doc) : M unit := fun w =>
  match yaml_write E yaml_path doc with
  | inl e => (Raise (Exception e), w)
  | inr _ => (Ret tt, with_yaml yaml_path doc w)
  end.

Definition call_resolver (E : Env) (doc : EO3Doc) (uri : string)
  : M (option Dataset * option string) := fun w =>
  (lift_lib (resolver E (index_calls w) doc uri), called (CallResolve doc uri) w).

Definition index_update (E : Env) (dataset : option Dataset) : M unit := fun w =>
  match dataset with
  | None => (Raise (Exception (OtherError "AttributeError")), w)
  | Some ds => (lift_lib (datasets_update E (index_calls w) ds), called (CallUpdate ds) w)
  end.

Definition index_add (E : Env) (dataset : option Dataset) : M unit := fun w =>
  match dataset with
  | None => (Raise (Exception (OtherError "AttributeError")), w)
  | Some ds => (lift_lib (datasets_add E (index_calls w) ds), called (CallAdd ds) w)
  end.

(** The registration of one resolved document (lines 211-232). *)
Definition register (E : Env) (meta : Metadata) (doc_dict : EO3Doc) (yaml_path : string)
    (success_count : Z) : M Z :=
  try_except
    (let yaml_uri := as_uri E (abspath E yaml_path) in
     '(dataset, err_msg) ← call_resolver E doc_dict yaml_uri;
     match err_msg with
     | Some (String _ _ as err) =>
         print (MsgFormatError (md_id meta) err);;
         mret success_count                                     (* continue *)
     | _ =>
         try_except_ValueError
           (index_update E dataset;;
            mret (success_count + 1))
           (try_except
              (index_add E dataset;;
               print (MsgAdded (md_id meta));;
               mret (success_count + 1))
              (fun _ => print (MsgWriteFailed (md_id meta));; mret success_count))
     end)
    (fun _ => print (MsgProcessingError (md_id meta));; mret success_count).

(** The body of the loop over the files (lines 201-232). *)
Definition index_tif (E : Env) (tif : string) (success_count : Z) : M Z :=
  match get_metadata_from_tif E tif with
  | None => mret success_count                                  (* continue *)
  | Some meta =>
      doc_dict ← build_eo3_dict E meta tif;
      let yaml_path := path_join ODC_DATASET_DIR ("ds_" ++ md_id meta ++ ".yaml") in
      yaml_dump E yaml_path doc_dict;;
      register E meta doc_dict yaml_path success_count
  end.

Definition ODC_PRODUCT_DIR : string := "odc_products".

(** [run_command] (lines 71-78): the command is printed and run; neither
    the return code nor the error output changes anything, but an
    exception of [subprocess.run] is not caught. *)
Definition run_command (E : Env) (command : list string) : M unit :=
  print (MsgRun command);;
  result ← lift (lift_lib (subprocess_run E command));
  if negb (result.1 =? 0) then
    if negb (Py.str_in "already exists" result.2)
       && negb (Py.str_in "Nothing to do" result.2)
    then mret tt
    else mret tt
  else mret tt.

(** STEP 2 for one product (lines 180-184). *)
Definition add_product (E : Env) (product : string * Products.ProductDef) : M unit :=
  let path := path_join ODC_PRODUCT_DIR (product.1 ++ ".yaml") in
  lift (lift_lib (product_write E path product.2));;
  run_command E ["datacube"; "product"; "add"; path].

(** What [main] does before it looks for files (lines 173-191).  Nothing
    here is inside a [try]. *)
Definition setup (E : Env) : M unit :=
  print (MsgStep 1);;
  run_command E ["datacube"; "system"; "init"];;
  print (MsgStep 2);;
  lift (lift_lib (makedirs E ODC_PRODUCT_DIR));;
  for_each Products.products (fun product _ => add_product E product) tt;;
  print (MsgStep 3);;
  lift (lift_lib (Datacube E));;
  lift (lift_lib (makedirs E ODC_DATASET_DIR)).

(** A read-only query of the index; it is not recorded among the calls. *)
Definition query {A} (call : list index_call -> lib_result A) : M A :=
  fun w => (lift_lib (call (index_calls w)), w).

(** STEP 5 (lines 236-279).  Only the load is inside a [try]: the query
    of the datasets and the property [ds.crs] are not. *)
Definition read_back (E : Env) (success_count : Z) : M unit :=
  print (MsgStep 5);;
  if 0 <? success_count then
    print MsgVerify;;
    datasets ← query (fun history => find_datasets E history "capella_gec_hh");
    match datasets with
    | ds :: _ =>
        print (MsgSampleId (doc_id (ds_doc ds)));;
        c ← lift (lift_lib (dataset_crs E ds));
        print (MsgSampleCRS c);;
        try_except
          (print MsgLoading;;
           data ← query (fun history => dc_load E history ds);
           match data with
           | Some loaded => print (MsgLoaded loaded)
           | None => print MsgLoadEmpty
           end)
          (fun _ => print MsgLoadFailed)
    | [] => print MsgNoDatasets
    end
  else print MsgNothingIndexed.

(** [main] (lines 172-279).  Before it is called the module sets an
    environment variable when the configuration file exists and registers
    a YAML constructor (lines 29-35). *)
Definition main (E : Env) : M unit :=
  setup E;;
  let tif_files := glob_tif E in
  match tif_files with
  | [] => print MsgNoTif;; mret tt                              (* return *)
  | _ =>
      print (MsgFound (length tif_files));;
      success_count ← for_each tif_files (index_tif E) 0;
      print (MsgSummary success_count);;
      read_back E success_count
  end.

End TestDataset.

(* ===================================================================== *)
(** ** 02_create_cog.py: conversion to cloud-optimised files *)
(* ===================================================================== *)

(** The script sees the file system through [os.makedirs] and
    [os.path.exists] and changes it through [cog_translate]; the model
    keeps the set of paths that exist. The library calls are fields of the
    environment: each is given the paths that exist and answers with the
    paths that exist afterwards (a translation that raises may still have
    left something behind). *)
Module CreateCog.

Definition SOURCE_DIR : string := "D:\Capalla_data\tif_file".
Definition COG_DIR : string := "D:\Capalla_data\cog_files".

Inductive message : Type :=
  | MsgStart (n : nat)                          (* line 18 *)
  | MsgSkipSLC (filename : string)              (* line 25 *)
  | MsgSkipExists (filename : string)           (* line 31 *)
  | MsgConverting (filename : string)           (* line 35 *)
  | MsgIOError (filename : string) (e : error)  (* line 43 *)
  | MsgOtherError (filename : string) (e : error) (* line 45 *)
  | MsgDone.                                    (* line 47 *)

Record CogEnv : Type := mk_cog_env {
  makedirs : gset string -> lib_result (gset string);   (* of COG_DIR, exist_ok=True *)
  tif_files : list string;                              (* glob of SOURCE_DIR\*.tif *)
  cog_translate : gset string -> string -> string -> lib_result unit * gset string
}.

Record CogWorld : Type := mk_cog_world {
  files : gset string;                    (* the paths that exist *)
  translations : list (string * string);  (* the calls of cog_translate, in order *)
  output : list message                   (* the lines printed *)
}.

(** The class the first handler names, line 42. *)
Definition RasterioIOError (e : error) : bool :=
  match e with
  | OtherError cls => String.eqb cls "RasterioIOError"
  | _ => false
  end.

Definition say (m : message) (w : CogWorld) : CogWorld :=
  mk_cog_world (files w) (translations w) (output w ++ [m]).

Definition out_path_of (tif_path : string) : string :=
  Py.join COG_DIR (Py.basename tif_path).

(** The body of the loop, lines 21-45. *)
Definition convert (E : CogEnv) (tif_path : string) (w : CogWorld) : CogWorld :=
  let filename := Py.basename tif_path in
  if Py.str_in "SLC" filename then say (MsgSkipSLC filename) w
  else
    let out_path := Py.join COG_DIR filename in
    if bool_decide (out_path ∈ files w) then say (MsgSkipExists filename) w
    else
      let w1 := say (MsgConverting filename) w in
      let r := cog_translate E (files w1) tif_path out_path in
      let w2 := mk_cog_world r.2 (translations w1 ++ [(tif_path, out_path)]) (output w1) in
      match r.1 with
      | inr _ => w2
      | inl e =>
          if RasterioIOError e then say (MsgIOError filename e) w2
          else say (MsgOtherError filename e) w2
      end.

(** The loop, lines 20-45. *)
Definition convert_all (E : CogEnv) (paths : list string) (w : CogWorld) : CogWorld :=
  fold_left (fun w tif_path => convert E tif_path w) paths w.

(** The script, lines 15-47. An exception of [os.makedirs] is not caught. *)
Definition script (E : CogEnv) (w : CogWorld) : outcome unit * CogWorld :=
  match makedirs E (files w) with
  | inl e => (Raise (Exception e), w)
  | inr fs =>
      let w1 := say (MsgStart (length (tif_files E)))
                    (mk_cog_world fs (translations w) (output w)) in
      (Ret tt, say MsgDone (convert_all E (tif_files E) w1))
  end.

End CreateCog.


(** The exit status of the interpreter: 0 when the script runs to its end,
    1 when [SystemExit] carries a message or an exception is not caught. *)
Definition exit_status {A} (o : outcome A) : Z :=
  match o with
  | Ret _ => 0
  | Raise _ => 1
  end.

(* ===================================================================== *)
(** ** Auxiliary definitions used in the statements *)
(* ===================================================================== *)

(** The world after the tag step of browsing mode when it produced no
    time: a warning is printed if the parse raised. *)
Definition after_tag (filename : string) (tags : gmap string string) (w : World) : World :=
  match tag_datetime tags with
  | Raise _ => printed (MsgTagFailed filename) w
  | Ret _ => w
  end.

(** The item the loop body of browsing mode builds for a file, given the
    time and the footprint it resolved. *)
Definition built_item (E : Env) (tif_path : string) (t : Py.datetime)
    (bbox : BoundingBox) (geom : Geometry) : Item :=
  let filename := Py.basename tif_path in
  let item_id := (Py.splitext filename).1 in
  mk_item item_id (Some geom) (Some bbox) (Some t)
    (<["data" := mk_asset (abspath E tif_path) CreateStac.GEOTIFF
                          (item_id ++ " (GeoTIFF)") (CreateStac.asset_roles filename)]> ∅).

(** The polygon of the raw bounds of a source. *)
Definition raw_polygon (src : RasterSource) : Geometry :=
  mapping (box (bb_left (bounds src)) (bb_bottom (bounds src))
               (bb_right (bounds src)) (bb_top (bounds src))).

(** The registration policy in the words of the specification (4.5):
    attempt an update of an existing matching record; if there is none
    (the index says so by raising [ValueError] from the update), insert
    the record as new; if the insert fails too, report and skip.  The
    result is what happened and the calls made into the index. *)
Inductive registration : Type := Updated | Inserted | Skipped.

Definition spec_registration (E : Env) (history : list index_call) (ds : Dataset)
  : registration * list index_call :=
  match datasets_update E history ds with
  | inr _ => (Updated, [CallUpdate ds])
  | inl ValueError =>
      match datasets_add E (history ++ [CallUpdate ds]) ds with
      | inr _ => (Inserted, [CallUpdate ds; CallAdd ds])
      | inl _ => (Skipped, [CallUpdate ds; CallAdd ds])
      end
  | inl _ => (Skipped, [CallUpdate ds])
  end.

(** How many documents were handed to the resolver, and how many files of
    a batch yield metadata. *)
Definition is_resolve (c : index_call) : bool :=
  match c with
  | CallResolve _ _ => true
  | _ => false
  end.

Definition resolve_calls (history : list index_call) : nat :=
  length (List.filter is_resolve history).

Definition has_metadata (E : Env) (tif : string) : bool :=
  match TestDataset.get_metadata_from_tif E tif with
  | Some _ => true
  | None => false
  end.

Definition submitted (E : Env) (files : list string) : nat :=
  length (List.filter (has_metadata E) files).

(** The bits of the sixteen random bytes that survive in the UUID: all
    but the two variant bits (62, 63) and the four version bits (76-79). *)
Definition random_bit (i : Z) : bool :=
  (0 <=? i) && (i <? 128)
  && negb ((i =? 62) || (i =? 63) || ((76 <=? i) && (i <=? 79))).

(** Reading a UUID string back: the value of a hex digit, of a hex
    numeral, and the thirty-two digits between the dashes. *)
Definition hex_val (ch : ascii) : Z :=
  let n := Z.of_N (N_of_ascii ch) in
  if n <? 58 then n - 48 else n - 87.

Fixpoint of_hex (s : string) (acc : Z) : Z :=
  match s with
  | EmptyString => acc
  | String ch s' => of_hex s' (16 * acc + hex_val ch)
  end.

Definition undash (s : string) : string :=
  substring 0 8 s ++ substring 9 4 s ++ substring 14 4 s ++ substring 19 4 s
  ++ substring 24 12 s.

(** The identifier both scripts derive from a path. *)
Definition stem (tif_path : string) : string :=
  (Py.splitext (Py.basename tif_path)).1.

(** Whether the reprojection of browsing mode goes through for a source
    reference and bounds: nothing to do in EPSG:4326, else both calls must
    return. *)
Definition reprojects (E : Env) (c : CRS) (b : BoundingBox) : bool :=
  if negb (String.eqb c "EPSG:4326") then
    match transform_bounds E c b,
          transform_geom E c
            (mapping (box (bb_left b) (bb_bottom b) (bb_right b) (bb_top b))) with
    | inr _, inr _ => true
    | _, _ => false
    end
  else true.

(** The files browsing mode can catalog: they open, have a spatial
    reference, and their footprint reprojects. *)
Definition stac_eligible (E : Env) (tif_path : string) : bool :=
  match rasterio_open E tif_path with
  | inr src =>
      match crs src with
      | Some c => reprojects E c (bounds src)
      | None => false
      end
  | inl _ => false
  end.

(** Whether a name holds a path separator. *)
Fixpoint has_sep (s : string) : bool :=
  match s with
  | EmptyString => false
  | String ch s' => Py.is_sep ch || has_sep s'
  end.

(** From one world to another only lines were printed. *)
Definition only_printed (w w' : World) : Prop :=
  exists lines,
    w' = mk_world (clock w) (draws w) (stdout w ++ lines) (collection w)
                  (yaml_files w) (index_calls w).

Definition prints_only {A} (m : M A) : Prop :=
  forall w, only_printed w (m w).2.

(** The three calls after the loop, in order: the first that raises ends
    the script. *)
Definition finalize_result (E : Env) (items : list Item) : lib_result unit :=
  match update_extent_from_items E items with
  | inl e => inl e
  | inr _ =>
      match normalize_hrefs E items with
      | inl e => inl e
      | inr _ => catalog_save E items
      end
  end.

(** What the read-back of indexing mode can raise: the query of the
    datasets and the property [ds.crs] are outside the [try]. *)
Definition read_back_result (E : Env) (history : list index_call) (success_count : Z)
  : lib_result unit :=
  if 0 <? success_count then
    match find_datasets E history "capella_gec_hh" with
    | inl e => inl e
    | inr [] => inr tt
    | inr (ds :: _) =>
        match dataset_crs E ds with
        | inl e => inl e
        | inr _ => inr tt
        end
    end
  else inr tt.

(** Whether a name begins with a letter and a colon, as a drive does. *)
Definition drive_letter (name : string) : bool :=
  match name with
  | String _ (String ch _) => Ascii.eqb ch ":"
  | _ => false
  end.

(** Whether a path begins with two separators, as a UNC or device path
    does. *)
Definition double_sep (p : string) : bool :=
  match p with
  | String c1 (String c2 _) => Py.is_sep c1 && Py.is_sep c2
  | _ => false
  end.

(** Where the document of a file is written. *)
Definition yaml_path_of (tif : string) : string :=
  TestDataset.path_join TestDataset.ODC_DATASET_DIR ("ds_" ++ stem tif ++ ".yaml").

(** The document the loop of indexing mode builds for a file in a world,
    if the file yields metadata. *)
Definition document_of (E : Env) (tif : string) (w : World) : option EO3Doc :=
  match TestDataset.get_metadata_from_tif E tif with
  | Some meta =>
      match (TestDataset.build_eo3_dict E meta tif w).1 with
      | Ret doc => Some doc
      | Raise _ => None
      end
  | None => None
  end.

(** The submission of a document in the words of the specification (4.5):
    the document is resolved into a dataset record; when that fails the
    file is skipped; otherwise the record is registered by the policy
    [spec_registration].  The result is what happened and the calls made
    into the index. *)
Definition spec_submission (E : Env) (history : list index_call) (doc : EO3Doc)
    (uri : string) : registration * list index_call :=
  match resolver E history doc uri with
  | inr (Some ds, err) =>
      if Py.truthy err then (Skipped, [CallResolve doc uri])
      else
        let r := spec_registration E (history ++ [CallResolve doc uri]) ds in
        (r.1, CallResolve doc uri :: r.2)
  | _ => (Skipped, [CallResolve doc uri])
  end.

(** The lines that report a failure for a file. *)
Definition is_report (id : string) (m : msg) : bool :=
  match m with
  | MsgFormatError i _ | MsgWriteFailed i | MsgProcessingError i => String.eqb i id
  | _ => false
  end.

(** One file of a batch was handled by the policy: from count [c1] and
    world [w1] to count [c2] and world [w2], its document [doc] was
    written, submitted and registered as the specification says, counted
    unless skipped, and a skip was reported. *)
Definition registered_by_policy (E : Env) (tif : string) (doc : EO3Doc)
    (c1 : Z) (w1 : World) (c2 : Z) (w2 : World) : Prop :=
  let uri := as_uri E (abspath E (yaml_path_of tif)) in
  let r := spec_submission E (index_calls w1) doc uri in
  yaml_files w2 = (yaml_files w1 ++ [(yaml_path_of tif, doc)])%list
  /\ index_calls w2 = (index_calls w1 ++ r.2)%list
  /\ c2 = match r.1 with Skipped => c1 | _ => c1 + 1 end
  /\ exists lines,
       stdout w2 = (stdout w1 ++ lines)%list
       /\ match r.1 with
          | Updated => lines = []
          | Inserted => lines = [MsgAdded (stem tif)]
          | Skipped => exists m, lines = [m] /\ is_report (stem tif) m = true
          end.

(** The two written forms of a date-time the scripts parse: the fourteen
    digits of a file name and the form of the TIFF date-time tag. *)
Definition compact_timestamp (t : Py.datetime) : string :=
  Py.dec_fixed 4 (Py.year t) ++ Py.dec_fixed 2 (Py.month t) ++ Py.dec_fixed 2 (Py.day t)
  ++ Py.dec_fixed 2 (Py.hour t) ++ Py.dec_fixed 2 (Py.minute t)
  ++ Py.dec_fixed 2 (Py.second t) ++ "".

Definition tiff_timestamp (t : Py.datetime) : string :=
  Py.dec_fixed 4 (Py.year t) ++ ":" ++ Py.dec_fixed 2 (Py.month t) ++ ":"
  ++ Py.dec_fixed 2 (Py.day t) ++ " " ++ Py.dec_fixed 2 (Py.hour t) ++ ":"
  ++ Py.dec_fixed 2 (Py.minute t) ++ ":" ++ Py.dec_fixed 2 (Py.second t) ++ "".

(** The first alternative of a directive that matches, and the match the
    backtracking search finds first. *)
Fixpoint first_alt (alts : list (list Py.cls)) (s : string) : option (Z * string) :=
  match alts with
  | [] => None
  | alt :: alts' =>
      match Py.match_alt alt s 0 with
      | Some r => Some r
      | None => first_alt alts' s
      end
  end.

Definition first_match (p : list Py.pitem) (s : string) (groups : list (ascii * Z))
  : option (list (ascii * Z) * string) :=
  head (Py.re_match p s groups).

(** The conversion script printed an error line for a file name. *)
Definition conversion_failed (filename : string) (w : CreateCog.CogWorld) : Prop :=
  exists e, CreateCog.MsgIOError filename e ∈ CreateCog.output w
            \/ CreateCog.MsgOtherError filename e ∈ CreateCog.output w.

(** The assumptions on the library the conversion properties name: what
    exists stays, and a translation that returns has written its output. *)
Definition keeps_files (E : CreateCog.CogEnv) : Prop :=
  (forall fs fs', CreateCog.makedirs E fs = inr fs' -> fs ⊆ fs')
  /\ (forall fs src dst, fs ⊆ (CreateCog.cog_translate E fs src dst).2).

Definition writes_output (E : CreateCog.CogEnv) : Prop :=
  forall fs src dst,
    (CreateCog.cog_translate E fs src dst).1 = inr tt ->
    dst ∈ (CreateCog.cog_translate E fs src dst).2.

(** A conversion environment for the examples: the directory can be made,
    and the translation of every file but [bad] writes its output. *)
Definition sample_cog_env (paths : list string) (bad : string) : CreateCog.CogEnv :=
  CreateCog.mk_cog_env
    (fun fs => inr (fs ∪ {[CreateCog.COG_DIR]}))
    paths
    (fun fs src dst =>
       if String.eqb src bad then (inl (OtherError "RasterioIOError"), fs)
       else (inr tt, fs ∪ {[dst]})).

Definition sample_cog_paths : list string :=
  ["D:\Capalla_data\tif_file\A_GEC_HH_1.tif"; "D:\Capalla_data\tif_file\B_SLC_HH_1.tif";
   "D:\Capalla_data\tif_file\C_GEC_VV_1.tif"].

Definition sample_cog_world : CreateCog.CogWorld :=
  CreateCog.mk_cog_world {["D:\Capalla_data\cog_files\C_GEC_VV_1.tif"]} [] [].

(* ===================================================================== *)
(** ** Sample inputs *)
(* ===================================================================== *)

Module Sample.

Definition source (c : option CRS) (tg : gmap string string) : RasterSource :=
  mk_source c (mk_bounds 120.5 23 121 23.5) (10, 20) (mk_affine 0.5 0 120.5 0 (-0.25) 23.5) tg.

(** A friendly environment, but for the writer of the documents: every
    file opens as [src], reprojection shifts nothing, the index knows no
    dataset yet (an update raises [ValueError], an insert succeeds), and
    the calls outside the loops return. *)
Definition env_writing (write : string -> EO3Doc -> lib_result unit)
    (files : list string) (src : RasterSource) : Env :=
  {| glob_tif := files;
     rasterio_open := fun _ => inr src;
     transform_bounds := fun _ b => inr b;
     transform_geom := fun _ g => inr g;
     abspath := fun p => "D:\data\" ++ p;
     as_uri := fun p => "file:///" ++ p;
     wall_clock := fun n => Py.mk_datetime 2024 6 1 12 0 (Z.of_nat n) 5;
     urandom16 := fun n => Z.of_nat n;
     yaml_write := write;
     resolver := fun _ doc uri =>
       inr (Some (mk_dataset doc uri (doc_product_name doc)), None);
     datasets_update := fun _ _ => inl ValueError;
     datasets_add := fun _ _ => inr tt;
     makedirs := fun _ => inr tt;
     update_extent_from_items := fun _ => inr tt;
     normalize_hrefs := fun _ => inr tt;
     catalog_save := fun _ => inr tt;
     read_catalog := fun items => inr (head items);
     subprocess_run := fun _ => inr (0, "");
     product_write := fun _ _ => inr tt;
     Datacube := inr tt;
     find_datasets := fun _ _ => inr [];
     dataset_crs := fun _ => inr None;
     dc_load := fun _ _ => inr None |}.

(** The same, with a writer that succeeds. *)
Definition env (files : list string) (src : RasterSource) : Env :=
  env_writing (fun _ _ => inr tt) files src.

Definition world : World := mk_world 0 0 [] [] [] [].

Definition metadata : Metadata :=
  mk_metadata "X_GEC_HH_20230101000000_20230101000010" (Py.mk_datetime 2023 1 1 0 0 0 0)
    (raw_polygon (source (Some "EPSG:4326") ∅)) "capella_gec_hh" "hh" (10, 20)
    (mk_affine 0.5 0 120.5 0 (-0.25) 23.5).

End Sample.

(* ===================================================================== *)
(** ** Checks on concrete inputs *)
(* ===================================================================== *)

Example split_example :
  Py.split "_" "X_GEC_HH_20230101000000" = ["X"; "GEC"; "HH"; "20230101000000"].
Proof. reflexivity. Qed.

Example strptime_compact :
  Py.strptime "20230101000000" "%Y%m%d%H%M%S"
  = Ret (Py.mk_datetime 2023 1 1 0 0 0 0).
Proof. vm_compute. reflexivity. Qed.

Example strptime_tag :
  Py.strptime "2023:01:01 00:00:00" "%Y:%m:%d %H:%M:%S"
  = Ret (Py.mk_datetime 2023 1 1 0 0 0 0).
Proof. vm_compute. reflexivity. Qed.

Example strptime_short :
  Py.strptime "2023111213" "%Y%m%d%H%M%S"
  = Ret (Py.mk_datetime 2023 11 1 2 1 3 0).
Proof. vm_compute. reflexivity. Qed.

Example strptime_HH :
  Py.strptime "HH" "%Y%m%d%H%M%S" = Raise (Exception ValueError).
Proof. vm_compute. reflexivity. Qed.

Example strptime_feb30 :
  Py.strptime "20230230000000" "%Y%m%d%H%M%S" = Raise (Exception ValueError).
Proof. vm_compute. reflexivity. Qed.

Example splitext_example :
  Py.splitext "X_preview.tif" = ("X_preview", ".tif").
Proof. reflexivity. Qed.

Example splitdrive_letter :
  Py.splitdrive "D:\Capalla_data\cog_files\X.tif" = ("D:", "\Capalla_data\cog_files\X.tif").
Proof. vm_compute. reflexivity. Qed.

Example splitdrive_unc :
  Py.splitdrive "\\server\share\x.tif" = ("\\server\share", "\x.tif")
  /\ Py.splitdrive "\\?\unc\s\t\u" = ("\\?\unc\s\t", "\u")
  /\ Py.splitdrive "/\a/b\c.tif" = ("/\a/b", "\c.tif").
Proof. vm_compute. repeat split. Qed.

Example basename_drive_only :
  Py.basename "\\server\NAME.tif" = "" /\ Py.basename "\:x.tif" = "x.tif"
  /\ Py.basename "D:foo.tif" = "foo.tif".
Proof. vm_compute. repeat split. Qed.

Example join_examples :
  Py.join "D:\Capalla_data\cog_files" "a.tif" = "D:\Capalla_data\cog_files\a.tif"
  /\ Py.join "D:\Capalla_data\cog_files" "a:b.tif" = "a:b.tif"
  /\ Py.join "D:\Capalla_data\cog_files" "d:x.tif" = "d:\Capalla_data\cog_files\x.tif"
  /\ Py.join "D:\Capalla_data\cog_files" "" = "D:\Capalla_data\cog_files\"
  /\ Py.join "odc_datasets" "ds_x.yaml" = TestDataset.path_join "odc_datasets" "ds_x.yaml"
  /\ Py.join "\\s\sh" "x" = "\\s\sh\x"
  /\ Py.join "D:" "x" = "D:x"
  /\ Py.join "D:\a" "\x" = "D:\x"
  /\ Py.join "a" "/x" = "/x".
Proof. vm_compute. repeat split. Qed.

Example isoformat_example :
  Py.isoformat (Py.mk_datetime 2023 1 1 0 0 0 0) = "2023-01-01T00:00:00".
Proof. vm_compute. reflexivity. Qed.

Example uuid_str_example :
  Py.uuid_str (Py.uuid4 0) = "00000000-0000-4000-8000-000000000000".
Proof. vm_compute. reflexivity. Qed.

(* ===================================================================== *)
(** ** Running the monad *)
(* ===================================================================== *)

Lemma bind_ret {A B} (m : M A) (k : A -> M B) (w w' : World) (a : A) :
  m w = (Ret a, w') -> (m ≫= k) w = k a w'.
Proof. intros H. unfold mbind, M_bind. rewrite H. reflexivity. Qed.

Lemma bind_raise {A B} (m : M A) (k : A -> M B) (w w' : World) (e : exn) :
  m w = (Raise e, w') -> (m ≫= k) w = (Raise e, w').
Proof. intros H. unfold mbind, M_bind. rewrite H. reflexivity. Qed.

(** One [bind] whose first computation returns; [tac] shows that it does. *)
Ltac step tac := cbv beta iota zeta; erewrite bind_ret; [| solve [tac]]; cbv beta iota.

Ltac run :=
  repeat (cbn [mbind mret M_bind M_ret outcome_bind outcome_ret lift lift_lib
               print raise now try_except try_except_ValueError fst snd]
          || unfold mbind, mret, M_bind, M_ret, lift, lift_lib, print, raise, now,
                    try_except, try_except_ValueError).

(* ===================================================================== *)
(** ** What the parsing steps can raise *)
(* ===================================================================== *)

Lemma strptime_raise (s fmt : string) (e : exn) :
  Py.strptime s fmt = Raise e -> e = Exception ValueError.
Proof.
  unfold Py.strptime.
  destruct (Py.compile_format fmt) as [p|]; [|congruence].
  destruct (Py.re_match p s []) as [|[groups rest] ?]; [congruence|].
  destruct rest; [|congruence].
  destruct (Py.valid_datetime _); congruence.
Qed.

Lemma getitem_raise {A} (l : list A) (i : Z) (e : exn) :
  Py.getitem l i = Raise e -> e = Exception IndexError.
Proof.
  unfold Py.getitem.
  destruct (_ && _); [|congruence].
  destruct (l !! _); congruence.
Qed.

Lemma tag_datetime_raise (tags : gmap string string) (e : exn) :
  tag_datetime tags = Raise e -> e = Exception ValueError.
Proof.
  unfold tag_datetime.
  destruct (Py.or_ _ _) as [[|ch str]|]; try congruence.
  unfold mbind, outcome_bind.
  destruct (Py.strptime _ _) eqn:Hp; [congruence|].
  intros [= <-]. eauto using strptime_raise.
Qed.

Lemma filename_datetime_raise (item_id : string) (e : exn) :
  filename_datetime item_id = Raise e -> exists err, e = Exception err.
Proof.
  unfold filename_datetime, mbind, outcome_bind.
  destruct (Py.getitem _ (-1)) as [last|e1] eqn:H1.
  - destruct (if String.eqb last "preview" then _ else _) as [ts|e2] eqn:H2.
    + intros H. apply strptime_raise in H. eauto.
    + intros [= <-]. destruct (String.eqb last "preview");
        apply getitem_raise in H2; eauto.
  - intros [= <-]. apply getitem_raise in H1. eauto.
Qed.

(* ===================================================================== *)
(** ** The acquisition time in browsing mode *)
(* ===================================================================== *)

Section BrowsingTime.
Variable E : Env.
Variables filename item_id : string.
Variable tags : gmap string string.

(** The tag wins, and nothing else is looked at. *)
Lemma acquisition_time_tag (t : Py.datetime) (w : World) :
  tag_datetime tags = Ret (Some t) ->
  CreateStac.acquisition_time E filename item_id tags w
    = (Ret t, printed (MsgTagTime t) w).
Proof.
  intros Ht. unfold CreateStac.acquisition_time. run. rewrite Ht. reflexivity.
Qed.

Lemma acquisition_time_filename (t : Py.datetime) (w : World) :
  (forall t', tag_datetime tags <> Ret (Some t')) ->
  filename_datetime item_id = Ret t ->
  CreateStac.acquisition_time E filename item_id tags w
    = (Ret t, printed (MsgFilenameTime t) (after_tag filename tags w)).
Proof.
  intros Hno Hf. unfold CreateStac.acquisition_time, after_tag. run.
  destruct (tag_datetime tags) as [[t'|]|e] eqn:Ht.
  - exfalso. eapply Hno. reflexivity.
  - rewrite Hf. reflexivity.
  - apply tag_datetime_raise in Ht as ->. rewrite Hf. reflexivity.
Qed.

Lemma acquisition_time_now (w : World) :
  (forall t', tag_datetime tags <> Ret (Some t')) ->
  (forall t', filename_datetime item_id <> Ret t') ->
  CreateStac.acquisition_time E filename item_id tags w
    = (Ret (wall_clock E (clock w)),
       tick (printed (MsgFallbackNow filename) (after_tag filename tags w))).
Proof.
  intros Hno Hf. unfold CreateStac.acquisition_time, after_tag. run.
  destruct (filename_datetime item_id) as [t|e] eqn:Hfd.
  { exfalso. eapply Hf. reflexivity. }
  apply filename_datetime_raise in Hfd as [err ->].
  destruct (tag_datetime tags) as [[t'|]|e] eqn:Ht.
  - exfalso. eapply Hno. reflexivity.
  - reflexivity.
  - apply tag_datetime_raise in Ht as ->. reflexivity.
Qed.

(** The fallback order is total: browsing mode always gets a time, and
    only the clock and the log can change. *)
Lemma acquisition_time_total (w : World) :
  exists t w', CreateStac.acquisition_time E filename item_id tags w = (Ret t, w')
               /\ collection w' = collection w.
Proof.
  destruct (tag_datetime tags) as [[t|]|e] eqn:Ht.
  - eexists _, _. split; [apply acquisition_time_tag; exact Ht | reflexivity].
  - destruct (filename_datetime item_id) as [t|e] eqn:Hf.
    + eexists _, _. split.
      * apply acquisition_time_filename; [intros ?; rewrite Ht; discriminate | exact Hf].
      * unfold after_tag. rewrite Ht. reflexivity.
    + eexists _, _. split.
      * apply acquisition_time_now; intros ?; [rewrite Ht | rewrite Hf]; discriminate.
      * unfold after_tag. rewrite Ht. reflexivity.
  - destruct (filename_datetime item_id) as [t|e'] eqn:Hf.
    + eexists _, _. split.
      * apply acquisition_time_filename; [intros ?; rewrite Ht; discriminate | exact Hf].
      * unfold after_tag. rewrite Ht. reflexivity.
    + eexists _, _. split.
      * apply acquisition_time_now; intros ?; [rewrite Ht | rewrite Hf]; discriminate.
      * unfold after_tag. rewrite Ht. reflexivity.
Qed.
End BrowsingTime.

(* ===================================================================== *)
(** ** The two extraction functions, step by step *)
(* ===================================================================== *)

Section Extraction.
Variable E : Env.
Variable tif_path : string.
Variable src : RasterSource.
Hypothesis Hopen : rasterio_open E tif_path = inr src.

Lemma get_stac_info_steps (c : CRS) (bbox : BoundingBox) (geom : Geometry)
    (t : Py.datetime) (w w1 w2 : World) :
  crs src = Some c ->
  CreateStac.footprint E c (bounds src) w = (Ret (bbox, geom), w1) ->
  CreateStac.acquisition_time E (Py.basename tif_path)
    (Py.splitext (Py.basename tif_path)).1 (tags src) w1 = (Ret t, w2) ->
  CreateStac.get_stac_info_from_tif E tif_path w
    = (Ret (Some (Py.splitext (Py.basename tif_path)).1, Some t, Some bbox, Some geom), w2).
Proof.
  intros Hcrs Hfoot Htime. unfold CreateStac.get_stac_info_from_tif. cbv zeta.
  step ltac:(unfold lift, lift_lib; rewrite Hopen; reflexivity).
  rewrite Hcrs.
  step ltac:(exact Hfoot).
  step ltac:(exact Htime).
  reflexivity.
Qed.

Lemma process_tif_steps (t : Py.datetime) (bbox : BoundingBox) (geom : Geometry)
    (w w2 : World) :
  CreateStac.get_stac_info_from_tif E tif_path
    (printed (MsgProcessing (Py.basename tif_path)) w)
    = (Ret (Some (Py.splitext (Py.basename tif_path)).1, Some t, Some bbox, Some geom), w2) ->
  CreateStac.process_tif E tif_path w
    = (Ret tt, with_item (built_item E tif_path t bbox geom) w2).
Proof.
  intros Hinfo. unfold CreateStac.process_tif, try_except. cbv zeta.
  step ltac:(reflexivity).
  step ltac:(exact Hinfo).
  reflexivity.
Qed.

Lemma get_metadata_steps (c : CRS) :
  crs src = Some c ->
  TestDataset.get_metadata_from_tif E tif_path
    = (geom ← TestDataset.footprint E c (bounds src);
       t ← TestDataset.acquisition_time (tags src) (Py.splitext (Py.basename tif_path)).1;
       '(p_name, b_name) ← TestDataset.classify (Py.splitext (Py.basename tif_path)).1;
       Some (mk_metadata (Py.splitext (Py.basename tif_path)).1 t geom p_name b_name
                         (shape src) (transform src))).
Proof.
  intros Hcrs. unfold TestDataset.get_metadata_from_tif.
  rewrite Hopen, Hcrs. reflexivity.
Qed.
End Extraction.

Lemma footprint_4326 (E : Env) (b : BoundingBox) (w : World) :
  CreateStac.footprint E "EPSG:4326" b w
    = (Ret (b, mapping (box (bb_left b) (bb_bottom b) (bb_right b) (bb_top b))), w).
Proof. reflexivity. Qed.

(** Indexing mode without a time from the tag or from the name. *)
Lemma acquisition_time_none (tags : gmap string string) (item_id : string) :
  (forall t, tag_datetime tags <> Ret (Some t)) ->
  (forall t, filename_datetime item_id <> Ret t) ->
  TestDataset.acquisition_time tags item_id = None.
Proof.
  intros Hno Hf. unfold TestDataset.acquisition_time.
  destruct (tag_datetime tags) as [[t|]|e] eqn:Ht.
  - exfalso. eapply Hno. reflexivity.
  - destruct (filename_datetime item_id) eqn:Hfd; [exfalso; eapply Hf|]; reflexivity.
  - destruct (filename_datetime item_id) eqn:Hfd; [exfalso; eapply Hf|]; reflexivity.
Qed.

(** The string the tag lookup selects. *)
Lemma tag_datetime_selected (tags : gmap string string) (s : string) (t : Py.datetime) :
  (tags !! "TIFFTAG_DATETIME" = Some s /\ s <> "")
  \/ (Py.truthy (tags !! "TIFFTAG_DATETIME") = false /\ tags !! "DATETIME" = Some s) ->
  Py.strptime s "%Y:%m:%d %H:%M:%S" = Ret t ->
  tag_datetime tags = Ret (Some t).
Proof.
  intros Hsel Hparse. unfold tag_datetime, Py.or_.
  destruct Hsel as [[H1 Hne] | [H1 H2]].
  - rewrite H1. destruct s as [|ch s']; [congruence|]. cbn.
    unfold mbind, outcome_bind. rewrite Hparse. reflexivity.
  - rewrite H1, H2. destruct s as [|ch s'].
    + vm_compute in Hparse. discriminate.
    + unfold mbind, outcome_bind. rewrite Hparse. reflexivity.
Qed.

(* ===================================================================== *)
(** ** Sources without a spatial reference *)
(* ===================================================================== *)

(** The footprint step of browsing mode leaves the world alone. *)
Lemma footprint_outcome (E : Env) (c : CRS) (b : BoundingBox) (w : World) :
  (exists bbox geom, CreateStac.footprint E c b w = (Ret (bbox, geom), w))
  \/ (exists e, CreateStac.footprint E c b w = (Raise (Exception e), w)).
Proof.
  unfold CreateStac.footprint.
  destruct (negb (String.eqb c "EPSG:4326")); [|left; eexists _, _; reflexivity].
  run.
  destruct (transform_bounds E c b) as [e|bbox]; [right; eexists; reflexivity|].
  destruct (transform_geom E c _) as [e|geom]; [right; eexists; reflexivity|].
  left. eexists _, _. reflexivity.
Qed.

(** The body of the browsing loop always returns. It adds at most one
    item, and only for a file that opened with a spatial reference. *)
Lemma process_tif_outcome (E : Env) (tif_path : string) (w : World) :
  exists w',
    CreateStac.process_tif E tif_path w = (Ret tt, w')
    /\ (collection w' = collection w
        \/ exists src c t bbox geom,
             rasterio_open E tif_path = inr src
             /\ crs src = Some c
             /\ collection w' = (collection w ++ [built_item E tif_path t bbox geom])%list).
Proof.
  destruct (rasterio_open E tif_path) as [e|src] eqn:Hopen.
  { unfold CreateStac.process_tif, CreateStac.get_stac_info_from_tif. run.
    rewrite Hopen. eexists. split; [reflexivity | left; reflexivity]. }
  destruct (crs src) as [c|] eqn:Hcrs.
  2:{ unfold CreateStac.process_tif, CreateStac.get_stac_info_from_tif. run.
      rewrite Hopen, Hcrs. eexists. split; [reflexivity | left; reflexivity]. }
  set (w1 := printed (MsgProcessing (Py.basename tif_path)) w).
  destruct (footprint_outcome E c (bounds src) w1) as [(bbox & geom & Hfoot) | (e & Hfoot)].
  - destruct (acquisition_time_total E (Py.basename tif_path)
                (Py.splitext (Py.basename tif_path)).1 (tags src) w1)
      as (t & w2 & Htime & Hcoll).
    exists (with_item (built_item E tif_path t bbox geom) w2). split.
    + apply process_tif_steps.
      eapply get_stac_info_steps; [exact Hopen | exact Hcrs | exact Hfoot | exact Htime].
    + right. exists src, c, t, bbox, geom.
      split; [first [reflexivity | exact Hopen]|].
      split; [first [reflexivity | exact Hcrs]|].
      cbn [collection with_item]. rewrite Hcoll. reflexivity.
  - exists (printed (MsgError tif_path) w1). split; [|left; reflexivity].
    unfold CreateStac.process_tif, try_except. cbv zeta.
    step ltac:(reflexivity).
    erewrite bind_raise.
    2:{ unfold CreateStac.get_stac_info_from_tif. cbv zeta.
        step ltac:(unfold lift, lift_lib; rewrite Hopen; reflexivity).
        rewrite Hcrs. apply bind_raise. exact Hfoot. }
    reflexivity.
Qed.

(** The browsing loop over a batch returns, and every item it adds was
    built from a listed file that opened with a spatial reference. *)
Lemma catalog_items_have_crs (E : Env) (files : list string) (w : World) :
  exists w',
    for_each files (fun tif_path _ => CreateStac.process_tif E tif_path) tt w = (Ret tt, w')
    /\ forall it, In it (collection w') ->
         In it (collection w)
         \/ exists tif_path src c t bbox geom,
              In tif_path files
              /\ rasterio_open E tif_path = inr src
              /\ crs src = Some c
              /\ it = built_item E tif_path t bbox geom.
Proof.
  revert w. induction files as [|tif_path files IH]; intros w.
  - exists w. split; [reflexivity | auto].
  - destruct (process_tif_outcome E tif_path w) as (w1 & Hstep & Hcoll1).
    destruct (IH w1) as (w' & Hrest & Hitems).
    exists w'. split.
    + cbn [for_each]. rewrite (bind_ret _ _ _ _ _ Hstep). exact Hrest.
    + intros it Hin. destruct (Hitems it Hin)
        as [Hin1 | (p & src & c & t & bbox & geom & Hp & Hopen & Hcrs & Hit)].
      * destruct Hcoll1 as [Heq | (src & c & t & bbox & geom & Hopen & Hcrs & Heq)].
        -- left. rewrite <- Heq. exact Hin1.
        -- rewrite Heq in Hin1. apply in_app_or in Hin1 as [Hold | [Hnew | []]].
           ++ left. exact Hold.
           ++ right. exists tif_path, src, c, t, bbox, geom.
              split; [left; reflexivity|]. auto.
      * right. exists p, src, c, t, bbox, geom.
        split; [right; exact Hp|]. auto.
Qed.

(** C6. A raster that opens with no spatial reference is turned away by
    the footprint step of both scripts: browsing mode prints the skip line
    and returns the all-[None] tuple, its loop body adds no item; indexing
    mode returns [None], its loop body writes no document, makes no call
    into the index and leaves the counter alone. Over a whole batch, every
    item that browsing mode adds was built, with the footprint it resolved,
    from a file that opened with a spatial reference. *)
Theorem C6_no_crs_excluded (E : Env) (tif_path : string) (src : RasterSource)
    (success_count : Z) (w : World) :
  rasterio_open E tif_path = inr src ->
  crs src = None ->
  CreateStac.get_stac_info_from_tif E tif_path w
    = (Ret (None, None, None, None), printed (MsgSkipNoCRS (Py.basename tif_path)) w)
  /\ CreateStac.process_tif E tif_path w
     = (Ret tt, printed (MsgSkipNoCRS (Py.basename tif_path))
                  (printed (MsgProcessing (Py.basename tif_path)) w))
  /\ TestDataset.get_metadata_from_tif E tif_path = None
  /\ TestDataset.index_tif E tif_path success_count w = (Ret success_count, w)
  /\ forall files w0, exists w',
       for_each files (fun p _ => CreateStac.process_tif E p) tt w0 = (Ret tt, w')
       /\ forall it, In it (collection w') ->
            In it (collection w0)
            \/ exists p src' c t bbox geom,
                 In p files
                 /\ rasterio_open E p = inr src'
                 /\ crs src' = Some c
                 /\ it = built_item E p t bbox geom.
Proof.
  intros Hopen Hcrs.
  assert (Hmeta : TestDataset.get_metadata_from_tif E tif_path = None).
  { unfold TestDataset.get_metadata_from_tif. rewrite Hopen, Hcrs. reflexivity. }
  split; [|split; [|split; [|split]]].
  - unfold CreateStac.get_stac_info_from_tif. run. rewrite Hopen, Hcrs. reflexivity.
  - unfold CreateStac.process_tif, CreateStac.get_stac_info_from_tif.
    run. rewrite Hopen, Hcrs. reflexivity.
  - exact Hmeta.
  - unfold TestDataset.index_tif. rewrite Hmeta. reflexivity.
  - intros files w0. apply catalog_items_have_crs.
Qed.

Lemma C6_no_crs_excluded_witness :
  let E := Sample.env ["SLC_20230101000000_X.tif"] (Sample.source None ∅) in
  TestDataset.get_metadata_from_tif E "SLC_20230101000000_X.tif" = None
  /\ collection (CreateStac.process_tif E "SLC_20230101000000_X.tif" Sample.world).2 = [].
Proof.
  intros E.
  destruct (C6_no_crs_excluded E "SLC_20230101000000_X.tif" (Sample.source None ∅)
              0 Sample.world eq_refl eq_refl)
    as (_ & Hrun & Hmeta & _).
  split; [exact Hmeta | rewrite Hrun; reflexivity].
Defined.

(* ===================================================================== *)
(** ** The scenario of the GEC HH file *)
(* ===================================================================== *)

(** C1, as stated, fails: for [X_GEC_HH_20230101000000.tif] with a spatial
    reference and no tag, indexing mode returns nothing. *)
Lemma C1_counterexample :
  TestDataset.get_metadata_from_tif
    (Sample.env ["X_GEC_HH_20230101000000.tif"] (Sample.source (Some "EPSG:4326") ∅))
    "X_GEC_HH_20230101000000.tif" = None.
Proof. vm_compute. reflexivity. Qed.

(** C1, amended. The timestamp field of a file name is its second-from-last
    token. For [X_GEC_HH_20230101000000.tif] that token is [HH], which is no
    timestamp, so a source with a spatial reference and no date-time tag is
    rejected. With the timestamp in second-from-last position, as in
    [X_GEC_HH_20230101000000_20230101000010.tif], the same source is
    classified as product [capella_gec_hh], band [hh], with the time
    2023-01-01T00:00:00 read from the name. *)
Theorem C1_timestamp_is_second_from_last (E : Env) (tif_path : string)
    (src : RasterSource) (c : CRS) (geom : Geometry) :
  rasterio_open E tif_path = inr src ->
  crs src = Some c ->
  TestDataset.footprint E c (bounds src) = Some geom ->
  tags src !! "TIFFTAG_DATETIME" = None ->
  tags src !! "DATETIME" = None ->
  (Py.basename tif_path = "X_GEC_HH_20230101000000.tif" ->
     filename_datetime "X_GEC_HH_20230101000000" = Raise (Exception ValueError)
     /\ TestDataset.get_metadata_from_tif E tif_path = None)
  /\ (Py.basename tif_path = "X_GEC_HH_20230101000000_20230101000010.tif" ->
     TestDataset.get_metadata_from_tif E tif_path
       = Some (mk_metadata "X_GEC_HH_20230101000000_20230101000010"
                 (Py.mk_datetime 2023 1 1 0 0 0 0) geom
                 "capella_gec_hh" "hh" (shape src) (transform src))
     /\ Py.isoformat (Py.mk_datetime 2023 1 1 0 0 0 0) = "2023-01-01T00:00:00").
Proof.
  intros Hopen Hcrs Hfoot Htag1 Htag2.
  assert (Htag : tag_datetime (tags src) = Ret None).
  { unfold tag_datetime, Py.or_. rewrite Htag1, Htag2. reflexivity. }
  split; intros Hname.
  - assert (Hfd : filename_datetime "X_GEC_HH_20230101000000" = Raise (Exception ValueError))
      by (vm_compute; reflexivity).
    split; [exact Hfd|].
    rewrite (get_metadata_steps E tif_path src Hopen c Hcrs), Hfoot, Hname.
    replace ((Py.splitext "X_GEC_HH_20230101000000.tif").1)
      with "X_GEC_HH_20230101000000" by (vm_compute; reflexivity).
    unfold TestDataset.acquisition_time. rewrite Htag, Hfd. reflexivity.
  - split; [|vm_compute; reflexivity].
    rewrite (get_metadata_steps E tif_path src Hopen c Hcrs), Hfoot, Hname.
    replace ((Py.splitext "X_GEC_HH_20230101000000_20230101000010.tif").1)
      with "X_GEC_HH_20230101000000_20230101000010" by (vm_compute; reflexivity).
    unfold TestDataset.acquisition_time. rewrite Htag.
    replace (filename_datetime "X_GEC_HH_20230101000000_20230101000010")
      with (Ret (Py.mk_datetime 2023 1 1 0 0 0 0)) by (vm_compute; reflexivity).
    replace (TestDataset.classify "X_GEC_HH_20230101000000_20230101000010")
      with (Some ("capella_gec_hh", "hh")) by (vm_compute; reflexivity).
    reflexivity.
Qed.

Lemma C1_timestamp_is_second_from_last_witness :
  let path := "D:\Capalla_data\cog_files\X_GEC_HH_20230101000000_20230101000010.tif" in
  let src := Sample.source (Some "EPSG:32651") ∅ in
  md_product_name <$> TestDataset.get_metadata_from_tif (Sample.env [path] src) path
    = Some "capella_gec_hh".
Proof.
  intros path src.
  destruct (C1_timestamp_is_second_from_last (Sample.env [path] src) path src
              "EPSG:32651" (raw_polygon src) eq_refl eq_refl eq_refl eq_refl eq_refl)
    as [_ H].
  destruct (H eq_refl) as [-> _]. reflexivity.
Defined.

(* ===================================================================== *)
(** ** Steps that only print *)
(* ===================================================================== *)

Lemma only_printed_refl (w : World) : only_printed w w.
Proof. exists []. destruct w. cbn. rewrite app_nil_r. reflexivity. Qed.

Lemma only_printed_trans (w1 w2 w3 : World) :
  only_printed w1 w2 -> only_printed w2 w3 -> only_printed w1 w3.
Proof.
  intros (l1 & ->) (l2 & ->). exists (l1 ++ l2)%list. cbn.
  rewrite app_assoc. reflexivity.
Qed.

Lemma prints_only_ret {A} (a : A) : prints_only (mret a : M A).
Proof. intros w. apply only_printed_refl. Qed.

Lemma prints_only_print (m : msg) : prints_only (print m).
Proof. intros w. exists [m]. reflexivity. Qed.

Lemma prints_only_lift {A} (o : outcome A) : prints_only (lift o).
Proof. intros w. apply only_printed_refl. Qed.

Lemma prints_only_bind {A B} (m : M A) (k : A -> M B) :
  prints_only m -> (forall a, prints_only (k a)) -> prints_only (m ≫= k).
Proof.
  intros Hm Hk w. specialize (Hm w). unfold mbind, M_bind.
  destruct (m w) as [[a|e] w1]; cbn [snd] in *; [|exact Hm].
  apply (only_printed_trans _ w1); [exact Hm | apply Hk].
Qed.

Lemma prints_only_try_except {A} (body : M A) (handler : error -> M A) :
  prints_only body -> (forall e, prints_only (handler e)) ->
  prints_only (try_except body handler).
Proof.
  intros Hb Hh w. specialize (Hb w). unfold try_except.
  destruct (body w) as [[a|[e|msg]] w1]; cbn [snd] in *; try exact Hb.
  apply (only_printed_trans _ w1); [exact Hb | apply Hh].
Qed.

Lemma prints_only_for_each {A S} (xs : list A) (body : A -> S -> M S) (s : S) :
  (forall x s', prints_only (body x s')) -> prints_only (for_each xs body s).
Proof.
  intros Hbody. revert s. induction xs as [|x xs IH]; intros s.
  - apply prints_only_ret.
  - cbn [for_each]. apply prints_only_bind; [apply Hbody | intros s'; apply IH].
Qed.

Lemma prints_only_query {A} (call : list index_call -> lib_result A) :
  prints_only (TestDataset.query call).
Proof. intros w. apply only_printed_refl. Qed.

Lemma prints_only_with_collection {A} (call : list Item -> lib_result A) :
  prints_only (CreateStac.with_collection call).
Proof. intros w. apply only_printed_refl. Qed.

(** Sequences of such steps. *)
Ltac prints_only_step :=
  first
    [ apply prints_only_print | apply prints_only_lift | apply prints_only_ret
    | apply prints_only_query | apply prints_only_with_collection
    | apply prints_only_bind; [|intros ?]
    | apply prints_only_try_except; [|intros ?]
    | apply prints_only_for_each; intros ? ? ].

Ltac prints_only := repeat prints_only_step.

Lemma run_command_prints_only (E : Env) (command : list string) :
  prints_only (TestDataset.run_command E command).
Proof.
  unfold TestDataset.run_command. prints_only.
  destruct (negb _); [destruct (_ && _)|]; apply prints_only_ret.
Qed.

Lemma setup_prints_only (E : Env) : prints_only (TestDataset.setup E).
Proof.
  unfold TestDataset.setup, TestDataset.add_product.
  repeat first [apply run_command_prints_only | prints_only_step].
Qed.

Lemma read_back_prints_only (E : Env) (success_count : Z) :
  prints_only (TestDataset.read_back E success_count).
Proof.
  unfold TestDataset.read_back. prints_only.
  destruct (0 <? success_count); prints_only.
  match goal with |- prints_only (match ?l with _ => _ end) => destruct l end;
    prints_only.
  match goal with |- prints_only (match ?l with _ => _ end) => destruct l end;
    prints_only.
Qed.

Lemma verify_prints_only (E : Env) : prints_only (CreateStac.verify E).
Proof.
  unfold CreateStac.verify. prints_only.
  match goal with |- prints_only (match ?l with _ => _ end) => destruct l end;
    prints_only.
  match goal with |- prints_only (match ?l with _ => _ end) => destruct l end;
    prints_only.
Qed.

(* ===================================================================== *)
(** ** An empty input directory *)
(* ===================================================================== *)

(** C5, as stated, fails in indexing mode: with no [.tif] file, and every
    step before the guard returning, [main] prints the error line and
    returns, and the interpreter exits with status 0. *)
Lemma C5_counterexample :
  exit_status (TestDataset.main (Sample.env [] (Sample.source None ∅)) Sample.world).1 = 0.
Proof. vm_compute. reflexivity. Qed.

(** C5, amended. When no file matches [*.tif], no file is processed in
    either mode. Browsing mode ends with exit status 1 and the collection
    as it was: by [SystemExit] with a message when the output directory
    could be made, by the exception of [os.makedirs] otherwise. Indexing
    mode, when the steps of [main] before the guard return (the external
    commands, the product files, the connection to the index, the
    directories), prints the error line and returns from [main], exit
    status 0; whether they return or not, no document is written and no
    call is made into the index. *)
Theorem C5_empty_input (E : Env) (w : World) :
  glob_tif E = [] ->
  (exists x w',
      CreateStac.script E w = (Raise x, w')
      /\ exit_status (CreateStac.script E w).1 = 1
      /\ collection w' = collection w
      /\ (makedirs E CreateStac.ROOT_DIR = inr tt -> exists msg, x = SystemExit msg))
  /\ (forall w1,
        TestDataset.setup E w = (Ret tt, w1) ->
        TestDataset.main E w = (Ret tt, printed MsgNoTif w1)
        /\ exit_status (TestDataset.main E w).1 = 0)
  /\ yaml_files (TestDataset.main E w).2 = yaml_files w
  /\ index_calls (TestDataset.main E w).2 = index_calls w.
Proof.
  intros Hglob. split; [|split].
  - unfold CreateStac.script. step ltac:(reflexivity).
    destruct (makedirs E CreateStac.ROOT_DIR) as [e|[]].
    + exists (Exception e), (printed MsgStart w). repeat split. discriminate.
    + step ltac:(reflexivity). step ltac:(reflexivity). step ltac:(reflexivity).
      rewrite Hglob. eexists _, _. repeat split. intros _. eexists. reflexivity.
  - intros w1 Hsetup.
    assert (Hrun : TestDataset.main E w = (Ret tt, printed MsgNoTif w1)).
    { unfold TestDataset.main. rewrite (bind_ret _ _ _ _ _ Hsetup), Hglob. reflexivity. }
    rewrite Hrun. split; reflexivity.
  - assert (Hquiet : only_printed w (TestDataset.main E w).2).
    { unfold TestDataset.main. rewrite Hglob.
      apply prints_only_bind; [apply setup_prints_only | intros ?; prints_only]. }
    destruct Hquiet as (lines & ->). split; reflexivity.
Qed.

Lemma C5_empty_input_witness :
  let E := Sample.env [] (Sample.source None ∅) in
  exit_status (TestDataset.main E Sample.world).1 = 0.
Proof.
  intros E.
  destruct (C5_empty_input E Sample.world eq_refl) as (_ & Hmain & _).
  assert (Hsetup : TestDataset.setup E Sample.world
                   = (Ret tt, (TestDataset.setup E Sample.world).2))
    by (vm_compute; reflexivity).
  exact (proj2 (Hmain _ Hsetup)).
Defined.

(* ===================================================================== *)
(** ** Sources already in EPSG:4326 *)
(* ===================================================================== *)

(** C8. For a source whose spatial reference is EPSG:4326 nothing is
    reprojected. Browsing mode returns the source bounds as the bounding
    box and the polygon of those bounds as the geometry, and the item of
    the loop body carries them; indexing mode puts the same polygon in
    the metadata whenever it returns any. *)
Theorem C8_identity_footprint (E : Env) (tif_path : string) (src : RasterSource)
    (w : World) :
  rasterio_open E tif_path = inr src ->
  crs src = Some "EPSG:4326" ->
  let item_id := (Py.splitext (Py.basename tif_path)).1 in
  (exists t w',
      CreateStac.get_stac_info_from_tif E tif_path w
        = (Ret (Some item_id, Some t, Some (bounds src), Some (raw_polygon src)), w'))
  /\ (exists t w',
      CreateStac.process_tif E tif_path w
        = (Ret tt, with_item (built_item E tif_path t (bounds src) (raw_polygon src)) w'))
  /\ TestDataset.get_metadata_from_tif E tif_path
       = (t ← TestDataset.acquisition_time (tags src) item_id;
          '(p_name, b_name) ← TestDataset.classify item_id;
          Some (mk_metadata item_id t (raw_polygon src) p_name b_name
                            (shape src) (transform src))).
Proof.
  intros Hopen Hcrs item_id.
  assert (Hinfo : forall w0, exists t w',
    CreateStac.get_stac_info_from_tif E tif_path w0
      = (Ret (Some item_id, Some t, Some (bounds src), Some (raw_polygon src)), w')).
  { intros w0.
    destruct (acquisition_time_total E (Py.basename tif_path) item_id (tags src) w0)
      as (t & w' & Ht & _).
    exists t, w'.
    eapply get_stac_info_steps;
      [exact Hopen | exact Hcrs | apply footprint_4326 | exact Ht]. }
  repeat split.
  - apply Hinfo.
  - destruct (Hinfo (printed (MsgProcessing (Py.basename tif_path)) w)) as (t & w' & Ht).
    exists t, w'. apply process_tif_steps; assumption.
  - rewrite (get_metadata_steps E tif_path src Hopen _ Hcrs). reflexivity.
Qed.

Lemma C8_identity_footprint_witness :
  let path := "X_GEC_VV_20230101000000_20230101000010.tif" in
  let src := Sample.source (Some "EPSG:4326") ∅ in
  md_geometry <$> TestDataset.get_metadata_from_tif (Sample.env [path] src) path
    = Some (raw_polygon src).
Proof.
  intros path src.
  destruct (C8_identity_footprint (Sample.env [path] src) path src Sample.world
              eq_refl eq_refl) as (_ & _ & ->).
  vm_compute. reflexivity.
Defined.

(* ===================================================================== *)
(** ** Files without a resolvable timestamp *)
(* ===================================================================== *)

(** C2, as stated, fails in browsing mode: a file with no valid tag and no
    timestamp in its name is not always included. [scene.tif], opened
    without a spatial reference, is left out of the catalog. *)
Lemma C2_counterexample :
  let src := Sample.source None ∅ in
  tag_datetime (tags src) = Ret None
  /\ filename_datetime "scene" = Raise (Exception IndexError)
  /\ collection (CreateStac.script (Sample.env ["scene.tif"] src) Sample.world).2 = [].
Proof. vm_compute. repeat split. Qed.

(** C2, amended. Take a file that opens, whose selected tag gives no time
    and whose name gives no time. Indexing mode returns no metadata, and
    its loop body leaves the world as it was: no document, no call into
    the index, no count. Browsing mode, when the source has a spatial
    reference and its footprint resolves, adds the item with the reading
    of the clock as its time and prints the fallback warning; the item
    records no provenance of the time. *)
Theorem C2_unresolvable_timestamp (E : Env) (tif_path : string) (src : RasterSource)
    (success_count : Z) (w : World) :
  let filename := Py.basename tif_path in
  let item_id := (Py.splitext filename).1 in
  rasterio_open E tif_path = inr src ->
  (forall t, tag_datetime (tags src) <> Ret (Some t)) ->
  (forall t, filename_datetime item_id <> Ret t) ->
  (TestDataset.get_metadata_from_tif E tif_path = None
   /\ TestDataset.index_tif E tif_path success_count w = (Ret success_count, w))
  /\ (forall c bbox geom,
        crs src = Some c ->
        (forall w0, CreateStac.footprint E c (bounds src) w0 = (Ret (bbox, geom), w0)) ->
        CreateStac.process_tif E tif_path w
          = (Ret tt,
             with_item (built_item E tif_path (wall_clock E (clock w)) bbox geom)
               (tick (printed (MsgFallbackNow filename)
                  (after_tag filename (tags src)
                     (printed (MsgProcessing filename) w)))))).
Proof.
  intros filename item_id Hopen Htag Hname.
  assert (Hmeta : TestDataset.get_metadata_from_tif E tif_path = None).
  { destruct (crs src) as [c|] eqn:Hcrs.
    - rewrite (get_metadata_steps E tif_path src Hopen c Hcrs).
      fold filename. fold item_id.
      rewrite (acquisition_time_none _ _ Htag Hname).
      destruct (TestDataset.footprint E c (bounds src)); reflexivity.
    - unfold TestDataset.get_metadata_from_tif. rewrite Hopen, Hcrs. reflexivity. }
  split.
  - split; [exact Hmeta|].
    unfold TestDataset.index_tif. rewrite Hmeta. reflexivity.
  - intros c bbox geom Hcrs Hfoot.
    apply process_tif_steps.
    eapply get_stac_info_steps; [exact Hopen | exact Hcrs | apply Hfoot |].
    exact (acquisition_time_now E _ _ _ (printed (MsgProcessing filename) w) Htag Hname).
Qed.

Lemma C2_unresolvable_timestamp_witness :
  let src := Sample.source (Some "EPSG:4326") ∅ in
  let E := Sample.env ["scene.tif"] src in
  TestDataset.index_tif E "scene.tif" 0 Sample.world = (Ret 0, Sample.world)
  /\ item_datetime <$> collection (CreateStac.process_tif E "scene.tif" Sample.world).2
     = [Some (wall_clock E 0)].
Proof.
  intros src E.
  assert (Htag : forall t, tag_datetime (tags src) <> Ret (Some t))
    by (intros t; vm_compute; discriminate).
  assert (Hname : forall t, filename_datetime (Py.splitext (Py.basename "scene.tif")).1 <> Ret t)
    by (intros t; vm_compute; discriminate).
  destruct (C2_unresolvable_timestamp E "scene.tif" src 0 Sample.world eq_refl Htag Hname)
    as [[_ Hindex] Hbrowse].
  split; [exact Hindex|].
  rewrite (Hbrowse "EPSG:4326" (bounds src) (raw_polygon src) eq_refl (fun w0 => eq_refl)).
  reflexivity.
Defined.

(* ===================================================================== *)
(** ** Tag before file name *)
(* ===================================================================== *)

(** C3, as stated, fails: a valid date-time under one accepted key is not
    enough. Here [DATETIME] holds a valid value, [TIFFTAG_DATETIME] holds
    text in another format, and the name holds a valid timestamp: both
    modes yield the time of the name, not that of the tag. *)
Lemma C3_counterexample :
  let path := "X_GEC_HH_20230101000000_20230101000010.tif" in
  let src := Sample.source (Some "EPSG:4326")
               (<["TIFFTAG_DATETIME" := "2022-05-05T10:00:00"]>
                  {["DATETIME" := "2022:05:05 10:00:00"]}) in
  let E := Sample.env [path] src in
  Py.strptime "2022:05:05 10:00:00" "%Y:%m:%d %H:%M:%S"
    = Ret (Py.mk_datetime 2022 5 5 10 0 0 0)
  /\ md_datetime <$> TestDataset.get_metadata_from_tif E path
     = Some (Py.mk_datetime 2023 1 1 0 0 0 0)
  /\ item_datetime <$> collection (CreateStac.process_tif E path Sample.world).2
     = [Some (Py.mk_datetime 2023 1 1 0 0 0 0)].
Proof. vm_compute. repeat split. Qed.

(** C3, amended. The tag lookup selects one string: the value of
    [TIFFTAG_DATETIME] when present and not empty, else the value of
    [DATETIME]. When that string parses as YYYY:MM:DD HH:MM:SS, both modes
    yield the time of the tag whatever the file name holds, so also when
    the name holds a valid timestamp: browsing mode returns it having
    printed one line and not read the clock, indexing mode stores it in
    the metadata of every file it classifies. *)
Theorem C3_selected_tag_wins (E : Env) (tif_path : string) (src : RasterSource)
    (c : CRS) (s : string) (t : Py.datetime) (w : World) :
  let item_id := (Py.splitext (Py.basename tif_path)).1 in
  rasterio_open E tif_path = inr src ->
  crs src = Some c ->
  (tags src !! "TIFFTAG_DATETIME" = Some s /\ s <> "")
  \/ (Py.truthy (tags src !! "TIFFTAG_DATETIME") = false
      /\ tags src !! "DATETIME" = Some s) ->
  Py.strptime s "%Y:%m:%d %H:%M:%S" = Ret t ->
  (forall bbox geom,
      CreateStac.footprint E c (bounds src) w = (Ret (bbox, geom), w) ->
      CreateStac.get_stac_info_from_tif E tif_path w
        = (Ret (Some item_id, Some t, Some bbox, Some geom), printed (MsgTagTime t) w))
  /\ (forall geom,
      TestDataset.footprint E c (bounds src) = Some geom ->
      TestDataset.get_metadata_from_tif E tif_path
        = ('(p_name, b_name) ← TestDataset.classify item_id;
           Some (mk_metadata item_id t geom p_name b_name (shape src) (transform src)))).
Proof.
  intros item_id Hopen Hcrs Hsel Hparse.
  pose proof (tag_datetime_selected _ _ _ Hsel Hparse) as Htag.
  split.
  - intros bbox geom Hfoot.
    eapply get_stac_info_steps; [exact Hopen | exact Hcrs | exact Hfoot |].
    apply acquisition_time_tag. exact Htag.
  - intros geom Hfoot.
    rewrite (get_metadata_steps E tif_path src Hopen c Hcrs), Hfoot.
    unfold TestDataset.acquisition_time. rewrite Htag. reflexivity.
Qed.

Lemma C3_selected_tag_wins_witness :
  let path := "X_GEC_HH_20230101000000_20230101000010.tif" in
  let src := Sample.source (Some "EPSG:4326") {["DATETIME" := "2022:05:05 10:00:00"]} in
  md_datetime <$> TestDataset.get_metadata_from_tif (Sample.env [path] src) path
    = Some (Py.mk_datetime 2022 5 5 10 0 0 0).
Proof.
  intros path src.
  destruct (C3_selected_tag_wins (Sample.env [path] src) path src "EPSG:4326"
              "2022:05:05 10:00:00" (Py.mk_datetime 2022 5 5 10 0 0 0) Sample.world
              eq_refl eq_refl (or_intror (conj eq_refl eq_refl)) eq_refl)
    as [_ H].
  rewrite (H (raw_polygon src) eq_refl). reflexivity.
Defined.

(* ===================================================================== *)
(** ** Splitting and indexing *)
(* ===================================================================== *)

Lemma split_nonempty (sep : ascii) (s : string) : Py.split sep s <> [].
Proof.
  destruct s as [|ch s]; cbn -[Ascii.eqb]; [discriminate|].
  destruct (Ascii.eqb ch sep); [discriminate|].
  destruct (Py.split sep s); discriminate.
Qed.

(** [(a + sep + b).split(sep) == a.split(sep) + b.split(sep)] *)
Lemma split_app_sep (sep : ascii) (a b : string) :
  Py.split sep (a ++ String sep b)%string = (Py.split sep a ++ Py.split sep b)%list.
Proof.
  induction a as [|ch a IH].
  - change (Py.split sep (String sep b) = "" :: Py.split sep b).
    cbn -[Ascii.eqb]. rewrite Ascii.eqb_refl. reflexivity.
  - change (Py.split sep (String ch (a ++ String sep b))
            = (Py.split sep (String ch a) ++ Py.split sep b)%list).
    cbn -[Ascii.eqb String.append].
    destruct (Ascii.eqb ch sep).
    + rewrite IH. reflexivity.
    + rewrite IH. pose proof (split_nonempty sep a) as Hne.
      destruct (Py.split sep a); [congruence | reflexivity].
Qed.

(** A negative index that stays within the last segment of a list. *)
Lemma getitem_app_neg {A} (l l' : list A) (i : Z) :
  - Z.of_nat (length l') <= i < 0 ->
  Py.getitem (l ++ l')%list i = Py.getitem l' i.
Proof.
  intros Hi. unfold Py.getitem. rewrite length_app, Nat2Z.inj_add.
  destruct (Z.ltb_spec i 0) as [_|?]; [|lia].
  destruct (Z.leb_spec 0 (i + (Z.of_nat (length l) + Z.of_nat (length l')))); [|lia].
  destruct (Z.ltb_spec (i + (Z.of_nat (length l) + Z.of_nat (length l')))
                       (Z.of_nat (length l) + Z.of_nat (length l'))); [|lia].
  destruct (Z.leb_spec 0 (i + Z.of_nat (length l'))); [|lia].
  destruct (Z.ltb_spec (i + Z.of_nat (length l')) (Z.of_nat (length l'))); [|lia].
  cbn [andb].
  rewrite lookup_app_r by lia.
  replace (Z.to_nat (i + (Z.of_nat (length l) + Z.of_nat (length l'))) - length l)%nat
    with (Z.to_nat (i + Z.of_nat (length l'))) by lia.
  reflexivity.
Qed.

(** The timestamp field of a preview name with at least three tokens is
    its third-from-last token. *)
Lemma filename_datetime_preview (pre ts mid : string) :
  Py.split "_" ts = [ts] ->
  Py.split "_" mid = [mid] ->
  filename_datetime (pre ++ "_" ++ ts ++ "_" ++ mid ++ "_preview")%string
    = Py.strptime ts "%Y%m%d%H%M%S".
Proof.
  intros Hts Hmid. unfold filename_datetime.
  change (pre ++ "_" ++ ts ++ "_" ++ mid ++ "_preview")%string
    with (pre ++ String "_" (ts ++ String "_" (mid ++ String "_" "preview")))%string.
  rewrite !split_app_sep, Hts, Hmid.
  change (Py.split "_" "preview") with ["preview"].
  change ([ts] ++ [mid] ++ ["preview"])%list with [ts; mid; "preview"].
  rewrite (getitem_app_neg _ [ts; mid; "preview"] (-1)) by (cbn; lia).
  cbn [Py.getitem mbind outcome_bind]. 
  change (Py.getitem [ts; mid; "preview"] (-1)) with (Ret (A:=string) "preview").
  cbn.
  rewrite (getitem_app_neg _ [ts; mid; "preview"] (-3)) by (cbn; lia).
  reflexivity.
Qed.

(* ===================================================================== *)
(** ** The scenario of the preview file *)
(* ===================================================================== *)

(** C7, as stated, fails: the stem [X_preview] has two tokens, so it has
    no third-from-last token to parse; with no tag, the time of the item is
    the reading of the clock. *)
Lemma C7_counterexample :
  let E := Sample.env ["X_preview.tif"] (Sample.source (Some "EPSG:4326") ∅) in
  Py.split "_" "X_preview" = ["X"; "preview"]
  /\ Py.getitem (Py.split "_" "X_preview") (-3) = Raise (Exception IndexError)
  /\ item_datetime <$> collection (CreateStac.process_tif E "X_preview.tif" Sample.world).2
     = [Some (wall_clock E 0)].
Proof. vm_compute. repeat split. Qed.

(** C7, amended. For [X_preview.tif] the asset of the built item has the
    thumbnail role. Its stem has only two tokens: taking the third-from-last
    raises [IndexError], so when the tag gives no time the item gets the
    reading of the clock. For a preview name with a third-from-last token,
    [..._<ts>_<token>_preview], the timestamp is parsed from that token. *)
Theorem C7_preview_file (E : Env) (tif_path : string) (src : RasterSource) (c : CRS)
    (bbox : BoundingBox) (geom : Geometry) (w : World) :
  Py.basename tif_path = "X_preview.tif" ->
  rasterio_open E tif_path = inr src ->
  crs src = Some c ->
  (forall w0, CreateStac.footprint E c (bounds src) w0 = (Ret (bbox, geom), w0)) ->
  (forall t, tag_datetime (tags src) <> Ret (Some t)) ->
  (exists w',
      CreateStac.process_tif E tif_path w
        = (Ret tt,
           with_item
             (mk_item "X_preview" (Some geom) (Some bbox) (Some (wall_clock E (clock w)))
                (<["data" := mk_asset (abspath E tif_path) CreateStac.GEOTIFF
                                      "X_preview (GeoTIFF)" ["thumbnail"]]> ∅)) w'))
  /\ filename_datetime "X_preview" = Raise (Exception IndexError)
  /\ (forall pre ts mid,
        Py.split "_" ts = [ts] ->
        Py.split "_" mid = [mid] ->
        filename_datetime (pre ++ "_" ++ ts ++ "_" ++ mid ++ "_preview")%string
          = Py.strptime ts "%Y%m%d%H%M%S").
Proof.
  intros Hname Hopen Hcrs Hfoot Htag.
  assert (Hfd : filename_datetime "X_preview" = Raise (Exception IndexError))
    by (vm_compute; reflexivity).
  split; [|split; [exact Hfd | apply filename_datetime_preview]].
  eexists.
  erewrite process_tif_steps.
  - unfold built_item. rewrite Hname. reflexivity.
  - eapply get_stac_info_steps; [exact Hopen | exact Hcrs | apply Hfoot |].
    refine (acquisition_time_now E _ _ _ (printed (MsgProcessing _) w) Htag _).
    intros t. rewrite Hname.
    change ((Py.splitext "X_preview.tif").1) with "X_preview".
    rewrite Hfd. discriminate.
Qed.

Lemma C7_preview_file_witness :
  let src := Sample.source (Some "EPSG:4326") ∅ in
  let E := Sample.env ["X_preview.tif"] src in
  filename_datetime "X_20230101000000_HH_preview" = Ret (Py.mk_datetime 2023 1 1 0 0 0 0)
  /\ exists w', CreateStac.process_tif E "X_preview.tif" Sample.world
       = (Ret tt,
          with_item
            (mk_item "X_preview" (Some (raw_polygon src)) (Some (bounds src))
               (Some (wall_clock E 0))
               (<["data" := mk_asset (abspath E "X_preview.tif") CreateStac.GEOTIFF
                                     "X_preview (GeoTIFF)" ["thumbnail"]]> ∅)) w').
Proof.
  intros src E.
  assert (Htag : forall t, tag_datetime (tags src) <> Ret (Some t))
    by (intros t; vm_compute; discriminate).
  destruct (C7_preview_file E "X_preview.tif" src "EPSG:4326" (bounds src) (raw_polygon src)
              Sample.world eq_refl eq_refl eq_refl (fun w0 => eq_refl) Htag)
    as (Hrun & _ & Hgen).
  split; [|exact Hrun].
  refine (eq_trans (Hgen "X" "20230101000000" "HH" eq_refl eq_refl) _).
  vm_compute. reflexivity.
Defined.

(* ===================================================================== *)
(** ** Substrings *)
(* ===================================================================== *)

Lemma prefix_spec (n s : string) :
  String.prefix n s = true <-> exists post, s = (n ++ post)%string.
Proof.
  revert s. induction n as [|ch n IH]; intros s.
  - split; [intros _; exists s; reflexivity | intros _; destruct s; reflexivity].
  - destruct s as [|ch' s]; cbn -[String.append].
    + split; [discriminate | intros [post Hpost]; discriminate].
    + destruct (ascii_dec ch ch') as [->|Hne].
      * rewrite IH. split; intros [post Hpost]; exists post.
        -- change (String ch' s = String ch' (n ++ post)). congruence.
        -- change (String ch' s = String ch' (n ++ post)) in Hpost. congruence.
      * split; [discriminate|].
        intros [post Hpost].
        change (String ch' s = String ch (n ++ post)) in Hpost. congruence.
Qed.

(** [needle in s] holds exactly when [s] has [needle] as a substring. *)
Lemma str_in_spec (n s : string) :
  Py.str_in n s = true <-> exists pre post, s = (pre ++ n ++ post)%string.
Proof.
  induction s as [|ch s IH].
  - cbn -[String.append String.prefix]. rewrite orb_false_r, prefix_spec. split.
    + intros [post Hpost]. exists "", post. exact Hpost.
    + intros (pre & post & H). destruct pre as [|c pre].
      * exists post. exact H.
      * change ("" = String c (pre ++ n ++ post)) in H. discriminate.
  - cbn -[String.append String.prefix]. rewrite orb_true_iff, IH, prefix_spec. split.
    + intros [[post Hpost] | (pre & post & H)].
      * exists "", post. exact Hpost.
      * exists (String ch pre), post.
        change (String ch s = String ch (pre ++ n ++ post)). congruence.
    + intros (pre & post & H). destruct pre as [|c pre].
      * left. exists post. exact H.
      * right. exists pre, post.
        change (String ch s = String c (pre ++ n ++ post)) in H. congruence.
Qed.

(* ===================================================================== *)
(** ** Product classification *)
(* ===================================================================== *)

(** C10. Indexing mode returns metadata only for a stem that contains
    [_GEC_HH_] or [_GEC_VV_] with both underscores, and the product and
    band follow the marker found. A stem that starts with [GEC_HH_] is
    turned away as unclassified in every environment, although it contains
    the text [GEC_HH] and its name holds a valid timestamp. *)
Theorem C10_markers_need_both_underscores :
  (forall (E : Env) (tif_path : string) (m : Metadata),
      TestDataset.get_metadata_from_tif E tif_path = Some m ->
      let item_id := (Py.splitext (Py.basename tif_path)).1 in
      (exists pre post, item_id = (pre ++ "_GEC_HH_" ++ post)%string
                        /\ md_product_name m = "capella_gec_hh" /\ md_band_name m = "hh")
      \/ (exists pre post, item_id = (pre ++ "_GEC_VV_" ++ post)%string
                           /\ md_product_name m = "capella_gec_vv" /\ md_band_name m = "vv"))
  /\ (exists item_id : string,
        String.prefix "GEC_HH_" item_id = true
        /\ Py.str_in "GEC_HH" item_id = true
        /\ filename_datetime item_id = Ret (Py.mk_datetime 2023 1 1 0 0 0 0)
        /\ TestDataset.classify item_id = None
        /\ forall E : Env,
             TestDataset.get_metadata_from_tif E (item_id ++ ".tif")%string = None).
Proof.
  split.
  - intros E tif_path m Hm item_id.
    unfold TestDataset.get_metadata_from_tif in Hm. fold item_id in Hm.
    destruct (rasterio_open E tif_path) as [?|src]; [discriminate|].
    destruct (crs src) as [c|]; [|discriminate].
    destruct (TestDataset.footprint E c (bounds src)) as [geom|]; [|discriminate].
    destruct (TestDataset.acquisition_time (tags src) item_id) as [t|]; [|discriminate].
    cbn in Hm. unfold TestDataset.classify in Hm.
    destruct (Py.str_in "_GEC_HH_" item_id) eqn:Hhh.
    + left. apply str_in_spec in Hhh as (pre & post & Hstem).
      exists pre, post. injection Hm as <-. auto.
    + destruct (Py.str_in "_GEC_VV_" item_id) eqn:Hvv; [|discriminate].
      right. apply str_in_spec in Hvv as (pre & post & Hstem).
      exists pre, post. injection Hm as <-. auto.
  - exists "GEC_HH_20230101000000_20230101000010".
    split; [vm_compute; reflexivity|].
    split; [vm_compute; reflexivity|].
    split; [vm_compute; reflexivity|].
    split; [vm_compute; reflexivity|].
    intros E. unfold TestDataset.get_metadata_from_tif.
    replace (Py.splitext (Py.basename
               ("GEC_HH_20230101000000_20230101000010" ++ ".tif")%string)).1
      with "GEC_HH_20230101000000_20230101000010" by (vm_compute; reflexivity).
    destruct (rasterio_open E _) as [?|src]; [reflexivity|].
    destruct (crs src) as [c|]; [|reflexivity].
    destruct (TestDataset.footprint E c (bounds src)) as [geom|]; [|reflexivity].
    destruct (TestDataset.acquisition_time (tags src) _) as [t|]; reflexivity.
Qed.

Lemma C10_markers_need_both_underscores_witness :
  let path := "D:\Capalla_data\cog_files\CAPELLA_C02_SP_GEC_VV_20230101000000_20230101000010.tif" in
  exists pre post,
    "CAPELLA_C02_SP_GEC_VV_20230101000000_20230101000010"
      = (pre ++ "_GEC_VV_" ++ post)%string.
Proof.
  intros path.
  pose (E := Sample.env [path] (Sample.source (Some "EPSG:4326") ∅)).
  destruct (TestDataset.get_metadata_from_tif E path) as [m|] eqn:Hm;
    [|vm_compute in Hm; discriminate].
  destruct (proj1 C10_markers_need_both_underscores E path m Hm)
    as [(pre & post & Hstem & Hp & _) | (pre & post & Hstem & _)].
  - exfalso. vm_compute in Hm. injection Hm as <-. discriminate Hp.
  - exists pre, post. exact Hstem.
Defined.

(* ===================================================================== *)
(** ** Registration in the index *)
(* ===================================================================== *)

Lemma resolve_calls_app (h1 h2 : list index_call) :
  resolve_calls (h1 ++ h2)%list = (resolve_calls h1 + resolve_calls h2)%nat.
Proof. unfold resolve_calls. rewrite List.filter_app, length_app. reflexivity. Qed.

(** A build returns a document, having drawn once and read the clock
    once; the id of the document is the UUID of the draw. *)
Lemma build_eo3_dict_returns (E : Env) (meta : Metadata) (tif_path : string) (w : World) :
  exists doc,
    TestDataset.build_eo3_dict E meta tif_path w = (Ret doc, tick (drawn w))
    /\ doc_id doc = Py.uuid_str (Py.uuid4 (urandom16 E (draws w))).
Proof.
  unfold TestDataset.build_eo3_dict, TestDataset.fresh_uuid. run.
  eexists. split; reflexivity.
Qed.

(** The registration of a written document refines the submission of the
    specification, whatever the resolver and the index answer or raise:
    it returns, with the calls, the count and the lines of the policy. *)
Lemma register_policy (E : Env) (meta : Metadata) (doc : EO3Doc) (yaml_path : string)
    (cnt : Z) (w : World) :
  let uri := as_uri E (abspath E yaml_path) in
  let r := spec_submission E (index_calls w) doc uri in
  exists w' lines,
    TestDataset.register E meta doc yaml_path cnt w
      = (Ret (match r.1 with Skipped => cnt | _ => cnt + 1 end), w')
    /\ yaml_files w' = yaml_files w
    /\ index_calls w' = (index_calls w ++ r.2)%list
    /\ stdout w' = (stdout w ++ lines)%list
    /\ match r.1 with
       | Updated => lines = []
       | Inserted => lines = [MsgAdded (md_id meta)]
       | Skipped => exists m, lines = [m] /\ is_report (md_id meta) m = true
       end.
Proof.
  intros uri r. subst r.
  unfold TestDataset.register, TestDataset.call_resolver, TestDataset.index_update,
    TestDataset.index_add, spec_submission, spec_registration.
  run. fold uri.
  destruct (resolver E (index_calls w) doc uri) as [e | [[ds|] [[|ch err]|]]];
    cbn [Py.truthy lift_lib fst snd index_calls called printed].
  all: try destruct (datasets_update E _ ds) as [[| |cls]|[]];
    cbn [lift_lib fst snd index_calls called printed].
  all: try destruct (datasets_add E _ ds) as [e'|[]];
    cbn [lift_lib fst snd index_calls called printed].
  all: eexists _, _; (split; [reflexivity|]); (split; [reflexivity|]);
    (split; [cbn [index_calls called printed]; rewrite <- ?app_assoc; reflexivity|]);
    (split; [cbn [stdout called printed];
             first [symmetry; apply app_nil_r | reflexivity]|]);
    first [ reflexivity
          | eexists; split; [reflexivity|]; cbn [is_report]; apply String.eqb_refl ].
Qed.

Lemma metadata_id (E : Env) (tif : string) (meta : Metadata) :
  TestDataset.get_metadata_from_tif E tif = Some meta -> md_id meta = stem tif.
Proof.
  unfold TestDataset.get_metadata_from_tif, stem.
  destruct (rasterio_open E tif) as [?|src]; [discriminate|].
  destruct (crs src) as [c|]; [|discriminate].
  destruct (TestDataset.footprint E c (bounds src)); [|discriminate].
  destruct (TestDataset.acquisition_time _ _); [|discriminate].
  destruct (TestDataset.classify _) as [[p b]|]; [|discriminate].
  cbn. intros H. injection H as <-. reflexivity.
Qed.

(** One file of the batch whose document can be written: the body of the
    loop returns, having handled the file by the policy. *)
Lemma index_tif_policy (E : Env) (tif : string) (cnt : Z) (w : World) :
  (forall doc, yaml_write E (yaml_path_of tif) doc = inr tt) ->
  exists cnt' w',
    TestDataset.index_tif E tif cnt w = (Ret cnt', w')
    /\ match document_of E tif w with
       | Some doc => registered_by_policy E tif doc cnt w cnt' w'
       | None => cnt' = cnt /\ w' = w
       end.
Proof.
  intros Hyaml. unfold TestDataset.index_tif, document_of.
  destruct (TestDataset.get_metadata_from_tif E tif) as [meta|] eqn:Hm.
  - pose proof (metadata_id E tif meta Hm) as Hid.
    destruct (build_eo3_dict_returns E meta tif w) as (doc & Hbuild & _).
    rewrite Hbuild. cbn [fst]. rewrite Hid. fold (yaml_path_of tif).
    assert (Hdump : TestDataset.yaml_dump E (yaml_path_of tif) doc (tick (drawn w))
                    = (Ret tt, with_yaml (yaml_path_of tif) doc (tick (drawn w))))
      by (unfold TestDataset.yaml_dump; rewrite Hyaml; reflexivity).
    destruct (register_policy E meta doc (yaml_path_of tif) cnt
                (with_yaml (yaml_path_of tif) doc (tick (drawn w))))
      as (w' & lines & Hrun & Hfiles & Hcalls & Hlines & Hreport).
    eexists _, w'. split.
    + rewrite (bind_ret _ _ _ _ _ Hbuild). cbv beta.
      rewrite (bind_ret _ _ _ _ _ Hdump). exact Hrun.
    + unfold registered_by_policy. cbv zeta.
      cbn [yaml_files index_calls stdout with_yaml tick drawn] in Hfiles, Hcalls, Hlines,
        Hreport |- *.
      rewrite Hid in Hreport.
      split; [exact Hfiles|]. split; [exact Hcalls|]. split; [reflexivity|].
      exists lines. split; [exact Hlines | exact Hreport].
  - exists cnt, w. split; [reflexivity|]. split; reflexivity.
Qed.

Lemma for_each_app {A S} (xs ys : list A) (body : A -> S -> M S) (s : S) (w : World) :
  for_each (xs ++ ys) body s w
  = match for_each xs body s w with
    | (Ret s', w') => for_each ys body s' w'
    | (Raise e, w') => (Raise e, w')
    end.
Proof.
  revert s w. induction xs as [|x xs IH]; intros s w; [reflexivity|].
  cbn [app for_each]. unfold mbind, M_bind.
  destruct (body x s w) as [[s1|e] w1]; [apply IH | reflexivity].
Qed.

(** A batch whose documents can be written is processed to its end. *)
Lemma batch_returns (E : Env) (files : list string) (cnt : Z) (w : World) :
  (forall tif doc, tif ∈ files -> yaml_write E (yaml_path_of tif) doc = inr tt) ->
  exists cnt' w', for_each files (TestDataset.index_tif E) cnt w = (Ret cnt', w').
Proof.
  revert cnt w. induction files as [|tif files IH]; intros cnt w Hyaml.
  - exists cnt, w. reflexivity.
  - destruct (index_tif_policy E tif cnt w) as (c1 & w1 & Hstep & _).
    { intros doc. apply Hyaml. apply elem_of_cons. left. reflexivity. }
    destruct (IH c1 w1) as (cnt' & w' & Hrest).
    { intros t doc Hin. apply Hyaml. apply elem_of_cons. right. exact Hin. }
    exists cnt', w'. cbn [for_each]. rewrite (bind_ret _ _ _ _ _ Hstep). exact Hrest.
Qed.

(** C4, as stated, fails: the document of a file is written before it is
    submitted, outside the handlers. Of three files that all yield
    metadata, the second cannot be written: [main] ends with the exception
    of the writer, exit status 1, after the first file alone was submitted
    and registered; the third is never looked at. *)
Lemma C4_counterexample :
  let files := ["A_GEC_HH_20230101000000_20230101000010.tif";
                "B_GEC_HH_20230101000000_20230101000010.tif";
                "C_GEC_HH_20230101000000_20230101000010.tif"] in
  let write := fun (path : string) (_ : EO3Doc) =>
    if String.eqb path "odc_datasets\ds_B_GEC_HH_20230101000000_20230101000010.yaml"
    then inl (OtherError "PermissionError") else inr tt in
  let E := Sample.env_writing write files (Sample.source (Some "EPSG:4326") ∅) in
  List.map (has_metadata E) files = [true; true; true]
  /\ (TestDataset.main E Sample.world).1 = Raise (Exception (OtherError "PermissionError"))
  /\ exit_status (TestDataset.main E Sample.world).1 = 1
  /\ resolve_calls (index_calls (TestDataset.main E Sample.world).2) = 1%nat
  /\ List.map fst (yaml_files (TestDataset.main E Sample.world).2)
     = ["odc_datasets\ds_A_GEC_HH_20230101000000_20230101000010.yaml"].
Proof. vm_compute. repeat split. Qed.

(** C4, amended. In a batch whose documents can be written, the loop runs
    to its end, and every file of the batch is handled by the policy of
    the specification in the state the files before it left: a file
    without metadata changes nothing; the document of any other file is
    written and submitted, and then the update is attempted first; when
    the index raises [ValueError] from it (no such record), the record is
    inserted; when the insert fails too, or the document does not resolve,
    the failure is printed and the file is not counted. Whatever the
    resolver and the index answer or raise for the file, the files after
    it are processed. *)
Theorem C4_update_then_insert (E : Env) (files : list string) (success_count : Z)
    (w : World) :
  (forall tif doc, tif ∈ files -> yaml_write E (yaml_path_of tif) doc = inr tt) ->
  exists cnt' w',
    for_each files (TestDataset.index_tif E) success_count w = (Ret cnt', w')
    /\ forall before tif after,
         files = (before ++ tif :: after)%list ->
         exists c1 w1 c2 w2,
           for_each before (TestDataset.index_tif E) success_count w = (Ret c1, w1)
           /\ TestDataset.index_tif E tif c1 w1 = (Ret c2, w2)
           /\ for_each after (TestDataset.index_tif E) c2 w2 = (Ret cnt', w')
           /\ match document_of E tif w1 with
              | Some doc => registered_by_policy E tif doc c1 w1 c2 w2
              | None => c2 = c1 /\ w2 = w1
              end.
Proof.
  intros Hyaml.
  destruct (batch_returns E files success_count w Hyaml) as (cnt' & w' & Hrun).
  exists cnt', w'. split; [exact Hrun|].
  intros before tif after ->.
  destruct (batch_returns E before success_count w) as (c1 & w1 & Hbefore).
  { intros t doc Hin. apply Hyaml. apply elem_of_app. left. exact Hin. }
  destruct (index_tif_policy E tif c1 w1) as (c2 & w2 & Hstep & Hpolicy).
  { intros doc. apply Hyaml. apply elem_of_app. right. apply elem_of_cons. left.
    reflexivity. }
  exists c1, w1, c2, w2. split; [exact Hbefore|]. split; [exact Hstep|].
  split; [|exact Hpolicy].
  rewrite for_each_app, Hbefore in Hrun. cbn [for_each] in Hrun.
  rewrite (bind_ret _ _ _ _ _ Hstep) in Hrun. exact Hrun.
Qed.

Lemma C4_update_then_insert_witness :
  let path := "X_GEC_HH_20230101000000_20230101000010.tif" in
  let E := Sample.env [path] (Sample.source (Some "EPSG:4326") ∅) in
  exists w',
    for_each [path] (TestDataset.index_tif E) 0 Sample.world = (Ret 1, w')
    /\ List.map is_resolve (index_calls w') = [true; false; false]
    /\ stdout w' = [MsgAdded "X_GEC_HH_20230101000000_20230101000010"].
Proof.
  intros path E.
  destruct (C4_update_then_insert E [path] 0 Sample.world (fun _ _ _ => eq_refl))
    as (cnt' & w' & Hrun & Hall).
  destruct (Hall [] path [] eq_refl) as (c1 & w1 & c2 & w2 & Hb & _ & Ha & Hpolicy).
  injection Hb as <- <-. injection Ha as -> ->.
  destruct (document_of E path Sample.world) as [doc|] eqn:Hdoc;
    [|vm_compute in Hdoc; discriminate Hdoc].
  destruct Hpolicy as (_ & Hcalls & Hcnt & lines & Hlines & Hreport).
  exists w'. rewrite Hrun, Hcalls, Hlines, Hcnt.
  cbn in Hreport. subst lines.
  split; [reflexivity|]. split; [reflexivity|]. vm_compute. reflexivity.
Defined.

(* ===================================================================== *)
(** ** Document identifiers *)
(* ===================================================================== *)

(** The bits of [uuid4 r]: the random bits are those of [r], bit 63
    (variant) and bit 78 (version 4) are set, everything else is clear. *)
Lemma uuid4_testbit (r i : Z) :
  0 <= i ->
  Z.testbit (Py.uuid4 r) i
  = if random_bit i then Z.testbit r i else (i =? 63) || (i =? 78).
Proof.
  intros Hi. unfold Py.uuid4, random_bit. cbv zeta.
  change (Z.shiftl 49152 48) with (Z.lor (2 ^ 62) (2 ^ 63)).
  change (Z.shiftl 32768 48) with (2 ^ 63).
  change (Z.shiftl 61440 64)
    with (Z.lor (Z.lor (2 ^ 76) (2 ^ 77)) (Z.lor (2 ^ 78) (2 ^ 79))).
  change (Z.shiftl 4 76) with (2 ^ 78).
  repeat first [rewrite Z.lor_spec | rewrite Z.land_spec | rewrite Z.lnot_spec by lia].
  rewrite !Z.pow2_bits_eqb by lia.
  assert (Hmod : Z.testbit (r mod 2 ^ 128) i = (i <? 128) && Z.testbit r i).
  { destruct (Z.ltb_spec i 128).
    - rewrite Z.mod_pow2_bits_low by lia. reflexivity.
    - rewrite Z.mod_pow2_bits_high by lia. reflexivity. }
  rewrite Hmod.
  destruct (Z.leb_spec 0 i); [|lia].
  destruct (Z.ltb_spec i 128), (Z.leb_spec 76 i), (Z.leb_spec i 79);
    repeat match goal with
           | |- context [?a =? ?b] => destruct (Z.eqb_spec a b); try lia
           end;
    cbn; try reflexivity; try lia; destruct (Z.testbit r i); reflexivity.
Qed.

Lemma uuid4_range (r : Z) : 0 <= Py.uuid4 r < 2 ^ 128.
Proof.
  assert (H : Py.uuid4 r = Py.uuid4 r mod 2 ^ 128).
  { apply Z.bits_inj'. intros i Hi.
    destruct (Z.lt_ge_cases i 128).
    - rewrite Z.mod_pow2_bits_low by lia. reflexivity.
    - rewrite Z.mod_pow2_bits_high by lia.
      rewrite uuid4_testbit by lia. unfold random_bit.
      destruct (Z.ltb_spec i 128); [lia|].
      rewrite andb_false_r. cbn.
      destruct (Z.eqb_spec i 63), (Z.eqb_spec i 78); first [lia | reflexivity]. }
  rewrite H. apply Z.mod_pos_bound. reflexivity.
Qed.

(** Two draws that differ in a random bit give different UUIDs. *)
Lemma uuid4_differ (r1 r2 i : Z) :
  random_bit i = true ->
  Z.testbit r1 i <> Z.testbit r2 i ->
  Py.uuid4 r1 <> Py.uuid4 r2.
Proof.
  intros Hbit Hdiff Heq. apply Hdiff.
  assert (Hi : 0 <= i).
  { unfold random_bit in Hbit. destruct (Z.leb_spec 0 i); [assumption | discriminate]. }
  pose proof (uuid4_testbit r1 i Hi) as H1.
  pose proof (uuid4_testbit r2 i Hi) as H2.
  rewrite Hbit in H1, H2. rewrite <- H1, <- H2, Heq. reflexivity.
Qed.

Lemma hex_val_digit (d : Z) : 0 <= d < 16 -> hex_val (Py.hex_digit d) = d.
Proof.
  intros Hd.
  assert (H : d = 0 \/ d = 1 \/ d = 2 \/ d = 3 \/ d = 4 \/ d = 5 \/ d = 6 \/ d = 7
              \/ d = 8 \/ d = 9 \/ d = 10 \/ d = 11 \/ d = 12 \/ d = 13 \/ d = 14
              \/ d = 15) by lia.
  repeat (destruct H as [-> | H]; [reflexivity|]). subst d. reflexivity.
Qed.

(** Reading back the digits of [hex_fixed]. *)
Lemma of_hex_fixed (w : nat) (n acc : Z) :
  of_hex (Py.hex_fixed w n) acc = acc * 16 ^ Z.of_nat w + n mod 16 ^ Z.of_nat w.
Proof.
  revert acc. induction w as [|w IH]; intros acc.
  - cbn. rewrite Z.mod_1_r. lia.
  - cbn [Py.hex_fixed of_hex]. rewrite IH.
    change 15 with (Z.ones 4).
    rewrite Z.land_ones, Z.shiftr_div_pow2 by lia.
    rewrite hex_val_digit by (apply Z.mod_pos_bound; reflexivity).
    replace (2 ^ (4 * Z.of_nat w)) with (16 ^ Z.of_nat w)
      by (change 16 with (2 ^ 4); rewrite <- Z.pow_mul_r by lia; reflexivity).
    change (2 ^ 4) with 16.
    rewrite Nat2Z.inj_succ, Z.pow_succ_r by lia.
    assert (Hpos : 0 < 16 ^ Z.of_nat w) by (apply Z.pow_pos_nonneg; lia).
    rewrite (Z.mul_comm 16 (16 ^ Z.of_nat w)).
    rewrite (Z.rem_mul_r n (16 ^ Z.of_nat w) 16) by lia.
    ring.
Qed.

Lemma undash_uuid_str (u : Z) : undash (Py.uuid_str u) = Py.hex_fixed 32 u.
Proof. reflexivity. Qed.

(** The string form of a 128-bit UUID determines it. *)
Lemma uuid_str_inj (u1 u2 : Z) :
  0 <= u1 < 2 ^ 128 -> 0 <= u2 < 2 ^ 128 ->
  Py.uuid_str u1 = Py.uuid_str u2 -> u1 = u2.
Proof.
  intros H1 H2 Heq.
  apply (f_equal undash) in Heq. rewrite !undash_uuid_str in Heq.
  apply (f_equal (fun s => of_hex s 0)) in Heq.
  rewrite !of_hex_fixed in Heq.
  change (16 ^ Z.of_nat 32) with (2 ^ 128) in Heq.
  rewrite !Z.mod_small in Heq by assumption. lia.
Qed.

(** C9. Each build of a dataset document draws sixteen fresh random
    bytes and uses the UUID made from them as the document id: the id is a
    function of the draw alone, whatever the file and its metadata. Two
    builds, of the same file or not, whose draws differ in a random bit
    give documents with different ids. *)
Theorem C9_fresh_document_id (E1 E2 : Env) (meta1 meta2 : Metadata)
    (path1 path2 : string) (w1 w2 : World) (i : Z) :
  random_bit i = true ->
  Z.testbit (urandom16 E1 (draws w1)) i <> Z.testbit (urandom16 E2 (draws w2)) i ->
  exists d1 d2 w1' w2',
    TestDataset.build_eo3_dict E1 meta1 path1 w1 = (Ret d1, w1')
    /\ TestDataset.build_eo3_dict E2 meta2 path2 w2 = (Ret d2, w2')
    /\ doc_id d1 = Py.uuid_str (Py.uuid4 (urandom16 E1 (draws w1)))
    /\ doc_id d2 = Py.uuid_str (Py.uuid4 (urandom16 E2 (draws w2)))
    /\ draws w1' = S (draws w1)
    /\ draws w2' = S (draws w2)
    /\ doc_id d1 <> doc_id d2.
Proof.
  intros Hbit Hdiff.
  destruct (build_eo3_dict_returns E1 meta1 path1 w1) as (d1 & H1 & Hid1).
  destruct (build_eo3_dict_returns E2 meta2 path2 w2) as (d2 & H2 & Hid2).
  exists d1, d2, (tick (drawn w1)), (tick (drawn w2)).
  split; [exact H1|]. split; [exact H2|].
  split; [exact Hid1|]. split; [exact Hid2|].
  split; [reflexivity|]. split; [reflexivity|].
  rewrite Hid1, Hid2. intros Heq.
  apply uuid_str_inj in Heq; try apply uuid4_range.
  exact (uuid4_differ _ _ i Hbit Hdiff Heq).
Qed.

Lemma C9_fresh_document_id_witness :
  let path := "X_GEC_HH_20230101000000_20230101000010.tif" in
  let E := Sample.env [path] (Sample.source (Some "EPSG:4326") ∅) in
  let meta := Sample.metadata in
  exists d1 d2 w1' w2',
    TestDataset.build_eo3_dict E meta path Sample.world = (Ret d1, w1')
    /\ TestDataset.build_eo3_dict E meta path (drawn Sample.world) = (Ret d2, w2')
    /\ doc_id d1 <> doc_id d2.
Proof.
  intros path E meta.
  assert (Hdiff : Z.testbit (urandom16 E (draws Sample.world)) 0
                  <> Z.testbit (urandom16 E (draws (drawn Sample.world))) 0)
    by (vm_compute; discriminate).
  destruct (C9_fresh_document_id E E meta meta path path Sample.world (drawn Sample.world)
              0 eq_refl Hdiff)
    as (d1 & d2 & w1' & w2' & H1 & H2 & _ & _ & _ & _ & Hne).
  exists d1, d2, w1', w2'. auto.
Defined.

(* ===================================================================== *)
(** ** The timestamp field of a file name *)
(* ===================================================================== *)

Lemma split_single_nonpreview (sep : ascii) (s : string) :
  Py.split sep s = [s] -> Py.getitem (Py.split sep s) (-1) = Ret s.
Proof. intros ->. reflexivity. Qed.

(** A name that is not a preview: the field is the second-from-last
    token. *)
Lemma filename_datetime_second_from_last (pre ts last : string) :
  Py.split "_" ts = [ts] ->
  Py.split "_" last = [last] ->
  last <> "preview" ->
  filename_datetime (pre ++ "_" ++ ts ++ "_" ++ last)%string
    = Py.strptime ts "%Y%m%d%H%M%S".
Proof.
  intros Hts Hlast Hne. unfold filename_datetime.
  change (pre ++ "_" ++ ts ++ "_" ++ last)%string
    with (pre ++ String "_" (ts ++ String "_" last))%string.
  rewrite !split_app_sep, Hts, Hlast.
  change ([ts] ++ [last])%list with [ts; last].
  rewrite (getitem_app_neg _ [ts; last] (-1)) by (cbn; lia).
  change (Py.getitem [ts; last] (-1)) with (Ret (A:=string) last).
  cbn [mbind outcome_bind].
  apply String.eqb_neq in Hne. rewrite Hne.
  rewrite (getitem_app_neg _ [ts; last] (-2)) by (cbn; lia).
  reflexivity.
Qed.

(** A name of exactly two tokens. *)
Lemma filename_datetime_two_tokens (ts last : string) :
  Py.split "_" ts = [ts] ->
  Py.split "_" last = [last] ->
  last <> "preview" ->
  filename_datetime (ts ++ "_" ++ last)%string = Py.strptime ts "%Y%m%d%H%M%S".
Proof.
  intros Hts Hlast Hne. unfold filename_datetime.
  change (ts ++ "_" ++ last)%string with (ts ++ String "_" last)%string.
  rewrite split_app_sep, Hts, Hlast.
  change ([ts] ++ [last])%list with [ts; last].
  change (Py.getitem [ts; last] (-1)) with (Ret (A:=string) last).
  cbn [mbind outcome_bind].
  apply String.eqb_neq in Hne. rewrite Hne. reflexivity.
Qed.

(** A name without underscore has no timestamp field. *)
Lemma filename_datetime_one_token (item_id : string) :
  Py.split "_" item_id = [item_id] ->
  filename_datetime item_id = Raise (Exception IndexError).
Proof.
  intros Hone. unfold filename_datetime. rewrite Hone.
  change (Py.getitem [item_id] (-1)) with (Ret (A:=string) item_id).
  cbn [mbind outcome_bind].
  destruct (String.eqb item_id "preview"); reflexivity.
Qed.

(** X1. The timestamp field of a file name that does not end in [preview]
    is its second-from-last underscore-delimited token, whatever precedes
    it; a name with no underscore has no such field and the lookup raises
    [IndexError]. *)
Theorem X1_timestamp_field (ts last : string) :
  Py.split "_" ts = [ts] ->
  Py.split "_" last = [last] ->
  last <> "preview" ->
  (forall pre,
      filename_datetime (pre ++ "_" ++ ts ++ "_" ++ last)%string
        = Py.strptime ts "%Y%m%d%H%M%S")
  /\ filename_datetime (ts ++ "_" ++ last)%string = Py.strptime ts "%Y%m%d%H%M%S"
  /\ filename_datetime ts = Raise (Exception IndexError).
Proof.
  intros Hts Hlast Hne. split; [|split].
  - intros pre. apply filename_datetime_second_from_last; assumption.
  - apply filename_datetime_two_tokens; assumption.
  - apply filename_datetime_one_token. exact Hts.
Qed.

Lemma X1_timestamp_field_witness :
  filename_datetime "CAPELLA_C02_SP_GEC_HH_20230101000000_20230101000010"
    = Ret (Py.mk_datetime 2023 1 1 0 0 0 0).
Proof.
  assert (Hne : "20230101000010" <> "preview") by discriminate.
  destruct (X1_timestamp_field "20230101000000" "20230101000010" eq_refl eq_refl Hne)
    as [H _].
  refine (eq_trans (H "CAPELLA_C02_SP_GEC_HH") _).
  vm_compute. reflexivity.
Defined.

(* ===================================================================== *)
(** ** The middle of the fallback order *)
(* ===================================================================== *)

Lemma acquisition_time_from_name (tags : gmap string string) (item_id : string)
    (t : Py.datetime) :
  (forall t', tag_datetime tags <> Ret (Some t')) ->
  filename_datetime item_id = Ret t ->
  TestDataset.acquisition_time tags item_id = Some t.
Proof.
  intros Hno Hf. unfold TestDataset.acquisition_time.
  destruct (tag_datetime tags) as [[t'|]|e] eqn:Ht.
  - exfalso. eapply Hno. reflexivity.
  - rewrite Hf. reflexivity.
  - rewrite Hf. reflexivity.
Qed.

(** X2. When the selected tag gives no time and the file name does, both
    modes take the time of the name: browsing mode returns it without
    reading the clock, indexing mode stores it in the metadata of every
    file it classifies. *)
Theorem X2_filename_time_when_tag_fails (E : Env) (tif_path : string)
    (src : RasterSource) (c : CRS) (t : Py.datetime) (w : World) :
  let filename := Py.basename tif_path in
  let item_id := (Py.splitext filename).1 in
  rasterio_open E tif_path = inr src ->
  crs src = Some c ->
  (forall t', tag_datetime (tags src) <> Ret (Some t')) ->
  filename_datetime item_id = Ret t ->
  (forall bbox geom,
      CreateStac.footprint E c (bounds src) w = (Ret (bbox, geom), w) ->
      exists w',
        CreateStac.get_stac_info_from_tif E tif_path w
          = (Ret (Some item_id, Some t, Some bbox, Some geom), w')
        /\ clock w' = clock w)
  /\ (forall geom,
      TestDataset.footprint E c (bounds src) = Some geom ->
      TestDataset.get_metadata_from_tif E tif_path
        = ('(p_name, b_name) ← TestDataset.classify item_id;
           Some (mk_metadata item_id t geom p_name b_name (shape src) (transform src)))).
Proof.
  intros filename item_id Hopen Hcrs Htag Hname. split.
  - intros bbox geom Hfoot. eexists. split.
    + eapply get_stac_info_steps; [exact Hopen | exact Hcrs | exact Hfoot |].
      apply acquisition_time_filename; assumption.
    + unfold after_tag. destruct (tag_datetime (tags src)); reflexivity.
  - intros geom Hfoot.
    rewrite (get_metadata_steps E tif_path src Hopen c Hcrs), Hfoot.
    fold filename. fold item_id.
    cbn [mbind option_bind].
    rewrite (acquisition_time_from_name _ _ _ Htag Hname). reflexivity.
Qed.

Lemma X2_filename_time_when_tag_fails_witness :
  let path := "X_GEC_VV_20230101000000_20230101000010.tif" in
  let src := Sample.source (Some "EPSG:4326") {["TIFFTAG_DATETIME" := "2023-01-01"]} in
  md_datetime <$> TestDataset.get_metadata_from_tif (Sample.env [path] src) path
    = Some (Py.mk_datetime 2023 1 1 0 0 0 0).
Proof.
  intros path src.
  assert (Htag : forall t', tag_datetime (tags src) <> Ret (Some t'))
    by (intros t'; vm_compute; discriminate).
  assert (Hname : filename_datetime (Py.splitext (Py.basename path)).1
                  = Ret (Py.mk_datetime 2023 1 1 0 0 0 0))
    by (vm_compute; reflexivity).
  destruct (X2_filename_time_when_tag_fails (Sample.env [path] src) path src "EPSG:4326"
              (Py.mk_datetime 2023 1 1 0 0 0 0) Sample.world eq_refl eq_refl Htag Hname)
    as [_ H].
  rewrite (H (raw_polygon src) eq_refl). reflexivity.
Defined.

(* ===================================================================== *)
(** ** Times that reach the index *)
(* ===================================================================== *)

(** What [strptime] returns passed the checks of the constructor and has
    no fraction of a second. *)
Lemma strptime_valid (s fmt : string) (t : Py.datetime) :
  Py.strptime s fmt = Ret t ->
  Py.valid_datetime t = true /\ Py.microsecond t = 0.
Proof.
  unfold Py.strptime.
  destruct (Py.compile_format fmt) as [p|]; [|discriminate].
  destruct (Py.re_match p s []) as [|[groups rest] ?]; [discriminate|].
  destruct rest; [|discriminate].
  destruct (Py.valid_datetime _) eqn:Hvalid; [|discriminate].
  intros [= <-]. split; [exact Hvalid | reflexivity].
Qed.

Lemma tag_datetime_valid (tags : gmap string string) (t : Py.datetime) :
  tag_datetime tags = Ret (Some t) ->
  Py.valid_datetime t = true /\ Py.microsecond t = 0.
Proof.
  unfold tag_datetime.
  destruct (Py.or_ _ _) as [[|ch str]|]; try discriminate.
  unfold mbind, outcome_bind.
  destruct (Py.strptime _ _) as [t'|] eqn:Hp; [|discriminate].
  intros [= <-]. eapply strptime_valid. exact Hp.
Qed.

Lemma filename_datetime_valid (item_id : string) (t : Py.datetime) :
  filename_datetime item_id = Ret t ->
  Py.valid_datetime t = true /\ Py.microsecond t = 0.
Proof.
  unfold filename_datetime, mbind, outcome_bind.
  destruct (Py.getitem _ (-1)) as [last|]; [|discriminate].
  destruct (if String.eqb last "preview" then _ else _) as [ts|]; [|discriminate].
  apply strptime_valid.
Qed.

Lemma acquisition_time_valid (tags : gmap string string) (item_id : string)
    (t : Py.datetime) :
  TestDataset.acquisition_time tags item_id = Some t ->
  Py.valid_datetime t = true /\ Py.microsecond t = 0.
Proof.
  unfold TestDataset.acquisition_time.
  destruct (tag_datetime tags) as [[t'|]|e] eqn:Ht.
  - intros [= <-]. eapply tag_datetime_valid. exact Ht.
  - destruct (filename_datetime item_id) eqn:Hf; [|discriminate].
    intros [= <-]. eapply filename_datetime_valid. exact Hf.
  - destruct (filename_datetime item_id) eqn:Hf; [|discriminate].
    intros [= <-]. eapply filename_datetime_valid. exact Hf.
Qed.

(** What the extraction of indexing mode went through when it returns. *)
Lemma get_metadata_inv (E : Env) (tif_path : string) (m : Metadata) :
  TestDataset.get_metadata_from_tif E tif_path = Some m ->
  let item_id := (Py.splitext (Py.basename tif_path)).1 in
  exists src c p_name b_name,
    rasterio_open E tif_path = inr src
    /\ crs src = Some c
    /\ TestDataset.footprint E c (bounds src) = Some (md_geometry m)
    /\ TestDataset.acquisition_time (tags src) item_id = Some (md_datetime m)
    /\ TestDataset.classify item_id = Some (p_name, b_name)
    /\ m = mk_metadata item_id (md_datetime m) (md_geometry m) p_name b_name
             (shape src) (transform src).
Proof.
  intros Hm item_id. unfold TestDataset.get_metadata_from_tif in Hm. fold item_id in Hm.
  destruct (rasterio_open E tif_path) as [?|src] eqn:Hopen; [discriminate|].
  destruct (crs src) as [c|] eqn:Hcrs; [|discriminate].
  destruct (TestDataset.footprint E c (bounds src)) as [geom|] eqn:Hfoot; [|discriminate].
  destruct (TestDataset.acquisition_time (tags src) item_id) as [t|] eqn:Htime;
    [|discriminate].
  destruct (TestDataset.classify item_id) as [[p_name b_name]|] eqn:Hclass;
    [|discriminate].
  cbn in Hm. injection Hm as <-.
  exists src, c, p_name, b_name. cbn [md_geometry md_datetime].
  split; [reflexivity|]. split; [exact Hcrs|]. split; [exact Hfoot|].
  split; [exact Htime|]. split; reflexivity.
Qed.

Lemma isoformat_length (t : Py.datetime) :
  Py.microsecond t = 0 -> String.length (Py.isoformat t) = 19%nat.
Proof.
  destruct t as [y mo d h mi s us]. cbn [Py.microsecond]. intros ->. reflexivity.
Qed.

(** X3. Every time that indexing mode puts in metadata was parsed from a
    tag or a file name: it is a valid calendar date and time of day with no
    fraction of a second, and the [datetime] property of the document
    built from it is exactly nineteen characters long. *)
Theorem X3_indexed_time_is_valid (E : Env) (tif_path : string) (m : Metadata)
    (w : World) :
  TestDataset.get_metadata_from_tif E tif_path = Some m ->
  Py.valid_datetime (md_datetime m) = true
  /\ Py.microsecond (md_datetime m) = 0
  /\ exists doc w',
       TestDataset.build_eo3_dict E m tif_path w = (Ret doc, w')
       /\ doc_datetime doc = Py.isoformat (md_datetime m)
       /\ String.length (doc_datetime doc) = 19%nat.
Proof.
  intros Hm.
  destruct (get_metadata_inv E tif_path m Hm)
    as (src & c & p & b & _ & _ & _ & Htime & _).
  destruct (acquisition_time_valid _ _ _ Htime) as [Hvalid Hmicro].
  split; [exact Hvalid|]. split; [exact Hmicro|].
  unfold TestDataset.build_eo3_dict, TestDataset.fresh_uuid. run.
  eexists _, _. split; [reflexivity|]. cbn [doc_datetime].
  split; [reflexivity | apply isoformat_length; exact Hmicro].
Qed.

Lemma X3_indexed_time_is_valid_witness :
  let path := "X_GEC_VV_20240229235959_20240301000010.tif" in
  let E := Sample.env [path] (Sample.source (Some "EPSG:4326") ∅) in
  exists m, TestDataset.get_metadata_from_tif E path = Some m
            /\ Py.valid_datetime (md_datetime m) = true.
Proof.
  intros path E.
  destruct (TestDataset.get_metadata_from_tif E path) as [m|] eqn:Hm;
    [|vm_compute in Hm; discriminate].
  exists m. split; [reflexivity|].
  exact (proj1 (X3_indexed_time_is_valid E path m Sample.world Hm)).
Defined.

(* ===================================================================== *)
(** ** What browsing mode catalogs *)
(* ===================================================================== *)

(** The footprint step of browsing mode returns exactly when the
    reprojection goes through. *)
Lemma footprint_reprojects (E : Env) (c : CRS) (b : BoundingBox) (w : World) :
  (reprojects E c b = true
   /\ exists bbox geom, CreateStac.footprint E c b w = (Ret (bbox, geom), w))
  \/ (reprojects E c b = false
      /\ exists e, CreateStac.footprint E c b w = (Raise (Exception e), w)).
Proof.
  unfold CreateStac.footprint, reprojects.
  destruct (negb (String.eqb c "EPSG:4326")).
  - run.
    destruct (transform_bounds E c b) as [e|bbox].
    + right. split; [reflexivity | eexists; reflexivity].
    + destruct (transform_geom E c _) as [e|geom].
      * right. split; [reflexivity | eexists; reflexivity].
      * left. split; [reflexivity | eexists _, _; reflexivity].
  - left. split; [reflexivity | eexists _, _; reflexivity].
Qed.

(** The body of the browsing loop adds the item of an eligible file, and
    nothing for any other file. *)
Lemma process_tif_ids (E : Env) (tif_path : string) (w : World) :
  exists w',
    CreateStac.process_tif E tif_path w = (Ret tt, w')
    /\ List.map item_id (collection w')
       = (List.map item_id (collection w)
          ++ (if stac_eligible E tif_path then [stem tif_path] else []))%list.
Proof.
  unfold stac_eligible.
  destruct (rasterio_open E tif_path) as [e|src] eqn:Hopen.
  { unfold CreateStac.process_tif, CreateStac.get_stac_info_from_tif. run.
    rewrite Hopen. eexists. split; [reflexivity|].
    cbn [collection printed]. rewrite app_nil_r. reflexivity. }
  destruct (crs src) as [c|] eqn:Hcrs.
  2:{ unfold CreateStac.process_tif, CreateStac.get_stac_info_from_tif. run.
      rewrite Hopen, Hcrs. eexists. split; [reflexivity|].
      cbn [collection printed]. rewrite app_nil_r. reflexivity. }
  set (w1 := printed (MsgProcessing (Py.basename tif_path)) w).
  destruct (footprint_reprojects E c (bounds src) w1)
    as [[-> (bbox & geom & Hfoot)] | [-> (e & Hfoot)]].
  - destruct (acquisition_time_total E (Py.basename tif_path)
                (Py.splitext (Py.basename tif_path)).1 (tags src) w1)
      as (t & w2 & Htime & Hcoll).
    exists (with_item (built_item E tif_path t bbox geom) w2). split.
    + apply process_tif_steps.
      eapply get_stac_info_steps; [exact Hopen | exact Hcrs | exact Hfoot | exact Htime].
    + cbn [collection with_item]. rewrite List.map_app, Hcoll. reflexivity.
  - exists (printed (MsgError tif_path) w1). split.
    + unfold CreateStac.process_tif, try_except. cbv zeta.
      step ltac:(reflexivity).
      erewrite bind_raise.
      2:{ unfold CreateStac.get_stac_info_from_tif. cbv zeta.
          step ltac:(unfold lift, lift_lib; rewrite Hopen; reflexivity).
          rewrite Hcrs. apply bind_raise. exact Hfoot. }
      reflexivity.
    + cbn [collection printed]. rewrite app_nil_r. reflexivity.
Qed.

Lemma catalog_ids (E : Env) (files : list string) (w : World) :
  exists w',
    for_each files (fun tif_path _ => CreateStac.process_tif E tif_path) tt w = (Ret tt, w')
    /\ List.map item_id (collection w')
       = (List.map item_id (collection w)
          ++ List.map stem (List.filter (stac_eligible E) files))%list.
Proof.
  revert w. induction files as [|tif_path files IH]; intros w.
  - exists w. split; [reflexivity|]. cbn. rewrite app_nil_r. reflexivity.
  - destruct (process_tif_ids E tif_path w) as (w1 & Hstep & Hids1).
    destruct (IH w1) as (w' & Hrest & Hids).
    exists w'. split.
    + cbn [for_each]. rewrite (bind_ret _ _ _ _ _ Hstep). exact Hrest.
    + rewrite Hids, Hids1. cbn [List.filter].
      destruct (stac_eligible E tif_path); cbn [List.map];
        rewrite <- app_assoc; reflexivity.
Qed.

Lemma finalize_prints_only (E : Env) : prints_only (CreateStac.finalize E).
Proof. unfold CreateStac.finalize. prints_only. Qed.

(** The read-back never fails the run. *)
Lemma verify_returns (E : Env) (w : World) : (CreateStac.verify E w).1 = Ret tt.
Proof.
  unfold CreateStac.verify, CreateStac.with_collection. run.
  destruct (read_catalog E (collection w)) as [e|[it|]]; cbn; try reflexivity.
  destruct (item_assets it !! "data"); reflexivity.
Qed.

Lemma finalize_outcome (E : Env) (w : World) :
  (CreateStac.finalize E w).1 = lift_lib (finalize_result E (collection w)).
Proof.
  unfold CreateStac.finalize, CreateStac.with_collection, finalize_result. run.
  cbn [collection printed].
  destruct (update_extent_from_items E (collection w)) as [e|[]]; cbn; [reflexivity|].
  destruct (normalize_hrefs E (collection w)) as [e|[]]; cbn; [reflexivity|].
  destruct (catalog_save E (collection w)) as [e|[]]; reflexivity.
Qed.

(** X4. With at least one [.tif] file and the output directory made, the
    loop of the browsing script runs to its end whatever happens to single
    files (a file that does not open, a reprojection that raises): the
    catalog holds, in the order of the files, one item for every file that
    opens with a spatial reference and reprojects, named by the stem of
    the file, and none for any other file. The script then ends with the
    result of the three calls that update the extent, normalise the links
    and save: exit status 0 when they return, whatever the read-back does,
    and the exception of the first that raises otherwise. *)
Theorem X4_browsing_run (E : Env) (w : World) :
  glob_tif E <> [] ->
  makedirs E CreateStac.ROOT_DIR = inr tt ->
  let w' := (CreateStac.script E w).2 in
  List.map item_id (collection w')
  = (List.map item_id (collection w)
     ++ List.map stem (List.filter (stac_eligible E) (glob_tif E)))%list
  /\ (CreateStac.script E w).1 = lift_lib (finalize_result E (collection w'))
  /\ (finalize_result E (collection w') = inr tt ->
      CreateStac.script E w = (Ret tt, w')
      /\ exit_status (CreateStac.script E w).1 = 0).
Proof.
  intros Hfiles Hdir.
  destruct (catalog_ids E (glob_tif E) (printed (MsgFound (length (glob_tif E)))
              (tick (tick (printed MsgStart w))))) as (w1 & Hloop & Hids).
  assert (Hrun : CreateStac.script E w
                 = (CreateStac.finalize E ≫= fun _ => CreateStac.verify E) w1).
  { unfold CreateStac.script.
    step ltac:(reflexivity).
    step ltac:(unfold lift; rewrite Hdir; reflexivity).
    step ltac:(reflexivity). step ltac:(reflexivity).
    destruct (glob_tif E) as [|f fs] eqn:Hglob; [congruence|].
    step ltac:(reflexivity).
    rewrite (bind_ret _ _ _ _ _ Hloop). reflexivity. }
  destruct (finalize_prints_only E w1) as (l1 & Hw2).
  pose proof (finalize_outcome E w1) as Hfin.
  assert (Hcoll : collection (CreateStac.script E w).2 = collection w1).
  { rewrite Hrun. unfold mbind, M_bind.
    destruct (CreateStac.finalize E w1) as [[[]|x] w2]; cbn [snd] in *; subst w2.
    - destruct (verify_prints_only E
                  (mk_world (clock w1) (draws w1) (stdout w1 ++ l1) (collection w1)
                            (yaml_files w1) (index_calls w1))) as (l2 & ->).
      reflexivity.
    - reflexivity. }
  assert (Hout : (CreateStac.script E w).1 = lift_lib (finalize_result E (collection w1))).
  { rewrite Hrun, <- Hfin. unfold mbind, M_bind.
    destruct (CreateStac.finalize E w1) as [[[]|x] w2]; cbn [fst];
      [apply verify_returns | reflexivity]. }
  cbv zeta. rewrite Hcoll. split; [exact Hids|]. split; [exact Hout|].
  intros Hok. rewrite Hok in Hout. cbn in Hout. split.
  - rewrite <- Hout. destruct (CreateStac.script E w); reflexivity.
  - rewrite Hout. reflexivity.
Qed.

Lemma X4_browsing_run_witness :
  let files := ["A_20230101000000_X.tif"; "B_preview.tif"] in
  let E := Sample.env files (Sample.source (Some "EPSG:32651") ∅) in
  exit_status (CreateStac.script E Sample.world).1 = 0
  /\ List.map item_id (collection (CreateStac.script E Sample.world).2)
     = ["A_20230101000000_X"; "B_preview"].
Proof.
  intros files E.
  assert (Hne : glob_tif E <> []) by discriminate.
  destruct (X4_browsing_run E Sample.world Hne eq_refl) as (Hids & _ & Hok).
  split; [exact (proj2 (Hok eq_refl))|].
  rewrite Hids. vm_compute. reflexivity.
Defined.

(* ===================================================================== *)
(** ** Agreement of the two modes *)
(* ===================================================================== *)

(** When the reprojection goes through, the footprint step of browsing
    mode returns the polygon indexing mode returns. *)
Lemma footprint_agree (E : Env) (c : CRS) (b : BoundingBox) (geom : Geometry) :
  reprojects E c b = true ->
  TestDataset.footprint E c b = Some geom ->
  exists bbox, forall w, CreateStac.footprint E c b w = (Ret (bbox, geom), w).
Proof.
  unfold reprojects, TestDataset.footprint, CreateStac.footprint.
  destruct (negb (String.eqb c "EPSG:4326")).
  - destruct (transform_bounds E c b) as [e|bbox]; [discriminate|].
    destruct (transform_geom E c _) as [e|g]; [discriminate|].
    intros _ [= <-]. exists bbox. intros w. reflexivity.
  - intros _ [= <-]. exists b. intros w. reflexivity.
Qed.

(** A time indexing mode resolves is the time browsing mode resolves, and
    browsing mode does not read the clock for it. *)
Lemma acquisition_time_agree (E : Env) (filename item_id : string)
    (tags : gmap string string) (t : Py.datetime) (w : World) :
  TestDataset.acquisition_time tags item_id = Some t ->
  exists w',
    CreateStac.acquisition_time E filename item_id tags w = (Ret t, w')
    /\ clock w' = clock w
    /\ collection w' = collection w.
Proof.
  unfold TestDataset.acquisition_time.
  destruct (tag_datetime tags) as [[t'|]|e] eqn:Ht.
  - intros [= <-]. eexists. split; [apply acquisition_time_tag; exact Ht|].
    split; reflexivity.
  - destruct (filename_datetime item_id) as [t'|] eqn:Hf; [|discriminate].
    intros [= <-]. eexists. split.
    + apply acquisition_time_filename; [intros ?; rewrite Ht; discriminate | exact Hf].
    + unfold after_tag. rewrite Ht. split; reflexivity.
  - destruct (filename_datetime item_id) as [t'|] eqn:Hf; [|discriminate].
    intros [= <-]. eexists. split.
    + apply acquisition_time_filename; [intros ?; rewrite Ht; discriminate | exact Hf].
    + unfold after_tag. rewrite Ht. split; reflexivity.
Qed.

(** X5. The two modes agree on a file: whenever indexing mode extracts
    metadata from a file that browsing mode can catalog, the loop body of
    browsing mode adds one item with the same identifier, the same polygon
    and the same time, and does not read the clock. *)
Theorem X5_modes_agree (E : Env) (tif_path : string) (m : Metadata) (w : World) :
  TestDataset.get_metadata_from_tif E tif_path = Some m ->
  stac_eligible E tif_path = true ->
  exists it w',
    CreateStac.process_tif E tif_path w = (Ret tt, w')
    /\ collection w' = (collection w ++ [it])%list
    /\ item_id it = md_id m
    /\ item_geometry it = Some (md_geometry m)
    /\ item_datetime it = Some (md_datetime m)
    /\ clock w' = clock w.
Proof.
  intros Hm Helig.
  destruct (get_metadata_inv E tif_path m Hm)
    as (src & c & p & b & Hopen & Hcrs & Hfoot & Htime & _ & Heq).
  unfold stac_eligible in Helig. rewrite Hopen, Hcrs in Helig.
  destruct (footprint_agree E c (bounds src) _ Helig Hfoot) as (bbox & Hfoot').
  set (w1 := printed (MsgProcessing (Py.basename tif_path)) w).
  destruct (acquisition_time_agree E (Py.basename tif_path)
              (Py.splitext (Py.basename tif_path)).1 (tags src) _ w1 Htime)
    as (w2 & Htime' & Hclock & Hcoll).
  exists (built_item E tif_path (md_datetime m) bbox (md_geometry m)),
         (with_item (built_item E tif_path (md_datetime m) bbox (md_geometry m)) w2).
  split.
  - apply process_tif_steps.
    eapply get_stac_info_steps; [exact Hopen | exact Hcrs | apply Hfoot' | exact Htime'].
  - split; [cbn [collection with_item]; rewrite Hcoll; reflexivity|].
    split; [rewrite Heq; reflexivity|].
    split; [reflexivity|]. split; [reflexivity|].
    cbn [clock with_item]. rewrite Hclock. reflexivity.
Qed.

Lemma X5_modes_agree_witness :
  let path := "X_GEC_HH_20230101000000_20230101000010.tif" in
  let E := Sample.env [path] (Sample.source (Some "EPSG:32651") ∅) in
  exists it w',
    CreateStac.process_tif E path Sample.world = (Ret tt, w')
    /\ collection w' = [it]
    /\ item_datetime it = Some (Py.mk_datetime 2023 1 1 0 0 0 0).
Proof.
  intros path E.
  destruct (TestDataset.get_metadata_from_tif E path) as [m|] eqn:Hm;
    [|vm_compute in Hm; discriminate].
  destruct (X5_modes_agree E path m Sample.world Hm eq_refl)
    as (it & w' & Hrun & Hcoll & _ & _ & Htime & _).
  exists it, w'. split; [exact Hrun|]. split; [exact Hcoll|].
  rewrite Htime. vm_compute in Hm. injection Hm as <-. reflexivity.
Defined.

(* ===================================================================== *)
(** ** From a path to an identifier *)
(* ===================================================================== *)

Lemma basename_from_no_sep (f cur : string) :
  has_sep f = false -> Py.basename_from f cur = cur.
Proof.
  induction f as [|ch f IH]; intros H; [reflexivity|].
  cbn in H. apply orb_false_iff in H as [Hch Hf].
  cbn [Py.basename_from]. rewrite Hch. apply IH. exact Hf.
Qed.

Lemma basename_from_app_sep (pre f cur : string) (sep : ascii) :
  Py.is_sep sep = true ->
  Py.basename_from (pre ++ String sep f)%string cur = Py.basename_from f f.
Proof.
  intros Hsep. revert cur. induction pre as [|ch pre IH]; intros cur.
  - change (Py.basename_from (String sep f) cur = Py.basename_from f f).
    cbn [Py.basename_from]. rewrite Hsep. reflexivity.
  - change (Py.basename_from (String ch (pre ++ String sep f)) cur
            = Py.basename_from f f).
    cbn [Py.basename_from]. destruct (Py.is_sep ch); apply IH.
Qed.

Lemma has_sep_app (a b : string) :
  has_sep (a ++ b)%string = has_sep a || has_sep b.
Proof.
  induction a as [|ch a IH]; [reflexivity|].
  change (has_sep (String ch (a ++ b)) = has_sep (String ch a) || has_sep b).
  cbn [has_sep]. rewrite IH, orb_assoc. reflexivity.
Qed.

Lemma rfind_app (ch : ascii) (a b : string) :
  Py.rfind ch (a ++ b)%string
  = match Py.rfind ch b with
    | Some i => Some (String.length a + i)%nat
    | None => Py.rfind ch a
    end.
Proof.
  induction a as [|c a IH].
  - change (Py.rfind ch b = match Py.rfind ch b with
                            | Some i => Some (0 + i)%nat
                            | None => None
                            end).
    destruct (Py.rfind ch b); reflexivity.
  - change (Py.rfind ch (String c (a ++ b))
            = match Py.rfind ch b with
              | Some i => Some (S (String.length a) + i)%nat
              | None => Py.rfind ch (String c a)
              end).
    cbn [Py.rfind]. rewrite IH. destruct (Py.rfind ch b); reflexivity.
Qed.

Lemma substring_app_prefix (a b : string) :
  substring 0 (String.length a) (a ++ b) = a.
Proof.
  induction a as [|c a IH].
  - destruct b; reflexivity.
  - change (substring 0 (S (String.length a)) (String c (a ++ b)) = String c a).
    cbn [substring]. rewrite IH. reflexivity.
Qed.

Lemma rfind_none_cons (ch c : ascii) (s : string) :
  Py.rfind ch (String c s) = None -> Ascii.eqb c ch = false /\ Py.rfind ch s = None.
Proof.
  cbn [Py.rfind]. destruct (Py.rfind ch s); [discriminate|].
  destruct (Ascii.eqb c ch); [discriminate|]. intros _. split; reflexivity.
Qed.

Lemma substring_all (s : string) : substring 0 (String.length s) s = s.
Proof.
  induction s as [|c s IH]; [reflexivity|].
  cbn [String.length substring]. rewrite IH. reflexivity.
Qed.

Lemma is_sep_not_colon (sep : ascii) : Py.is_sep sep = true -> Ascii.eqb sep ":" = false.
Proof.
  unfold Py.is_sep. intros H. apply orb_true_iff in H as [H | H];
    apply Ascii.eqb_eq in H; subst sep; reflexivity.
Qed.

(** The drive of a path that does not begin with two separators ends
    before the last separator: the rest still ends in [<sep>FILE]. *)
Lemma splitdrive_keeps_file (dir : string) (sep c : ascii) (f : string) :
  Py.is_sep sep = true ->
  double_sep (dir ++ String sep "")%string = false ->
  Py.is_sep c = false -> Ascii.eqb c ":" = false ->
  exists pre,
    (Py.splitdrive (dir ++ String sep (String c f))%string).2
    = (pre ++ String sep (String c f))%string.
Proof.
  intros Hsep Hunc Hc Hcolon. destruct dir as [|c1 [|c2 dir]].
  - exists "". change (("" ++ String sep (String c f))%string) with (String sep (String c f)).
    unfold Py.splitdrive. rewrite Hc, andb_false_r, Hcolon. reflexivity.
  - exists (String c1 "").
    change ((String c1 "" ++ String sep (String c f))%string)
      with (String c1 (String sep (String c f))).
    change (Py.is_sep c1 && Py.is_sep sep = false) in Hunc.
    unfold Py.splitdrive. rewrite Hunc, (is_sep_not_colon sep Hsep). reflexivity.
  - change (Py.is_sep c1 && Py.is_sep c2 = false) in Hunc.
    change ((String c1 (String c2 dir) ++ String sep (String c f))%string)
      with (String c1 (String c2 (dir ++ String sep (String c f)))).
    unfold Py.splitdrive. rewrite Hunc.
    destruct (Ascii.eqb c2 ":").
    + exists dir. cbn [snd String.length substring Nat.sub].
      rewrite Nat.sub_0_r. apply substring_all.
    + exists (String c1 (String c2 dir)). reflexivity.
Qed.

(** X6. The identifier of a file [DIR<sep>NAME.tif] is [NAME], for either
    separator, every directory, with or without a drive letter, that does
    not begin with two separators (as a UNC or device path does), and
    every name without separator or colon that does not consist of dots
    only; dots inside the name stay part of the identifier. *)
Theorem X6_identifier_of_path (dir name : string) (sep : ascii) :
  Py.is_sep sep = true ->
  double_sep (dir ++ String sep "")%string = false ->
  has_sep name = false ->
  Py.rfind ":" name = None ->
  Py.all_dots name = false ->
  stem (dir ++ String sep (name ++ ".tif"))%string = name
  /\ stem (name ++ ".tif")%string = name.
Proof.
  intros Hsep Hunc Hname Hcolon Hdots.
  assert (Hfile : has_sep (name ++ ".tif")%string = false).
  { rewrite has_sep_app, Hname. reflexivity. }
  assert (Hext : (Py.splitext (name ++ ".tif")%string).1 = name).
  { unfold Py.splitext. rewrite rfind_app.
    change (Py.rfind "." ".tif") with (Some 0%nat). cbv beta iota.
    rewrite Nat.add_0_r, substring_app_prefix, Hdots. reflexivity. }
  destruct name as [|c name]; [discriminate Hdots|].
  destruct (rfind_none_cons _ _ _ Hcolon) as [Hc Hcolon'].
  assert (Hsepc : Py.is_sep c = false).
  { cbn [has_sep] in Hname. apply orb_false_iff in Hname as [H _]. exact H. }
  change ((String c name ++ ".tif")%string) with (String c (name ++ ".tif")) in *.
  unfold stem, Py.basename. cbv zeta. split.
  - destruct (splitdrive_keeps_file dir sep c (name ++ ".tif") Hsep Hunc Hsepc Hc)
      as (pre & ->).
    rewrite basename_from_app_sep by exact Hsep.
    rewrite basename_from_no_sep by exact Hfile. exact Hext.
  - assert (Hnone : Py.splitdrive (String c (name ++ ".tif"))
                    = ("", String c (name ++ ".tif"))).
    { destruct name as [|c2 name].
      - change (("" ++ ".tif")%string) with ".tif".
        unfold Py.splitdrive. rewrite Hsepc. reflexivity.
      - change ((String c2 name ++ ".tif")%string) with (String c2 (name ++ ".tif")).
        destruct (rfind_none_cons _ _ _ Hcolon') as [Hc2 _].
        unfold Py.splitdrive. rewrite Hsepc, Hc2. reflexivity. }
    rewrite Hnone. cbn [snd].
    rewrite basename_from_no_sep by exact Hfile. exact Hext.
Qed.

Lemma X6_identifier_of_path_witness :
  stem "D:\Capalla_data\cog_files\CAPELLA_C02.SP_GEC.tif" = "CAPELLA_C02.SP_GEC".
Proof.
  exact (proj1 (X6_identifier_of_path "D:\Capalla_data\cog_files" "CAPELLA_C02.SP_GEC"
                  "\" eq_refl eq_refl eq_refl eq_refl eq_refl)).
Defined.

(* ===================================================================== *)
(** ** What an indexing run leaves behind *)
(* ===================================================================== *)

(** The registration of a document moves the counter by at most one and
    touches nothing but the log and the index. *)
Lemma register_frame (E : Env) (meta : Metadata) (doc : EO3Doc) (yaml_path : string)
    (cnt : Z) (w : World) :
  exists cnt' w',
    TestDataset.register E meta doc yaml_path cnt w = (Ret cnt', w')
    /\ cnt <= cnt' <= cnt + 1
    /\ yaml_files w' = yaml_files w
    /\ draws w' = draws w
    /\ clock w' = clock w.
Proof.
  unfold TestDataset.register, TestDataset.call_resolver, TestDataset.index_update,
    TestDataset.index_add.
  run.
  destruct (resolver E _ _ _) as [e | [[ds|] [[|ch err]|]]];
    cbn [lift_lib fst snd index_calls called].
  all: try destruct (datasets_update E _ _) as [[| |cls]|[]].
  all: try destruct (datasets_add E _ _) as [e|[]].
  all: eexists _, _; (split; [reflexivity|]);
    cbn [yaml_files draws clock printed called]; repeat split; lia.
Qed.

Lemma index_tif_effects (E : Env) (tif : string) (cnt : Z) (w : World) :
  (forall path doc, yaml_write E path doc = inr tt) ->
  exists cnt' w',
    TestDataset.index_tif E tif cnt w = (Ret cnt', w')
    /\ cnt <= cnt' <= cnt + (if has_metadata E tif then 1 else 0)
    /\ List.map fst (yaml_files w')
       = (List.map fst (yaml_files w)
          ++ (if has_metadata E tif then [yaml_path_of tif] else []))%list
    /\ draws w' = (draws w + (if has_metadata E tif then 1 else 0))%nat
    /\ clock w' = (clock w + (if has_metadata E tif then 1 else 0))%nat.
Proof.
  intros Hyaml. unfold TestDataset.index_tif, has_metadata.
  destruct (TestDataset.get_metadata_from_tif E tif) as [meta|] eqn:Hm.
  - destruct (get_metadata_inv E tif meta Hm) as (src & c & p & b & _ & _ & _ & _ & _ & Heq).
    assert (Hid : md_id meta = stem tif) by (rewrite Heq; reflexivity).
    destruct (build_eo3_dict_returns E meta tif w) as (doc & Hbuild & _).
    rewrite Hid. fold (yaml_path_of tif).
    assert (Hdump : TestDataset.yaml_dump E (yaml_path_of tif) doc (tick (drawn w))
                    = (Ret tt, with_yaml (yaml_path_of tif) doc (tick (drawn w))))
      by (unfold TestDataset.yaml_dump; rewrite Hyaml; reflexivity).
    destruct (register_frame E meta doc (yaml_path_of tif) cnt
                (with_yaml (yaml_path_of tif) doc (tick (drawn w))))
      as (cnt' & w' & Hrun & Hcnt & Hfiles & Hdraws & Hclock).
    exists cnt', w'. split.
    + rewrite (bind_ret _ _ _ _ _ Hbuild). cbv beta.
      rewrite (bind_ret _ _ _ _ _ Hdump). exact Hrun.
    + rewrite Hfiles, Hdraws, Hclock.
      cbn [yaml_files draws clock with_yaml tick drawn].
      rewrite List.map_app. cbn [List.map fst].
      split; [exact Hcnt|]. split; [reflexivity|]. split; lia.
  - exists cnt, w. rewrite app_nil_r. repeat split; lia.
Qed.

Lemma batch_effects (E : Env) (files : list string) (cnt : Z) (w : World) :
  (forall path doc, yaml_write E path doc = inr tt) ->
  exists cnt' w',
    for_each files (TestDataset.index_tif E) cnt w = (Ret cnt', w')
    /\ cnt <= cnt' <= cnt + Z.of_nat (submitted E files)
    /\ List.map fst (yaml_files w')
       = (List.map fst (yaml_files w)
          ++ List.map yaml_path_of (List.filter (has_metadata E) files))%list
    /\ draws w' = (draws w + submitted E files)%nat
    /\ clock w' = (clock w + submitted E files)%nat.
Proof.
  intros Hyaml. revert cnt w.
  induction files as [|tif files IH]; intros cnt w.
  - exists cnt, w. unfold submitted. cbn. rewrite app_nil_r. repeat split; lia.
  - destruct (index_tif_effects E tif cnt w Hyaml)
      as (cnt1 & w1 & Hstep & Hcnt1 & Hfiles1 & Hdraws1 & Hclock1).
    destruct (IH cnt1 w1) as (cnt' & w' & Hrest & Hcnt & Hfiles & Hdraws & Hclock).
    exists cnt', w'. split.
    + cbn [for_each]. rewrite (bind_ret _ _ _ _ _ Hstep). exact Hrest.
    + rewrite Hfiles, Hfiles1, Hdraws, Hdraws1, Hclock, Hclock1.
      unfold submitted in *. cbn [List.filter].
      destruct (has_metadata E tif); cbn [List.map length];
        rewrite <- ?app_assoc; repeat split; try reflexivity; lia.
Qed.

(** X7. An indexing batch whose documents can all be written leaves one
    YAML document per file that yields metadata, at
    [odc_datasets\ds_<stem>.yaml] and in the order of the files, whether or
    not the index accepts the dataset. Each document costs one random draw
    and one reading of the clock, and the counter grows by at most the
    number of documents. *)
Theorem X7_documents_written (E : Env) (files : list string) (success_count : Z)
    (w : World) :
  (forall path doc, yaml_write E path doc = inr tt) ->
  exists cnt' w',
    for_each files (TestDataset.index_tif E) success_count w = (Ret cnt', w')
    /\ success_count <= cnt' <= success_count + Z.of_nat (submitted E files)
    /\ List.map fst (yaml_files w')
       = (List.map fst (yaml_files w)
          ++ List.map yaml_path_of (List.filter (has_metadata E) files))%list
    /\ draws w' = (draws w + submitted E files)%nat
    /\ clock w' = (clock w + submitted E files)%nat.
Proof. apply batch_effects. Qed.

Lemma X7_documents_written_witness :
  let files := ["X_GEC_HH_20230101000000_20230101000010.tif"; "notes.tif"] in
  let E := Sample.env files (Sample.source (Some "EPSG:4326") ∅) in
  exists cnt' w',
    for_each files (TestDataset.index_tif E) 0 Sample.world = (Ret cnt', w')
    /\ List.map fst (yaml_files w')
       = ["odc_datasets\ds_X_GEC_HH_20230101000000_20230101000010.yaml"].
Proof.
  intros files E.
  destruct (X7_documents_written E files 0 Sample.world (fun _ _ => eq_refl))
    as (cnt' & w' & Hrun & _ & Hfiles & _).
  exists cnt', w'. split; [exact Hrun|]. rewrite Hfiles. vm_compute. reflexivity.
Defined.

Lemma read_back_outcome (E : Env) (cnt : Z) (w : World) :
  (TestDataset.read_back E cnt w).1 = lift_lib (read_back_result E (index_calls w) cnt).
Proof.
  unfold TestDataset.read_back, TestDataset.query, read_back_result. run.
  destruct (0 <? cnt); [|reflexivity]. cbn [index_calls printed].
  destruct (find_datasets E (index_calls w) "capella_gec_hh") as [e|[|ds rest]];
    cbn; try reflexivity.
  destruct (dataset_crs E ds) as [e|c]; cbn; [reflexivity|].
  destruct (dc_load E (index_calls w) ds) as [e|[loaded|]]; reflexivity.
Qed.

Lemma read_back_lines (E : Env) (cnt : Z) (w : World) :
  exists tail,
    stdout (TestDataset.read_back E cnt w).2 = (stdout w ++ MsgStep 5 :: tail)%list
    /\ if 0 <? cnt then exists tail', tail = MsgVerify :: tail'
       else tail = [MsgNothingIndexed].
Proof.
  unfold TestDataset.read_back, TestDataset.query. run.
  destruct (0 <? cnt).
  2:{ eexists. split; [|reflexivity].
      cbn [stdout printed snd]. rewrite <- ?app_assoc. reflexivity. }
  cbn [index_calls printed].
  destruct (find_datasets E (index_calls w) "capella_gec_hh") as [e|[|ds rest]]; cbn.
  1-2: eexists; (split; [|eexists; reflexivity]);
       rewrite <- ?app_assoc; reflexivity.
  destruct (dataset_crs E ds) as [e|c]; cbn.
  { eexists. split; [|eexists; reflexivity]. rewrite <- ?app_assoc. reflexivity. }
  destruct (dc_load E (index_calls w) ds) as [e|[loaded|]]; cbn;
    eexists; (split; [|eexists; reflexivity]); rewrite <- ?app_assoc; reflexivity.
Qed.

(** X8. An indexing run over at least one file, whose steps before the
    loop return and whose documents can all be written, reaches the
    summary whatever the resolver and the index answer for single files:
    the count is between zero and the number of files that yield
    metadata, and the summary is followed by the header of STEP 5 and then
    by the nothing-indexed warning when the count is zero, or by the
    read-back when it is positive. The read-back writes no document and
    makes no recorded call. [main] ends with what the read-back raises
    outside its [try] (the query of the datasets, the reference of the
    sample): it returns when the count is zero or they return, a failing
    load included. *)
Theorem X8_indexing_run (E : Env) (w w0 : World) :
  glob_tif E <> [] ->
  TestDataset.setup E w = (Ret tt, w0) ->
  (forall path doc, yaml_write E path doc = inr tt) ->
  exists cnt w1 tail,
    for_each (glob_tif E) (TestDataset.index_tif E) 0
      (printed (MsgFound (length (glob_tif E))) w0) = (Ret cnt, w1)
    /\ 0 <= cnt <= Z.of_nat (submitted E (glob_tif E))
    /\ (TestDataset.main E w).1 = lift_lib (read_back_result E (index_calls w1) cnt)
    /\ (cnt = 0 -> exit_status (TestDataset.main E w).1 = 0)
    /\ stdout (TestDataset.main E w).2
       = (stdout w1 ++ MsgSummary cnt :: MsgStep 5 :: tail)%list
    /\ (if 0 <? cnt then exists tail', tail = MsgVerify :: tail'
        else tail = [MsgNothingIndexed])
    /\ yaml_files (TestDataset.main E w).2 = yaml_files w1
    /\ index_calls (TestDataset.main E w).2 = index_calls w1.
Proof.
  intros Hfiles Hsetup Hyaml.
  destruct (batch_effects E (glob_tif E) 0
              (printed (MsgFound (length (glob_tif E))) w0) Hyaml)
    as (cnt & w1 & Hloop & Hcnt & _).
  assert (Hrun : TestDataset.main E w
                 = TestDataset.read_back E cnt (printed (MsgSummary cnt) w1)).
  { unfold TestDataset.main. rewrite (bind_ret _ _ _ _ _ Hsetup). cbv zeta.
    destruct (glob_tif E) as [|f fs] eqn:Hglob; [congruence|].
    step ltac:(reflexivity).
    rewrite (bind_ret _ _ _ _ _ Hloop). cbv beta.
    step ltac:(reflexivity). reflexivity. }
  destruct (read_back_lines E cnt (printed (MsgSummary cnt) w1)) as (tail & Hlines & Htail).
  destruct (read_back_prints_only E cnt (printed (MsgSummary cnt) w1)) as (l & Hquiet).
  exists cnt, w1, tail. rewrite Hrun.
  split; [exact Hloop|]. split; [lia|].
  split; [exact (read_back_outcome E cnt (printed (MsgSummary cnt) w1))|]. split.
  { intros ->. rewrite read_back_outcome. reflexivity. }
  split.
  { rewrite Hlines. cbn [stdout printed]. rewrite <- app_assoc. reflexivity. }
  split; [exact Htail|].
  rewrite Hquiet. split; reflexivity.
Qed.

Lemma X8_indexing_run_witness :
  let files := ["X_GEC_HH_20230101000000_20230101000010.tif"] in
  let E := Sample.env files (Sample.source (Some "EPSG:4326") ∅) in
  exit_status (TestDataset.main E Sample.world).1 = 0.
Proof.
  intros files E.
  assert (Hne : glob_tif E <> []) by discriminate.
  assert (Hsetup : TestDataset.setup E Sample.world
                   = (Ret tt, (TestDataset.setup E Sample.world).2))
    by (vm_compute; reflexivity).
  destruct (X8_indexing_run E Sample.world _ Hne Hsetup (fun _ _ => eq_refl))
    as (cnt & w1 & tail & _ & _ & -> & _).
  unfold read_back_result. destruct (0 <? cnt); reflexivity.
Defined.

(* ===================================================================== *)
(** ** Documents and product definitions *)
(* ===================================================================== *)

Lemma classify_products (item_id p_name b_name : string) :
  TestDataset.classify item_id = Some (p_name, b_name) ->
  exists def,
    In (p_name, def) Products.products
    /\ Products.p_name def = p_name
    /\ Products.p_metadata_product_name def = p_name
    /\ Products.p_storage_crs def = "EPSG:4326"
    /\ List.map Products.m_name (Products.p_measurements def) = [b_name].
Proof.
  unfold TestDataset.classify.
  destruct (Py.str_in "_GEC_HH_" item_id).
  - intros [= <- <-]. exists Products.PRODUCT_GEC_HH_DEF.
    split; [left; reflexivity|]. repeat split.
  - destruct (Py.str_in "_GEC_VV_" item_id); [|discriminate].
    intros [= <- <-]. exists Products.PRODUCT_GEC_VV_DEF.
    split; [right; left; reflexivity|]. repeat split.
Qed.

(** X9. Every document built from extracted metadata refers to one of the
    two product definitions the script registers: the product name of the
    document is the name of that definition, the document declares the
    storage reference of the definition at its root and in its grid, and
    it carries exactly the measurements the definition declares, one band
    whose path is the base name of the file. *)
Theorem X9_document_matches_product (E : Env) (tif_path : string) (m : Metadata)
    (w : World) :
  TestDataset.get_metadata_from_tif E tif_path = Some m ->
  exists def doc w',
    In (md_product_name m, def) Products.products
    /\ TestDataset.build_eo3_dict E m tif_path w = (Ret doc, w')
    /\ doc_product_name doc = Products.p_name def
    /\ doc_product_name doc = Products.p_metadata_product_name def
    /\ doc_crs doc = Products.p_storage_crs def
    /\ doc_grid_crs doc = Products.p_storage_crs def
    /\ List.map Products.m_name (Products.p_measurements def) = [md_band_name m]
    /\ doc_measurements doc
       = {[ md_band_name m := Py.basename (abspath E tif_path) ]}.
Proof.
  intros Hm.
  destruct (get_metadata_inv E tif_path m Hm)
    as (src & c & p & b & _ & _ & _ & _ & Hclass & Heq).
  destruct (classify_products _ _ _ Hclass) as (def & Hin & Hname & Hmeta & Hcrs & Hbands).
  assert (Hp : md_product_name m = p) by (rewrite Heq; reflexivity).
  assert (Hb : md_band_name m = b) by (rewrite Heq; reflexivity).
  exists def. unfold TestDataset.build_eo3_dict, TestDataset.fresh_uuid. run.
  eexists _, _. cbn [doc_product_name doc_crs doc_grid_crs doc_measurements].
  rewrite Hp, Hb, Hname, Hmeta, Hcrs.
  split; [exact Hin|]. split; [reflexivity|]. repeat split. exact Hbands.
Qed.

Lemma X9_document_matches_product_witness :
  let path := "X_GEC_VV_20230101000000_20230101000010.tif" in
  let E := Sample.env [path] (Sample.source (Some "EPSG:4326") ∅) in
  exists m def, TestDataset.get_metadata_from_tif E path = Some m
                /\ In (md_product_name m, def) Products.products.
Proof.
  intros path E.
  destruct (TestDataset.get_metadata_from_tif E path) as [m|] eqn:Hm;
    [|vm_compute in Hm; discriminate].
  destruct (X9_document_matches_product E path m Sample.world Hm)
    as (def & doc & w' & Hin & _).
  exists m, def. split; [reflexivity | exact Hin].
Defined.

(* ===================================================================== *)
(** ** Parsing what was written in canonical form *)
(* ===================================================================== *)

Lemma first_match_dir (name : ascii) (alts : list (list Py.cls)) (p : list Py.pitem)
    (s s' : string) (v : Z) (g : list (ascii * Z)) (r : list (ascii * Z) * string) :
  first_alt alts s = Some (v, s') ->
  first_match p s' ((name, v) :: g) = Some r ->
  first_match (Py.PDir name alts :: p) s g = Some r.
Proof.
  unfold first_match. cbn [Py.re_match].
  induction alts as [|alt alts IH]; cbn [first_alt]; [discriminate|].
  destruct (Py.match_alt alt s 0) as [[v0 s0]|] eqn:Halt.
  - intros [= -> ->] Hr. cbn. rewrite Halt.
    destruct (Py.re_match p s' ((name, v) :: g)); [discriminate | exact Hr].
  - intros H Hr. cbn. rewrite Halt. cbn. apply IH; assumption.
Qed.

Lemma first_match_colon (p : list Py.pitem) (s : string) (g : list (ascii * Z)) :
  first_match (Py.PLit ":" :: p) (":" ++ s)%string g = first_match p s g.
Proof. reflexivity. Qed.

Lemma first_match_nil (g : list (ascii * Z)) : first_match [] "" g = Some (g, "").
Proof. reflexivity. Qed.

Lemma strptime_first_match (s fmt : string) (p : list Py.pitem)
    (groups : list (ascii * Z)) :
  Py.compile_format fmt = Some p ->
  first_match p s [] = Some (groups, "") ->
  Py.strptime s fmt
  = (let t := Py.mk_datetime (Py.group "Y" 1900 groups) (Py.group "m" 1 groups)
                (Py.group "d" 1 groups) (Py.group "H" 0 groups)
                (Py.group "M" 0 groups) (Py.group "S" 0 groups) 0 in
     if Py.valid_datetime t then Ret t else Raise (Exception ValueError)).
Proof.
  intros Hfmt Hfirst. unfold Py.strptime, first_match in *. rewrite Hfmt.
  destruct (Py.re_match p s []) as [|[g rest] more]; [discriminate|].
  cbn in Hfirst. injection Hfirst as -> ->. reflexivity.
Qed.

Lemma digit_val_dec_digit (d : Z) : Py.digit_val (Py.dec_digit d) = Some (d mod 10).
Proof.
  unfold Py.dec_digit. pose proof (Z.mod_pos_bound d 10 eq_refl) as Hx.
  set (x := d mod 10) in *. clearbody x.
  assert (H : x = 0 \/ x = 1 \/ x = 2 \/ x = 3 \/ x = 4 \/ x = 5 \/ x = 6 \/ x = 7
              \/ x = 8 \/ x = 9) by lia.
  repeat (destruct H as [-> | H]; [reflexivity|]). subst x. reflexivity.
Qed.

Lemma dec_digit_plain (d : Z) :
  Py.is_space (Py.dec_digit d) = false /\ Ascii.eqb (Py.dec_digit d) "_" = false.
Proof.
  unfold Py.dec_digit. pose proof (Z.mod_pos_bound d 10 eq_refl) as Hx.
  set (x := d mod 10) in *. clearbody x.
  assert (H : x = 0 \/ x = 1 \/ x = 2 \/ x = 3 \/ x = 4 \/ x = 5 \/ x = 6 \/ x = 7
              \/ x = 8 \/ x = 9) by lia.
  repeat (destruct H as [-> | H]; [split; reflexivity|]). subst x. split; reflexivity.
Qed.

Lemma four_digits (y : Z) :
  0 <= y <= 9999 ->
  10 * (10 * (10 * (10 * 0 + (y / 1000) mod 10) + (y / 100) mod 10) + (y / 10) mod 10)
  + y mod 10 = y.
Proof. intros H. Z.to_euclidean_division_equations. lia. Qed.

Lemma digit_in_range (x : Z) : (0 <=? x mod 10) && (x mod 10 <=? 9) = true.
Proof.
  pose proof (Z.mod_pos_bound x 10 eq_refl).
  apply andb_true_iff. split; apply Z.leb_le; lia.
Qed.

Lemma year_field (y : Z) (rest : string) :
  0 <= y <= 9999 ->
  first_alt [[Py.D 0 9; Py.D 0 9; Py.D 0 9; Py.D 0 9]] (Py.dec_fixed 4 y ++ rest)%string
  = Some (y, rest).
Proof.
  intros Hy.
  change (Py.dec_fixed 4 y ++ rest)%string
    with (String (Py.dec_digit (y / 1000))
            (String (Py.dec_digit (y / 100))
               (String (Py.dec_digit (y / 10))
                  (String (Py.dec_digit (y / 1)) rest)))).
  rewrite Z.div_1_r.
  cbn [first_alt Py.match_alt].
  rewrite !digit_val_dec_digit. cbn [mbind option_bind].
  rewrite !digit_in_range.
  rewrite (four_digits y Hy). reflexivity.
Qed.

(** A field of two digits: every value of the range, by cases. *)
Ltac two_digit_field v lo n :=
  let H := fresh "H" in
  let k := fresh "k" in
  assert (H : exists k, v = lo + Z.of_nat k /\ (k < n)%nat)
    by (exists (Z.to_nat (v - lo)); lia);
  destruct H as (k & -> & H);
  do 60 (try (destruct k as [|k]; [vm_compute; reflexivity|]));
  lia.

Lemma month_field (v : Z) (rest : string) :
  1 <= v <= 12 ->
  first_alt [[Py.D 1 1; Py.D 0 2]; [Py.D 0 0; Py.D 1 9]; [Py.D 1 9]]
    (Py.dec_fixed 2 v ++ rest)%string = Some (v, rest).
Proof. intros Hv. two_digit_field v 1 12%nat. Qed.

Lemma day_field (v : Z) (rest : string) :
  1 <= v <= 31 ->
  first_alt [[Py.D 3 3; Py.D 0 1]; [Py.D 1 2; Py.D 0 9]; [Py.D 0 0; Py.D 1 9];
             [Py.D 1 9]; [Py.Blank; Py.D 1 9]]
    (Py.dec_fixed 2 v ++ rest)%string = Some (v, rest).
Proof. intros Hv. two_digit_field v 1 31%nat. Qed.

Lemma hour_field (v : Z) (rest : string) :
  0 <= v <= 23 ->
  first_alt [[Py.D 2 2; Py.D 0 3]; [Py.D 0 1; Py.D 0 9]; [Py.D 0 9]]
    (Py.dec_fixed 2 v ++ rest)%string = Some (v, rest).
Proof. intros Hv. two_digit_field v 0 24%nat. Qed.

Lemma minute_field (v : Z) (rest : string) :
  0 <= v <= 59 ->
  first_alt [[Py.D 0 5; Py.D 0 9]; [Py.D 0 9]] (Py.dec_fixed 2 v ++ rest)%string
  = Some (v, rest).
Proof. intros Hv. two_digit_field v 0 60%nat. Qed.

Lemma second_field (v : Z) (rest : string) :
  0 <= v <= 59 ->
  first_alt [[Py.D 6 6; Py.D 0 1]; [Py.D 0 5; Py.D 0 9]; [Py.D 0 9]]
    (Py.dec_fixed 2 v ++ rest)%string = Some (v, rest).
Proof. intros Hv. two_digit_field v 0 60%nat. Qed.

(** One or more blanks of the format against one blank followed by a
    digit. *)
Lemma first_match_blank (p : list Py.pitem) (w : nat) (v : Z) (rest : string)
    (g : list (ascii * Z)) :
  first_match (Py.PSpaces :: p) (" " ++ Py.dec_fixed (S w) v ++ rest)%string g
  = first_match p (Py.dec_fixed (S w) v ++ rest)%string g.
Proof.
  unfold first_match.
  change (" " ++ Py.dec_fixed (S w) v ++ rest)%string
    with (String " " (String (Py.dec_digit (v / 10 ^ Z.of_nat w))
                        (Py.dec_fixed w v ++ rest))).
  change (Py.dec_fixed (S w) v ++ rest)%string
    with (String (Py.dec_digit (v / 10 ^ Z.of_nat w)) (Py.dec_fixed w v ++ rest)).
  cbn [Py.re_match Py.spaces_matches].
  change (Py.is_space " ") with true. cbv iota.
  rewrite (proj1 (dec_digit_plain _)).
  cbn. rewrite app_nil_r. reflexivity.
Qed.

Lemma valid_datetime_ranges (t : Py.datetime) :
  Py.valid_datetime t = true ->
  1 <= Py.year t <= 9999 /\ 1 <= Py.month t <= 12 /\ 1 <= Py.day t <= 31
  /\ 0 <= Py.hour t <= 23 /\ 0 <= Py.minute t <= 59 /\ 0 <= Py.second t <= 59.
Proof.
  unfold Py.valid_datetime. rewrite !andb_true_iff, !Z.leb_le.
  intros H.
  assert (Hdim : Py.days_in_month (Py.year t) (Py.month t) <= 31).
  { unfold Py.days_in_month.
    repeat match goal with |- context [if ?b then _ else _] => destruct b end; lia. }
  lia.
Qed.

(** The fourteen digits of a valid date-time parse back to it. *)
Lemma strptime_compact_timestamp (t : Py.datetime) :
  Py.valid_datetime t = true ->
  Py.microsecond t = 0 ->
  Py.strptime (compact_timestamp t) "%Y%m%d%H%M%S" = Ret t.
Proof.
  intros Hvalid Hmicro.
  destruct (valid_datetime_ranges t Hvalid) as (Hy & Hmo & Hd & Hh & Hmi & Hs).
  erewrite strptime_first_match.
  2:{ vm_compute. reflexivity. }
  2:{ unfold compact_timestamp.
      eapply first_match_dir; [apply year_field; lia|].
      eapply first_match_dir; [apply month_field; lia|].
      eapply first_match_dir; [apply day_field; lia|].
      eapply first_match_dir; [apply hour_field; lia|].
      eapply first_match_dir; [apply minute_field; lia|].
      eapply first_match_dir; [apply second_field; lia|].
      apply first_match_nil. }
  destruct t as [y mo d h mi s us]. cbn [Py.microsecond] in Hmicro. subst us.
  change (Py.group "Y" 1900 _) with y. change (Py.group "m" 1 _) with mo.
  change (Py.group "d" 1 _) with d. change (Py.group "H" 0 _) with h.
  change (Py.group "M" 0 _) with mi. change (Py.group "S" 0 _) with s.
  cbv zeta. rewrite Hvalid. reflexivity.
Qed.

(** The TIFF form of a valid date-time parses back to it. *)
Lemma strptime_tiff_timestamp (t : Py.datetime) :
  Py.valid_datetime t = true ->
  Py.microsecond t = 0 ->
  Py.strptime (tiff_timestamp t) "%Y:%m:%d %H:%M:%S" = Ret t.
Proof.
  intros Hvalid Hmicro.
  destruct (valid_datetime_ranges t Hvalid) as (Hy & Hmo & Hd & Hh & Hmi & Hs).
  erewrite strptime_first_match.
  2:{ vm_compute. reflexivity. }
  2:{ unfold tiff_timestamp.
      eapply first_match_dir; [apply year_field; lia|].
      rewrite first_match_colon.
      eapply first_match_dir; [apply month_field; lia|].
      rewrite first_match_colon.
      eapply first_match_dir; [apply day_field; lia|].
      rewrite first_match_blank.
      eapply first_match_dir; [apply hour_field; lia|].
      rewrite first_match_colon.
      eapply first_match_dir; [apply minute_field; lia|].
      rewrite first_match_colon.
      eapply first_match_dir; [apply second_field; lia|].
      apply first_match_nil. }
  destruct t as [y mo d h mi s us]. cbn [Py.microsecond] in Hmicro. subst us.
  change (Py.group "Y" 1900 _) with y. change (Py.group "m" 1 _) with mo.
  change (Py.group "d" 1 _) with d. change (Py.group "H" 0 _) with h.
  change (Py.group "M" 0 _) with mi. change (Py.group "S" 0 _) with s.
  cbv zeta. rewrite Hvalid. reflexivity.
Qed.

Lemma split_cons_plain (sep ch : ascii) (s : string) :
  Ascii.eqb ch sep = false ->
  Py.split sep s = [s] ->
  Py.split sep (String ch s) = [String ch s].
Proof. intros Hch Hs. cbn -[Ascii.eqb]. rewrite Hch, Hs. reflexivity. Qed.

Lemma compact_timestamp_one_token (t : Py.datetime) :
  Py.split "_" (compact_timestamp t) = [compact_timestamp t].
Proof.
  destruct t as [y mo d h mi s us]. unfold compact_timestamp.
  cbn [Py.year Py.month Py.day Py.hour Py.minute Py.second].
  match goal with
  | |- Py.split _ ?str = _ =>
      let str' := eval cbv [Py.dec_fixed String.append] in str in
      change str with str'
  end.
  repeat (apply split_cons_plain; [apply dec_digit_plain|]).
  reflexivity.
Qed.

(** X10. Writing and parsing are inverse on canonical forms. For every
    valid date-time without a fraction of a second: its fourteen digits
    YYYYMMDDHHMMSS parse back to it, so a file name that carries them in
    the timestamp field is dated by them; and its TIFF form
    YYYY:MM:DD HH:MM:SS under the key [TIFFTAG_DATETIME] is the time the
    tag step returns. *)
Theorem X10_canonical_forms_parse_back (t : Py.datetime) :
  Py.valid_datetime t = true ->
  Py.microsecond t = 0 ->
  Py.strptime (compact_timestamp t) "%Y%m%d%H%M%S" = Ret t
  /\ (forall pre last,
        Py.split "_" last = [last] ->
        last <> "preview" ->
        filename_datetime (pre ++ "_" ++ compact_timestamp t ++ "_" ++ last)%string
          = Ret t)
  /\ (forall tags : gmap string string,
        tags !! "TIFFTAG_DATETIME" = Some (tiff_timestamp t) ->
        tag_datetime tags = Ret (Some t)).
Proof.
  intros Hvalid Hmicro. split; [|split].
  - apply strptime_compact_timestamp; assumption.
  - intros pre last Hlast Hne.
    rewrite filename_datetime_second_from_last;
      [apply strptime_compact_timestamp; assumption
      | apply compact_timestamp_one_token | exact Hlast | exact Hne].
  - intros tags Htag.
    apply (tag_datetime_selected tags (tiff_timestamp t) t).
    + left. split; [exact Htag|]. destruct t. discriminate.
    + apply strptime_tiff_timestamp; assumption.
Qed.

Lemma X10_canonical_forms_parse_back_witness :
  filename_datetime "CAPELLA_C02_SP_GEC_HH_20240229235959_20240301000010"
    = Ret (Py.mk_datetime 2024 2 29 23 59 59 0).
Proof.
  assert (Hne : "20240301000010" <> "preview") by discriminate.
  destruct (X10_canonical_forms_parse_back (Py.mk_datetime 2024 2 29 23 59 59 0)
              eq_refl eq_refl) as (_ & H & _).
  exact (H "CAPELLA_C02_SP_GEC_HH" "20240301000010" eq_refl Hne).
Defined.

(* ===================================================================== *)
(** ** The form of a document id *)
(* ===================================================================== *)

(** The version digit: bits 76 to 79 of the UUID are 0100. *)
Lemma version_nibble (r : Z) : Z.land (Z.shiftr (Py.uuid4 r) 76) 15 = 4.
Proof.
  apply Z.bits_inj'. intros i Hi.
  rewrite Z.land_spec, Z.shiftr_spec by lia.
  rewrite uuid4_testbit by lia.
  destruct (Z.eq_dec i 0) as [->|]; [reflexivity|].
  destruct (Z.eq_dec i 1) as [->|]; [reflexivity|].
  destruct (Z.eq_dec i 2) as [->|]; [reflexivity|].
  destruct (Z.eq_dec i 3) as [->|]; [reflexivity|].
  rewrite (Z.bits_above_log2 15 i), (Z.bits_above_log2 4 i)
    by (try (change (Z.log2 15) with 3); try (change (Z.log2 4) with 2); lia).
  apply andb_false_r.
Qed.

(** X11. Every document id is the string form of a version-4 UUID:
    thirty-six characters, dashes at positions 8, 13, 18 and 23, the
    version digit 4 at position 14, and in the UUID itself the variant
    bits 63 and 62 set to 1 and 0, whatever was drawn. *)
Theorem X11_document_id_form (E : Env) (meta : Metadata) (tif_path : string) (w : World) :
  exists doc w',
    TestDataset.build_eo3_dict E meta tif_path w = (Ret doc, w')
    /\ String.length (doc_id doc) = 36%nat
    /\ String.get 8 (doc_id doc) = Some "-"%char
    /\ String.get 13 (doc_id doc) = Some "-"%char
    /\ String.get 18 (doc_id doc) = Some "-"%char
    /\ String.get 23 (doc_id doc) = Some "-"%char
    /\ String.get 14 (doc_id doc) = Some "4"%char
    /\ Z.testbit (Py.uuid4 (urandom16 E (draws w))) 63 = true
    /\ Z.testbit (Py.uuid4 (urandom16 E (draws w))) 62 = false.
Proof.
  destruct (build_eo3_dict_returns E meta tif_path w) as (doc & Hbuild & Hid).
  exists doc, (tick (drawn w)). split; [exact Hbuild|]. rewrite Hid.
  set (u := Py.uuid4 (urandom16 E (draws w))).
  split; [reflexivity|]. split; [reflexivity|]. split; [reflexivity|].
  split; [reflexivity|]. split; [reflexivity|]. split.
  - change (String.get 14 (Py.uuid_str u))
      with (Some (Py.hex_digit (Z.land (Z.shiftr u 76) 15))).
    unfold u. rewrite version_nibble. reflexivity.
  - unfold u. rewrite !uuid4_testbit by lia. split; reflexivity.
Qed.

(* ===================================================================== *)
(** ** Roles and products *)
(* ===================================================================== *)

Lemma string_app_assoc (a b c : string) : ((a ++ b) ++ c = a ++ (b ++ c))%string.
Proof.
  induction a as [|ch a IH]; [reflexivity|].
  change (String ch ((a ++ b) ++ c) = String ch (a ++ (b ++ c))).
  rewrite IH. reflexivity.
Qed.

(** A substring of a substring, with anything appended. *)
Lemma str_in_inside (inner outer l r s ext : string) :
  outer = (l ++ inner ++ r)%string ->
  Py.str_in outer s = true ->
  Py.str_in inner (s ++ ext)%string = true.
Proof.
  intros -> Hin. apply str_in_spec in Hin as (pre & post & ->).
  apply str_in_spec. exists (pre ++ l)%string, (r ++ post ++ ext)%string.
  rewrite !string_app_assoc. reflexivity.
Qed.

(** X12. A file that indexing mode classifies is never cataloged as plain
    data by browsing mode: the asset roles of a name whose stem carries a
    [_GEC_HH_] or [_GEC_VV_] marker are data and visual, or thumbnail
    alone when the name contains [preview], which takes precedence. *)
Theorem X12_roles_of_classified_files (item_id ext : string) (p : string * string) :
  TestDataset.classify item_id = Some p ->
  CreateStac.asset_roles (item_id ++ ext)%string
  = (if Py.str_in "preview" (item_id ++ ext)%string then ["thumbnail"]
     else ["data"; "visual"]).
Proof.
  intros Hclass. unfold CreateStac.asset_roles.
  destruct (Py.str_in "preview" (item_id ++ ext)%string); [reflexivity|].
  assert (Hgec : Py.str_in "GEC" (item_id ++ ext)%string = true).
  { unfold TestDataset.classify in Hclass.
    destruct (Py.str_in "_GEC_HH_" item_id) eqn:Hhh.
    - apply (str_in_inside "GEC" "_GEC_HH_" "_" "_HH_" item_id ext eq_refl Hhh).
    - destruct (Py.str_in "_GEC_VV_" item_id) eqn:Hvv; [|discriminate].
      apply (str_in_inside "GEC" "_GEC_VV_" "_" "_VV_" item_id ext eq_refl Hvv). }
  rewrite Hgec. reflexivity.
Qed.

Lemma X12_roles_of_classified_files_witness :
  CreateStac.asset_roles "X_GEC_VV_20230101000000_20230101000010.tif"
    = ["data"; "visual"].
Proof.
  exact (X12_roles_of_classified_files "X_GEC_VV_20230101000000_20230101000010" ".tif"
           ("capella_gec_vv", "vv") eq_refl).
Defined.

(* ===================================================================== *)
(** ** What browsing mode reports *)
(* ===================================================================== *)

(** X13. Browsing mode never leaves a file out without a line: for a file
    that does not open with a spatial reference or does not reproject, the
    loop body adds no item, does not read the clock, and prints the line
    of the file followed by the skip line (no spatial reference) or the
    error line (the file did not open or the reprojection raised). *)
Theorem X13_excluded_files_are_reported (E : Env) (tif_path : string) (w : World) :
  stac_eligible E tif_path = false ->
  exists report,
    CreateStac.process_tif E tif_path w
      = (Ret tt, printed report (printed (MsgProcessing (Py.basename tif_path)) w))
    /\ (report = MsgSkipNoCRS (Py.basename tif_path) \/ report = MsgError tif_path).
Proof.
  unfold stac_eligible.
  destruct (rasterio_open E tif_path) as [e|src] eqn:Hopen.
  { intros _. exists (MsgError tif_path). split; [|right; reflexivity].
    unfold CreateStac.process_tif, CreateStac.get_stac_info_from_tif. run.
    rewrite Hopen. reflexivity. }
  destruct (crs src) as [c|] eqn:Hcrs.
  2:{ intros _. exists (MsgSkipNoCRS (Py.basename tif_path)). split; [|left; reflexivity].
      unfold CreateStac.process_tif, CreateStac.get_stac_info_from_tif. run.
      rewrite Hopen, Hcrs. reflexivity. }
  intros Hrep. set (w1 := printed (MsgProcessing (Py.basename tif_path)) w).
  destruct (footprint_reprojects E c (bounds src) w1)
    as [[Htrue _] | [_ (e & Hfoot)]]; [congruence|].
  exists (MsgError tif_path). split; [|right; reflexivity].
  unfold CreateStac.process_tif, try_except. cbv zeta.
  step ltac:(reflexivity).
  erewrite bind_raise.
  2:{ unfold CreateStac.get_stac_info_from_tif. cbv zeta.
      step ltac:(unfold lift, lift_lib; rewrite Hopen; reflexivity).
      rewrite Hcrs. apply bind_raise. exact Hfoot. }
  reflexivity.
Qed.

Lemma X13_excluded_files_are_reported_witness :
  let E := Sample.env ["SLC_1.tif"] (Sample.source None ∅) in
  stdout (CreateStac.process_tif E "SLC_1.tif" Sample.world).2
    = [MsgProcessing "SLC_1.tif"; MsgSkipNoCRS "SLC_1.tif"].
Proof.
  intros E.
  destruct (X13_excluded_files_are_reported E "SLC_1.tif" Sample.world eq_refl)
    as (report & Hrun & [-> | ->]).
  - rewrite Hrun. reflexivity.
  - exfalso. vm_compute in Hrun. discriminate Hrun.
Defined.

(* ===================================================================== *)
(** ** The conversion script *)
(* ===================================================================== *)

Ltac convert_cases E p w :=
  unfold CreateCog.convert; cbv zeta;
  change (Py.join CreateCog.COG_DIR (Py.basename p))
    with (CreateCog.out_path_of p);
  destruct (Py.str_in "SLC" (Py.basename p)) eqn:Hslc;
  [| case_bool_decide as Hex;
     [| cbn [CreateCog.files CreateCog.say];
        destruct (CreateCog.cog_translate E (CreateCog.files w) p (CreateCog.out_path_of p))
          as [[e|[]] fs'] eqn:Ht; cbn [fst snd];
        [destruct (CreateCog.RasterioIOError e) eqn:Hio|] ] ];
  cbn [CreateCog.files CreateCog.translations CreateCog.output CreateCog.say].

Lemma convert_files (E : CreateCog.CogEnv) (p : string) (w : CreateCog.CogWorld) :
  keeps_files E -> CreateCog.files w ⊆ CreateCog.files (CreateCog.convert E p w).
Proof.
  intros [_ Hkeep].
  pose proof (Hkeep (CreateCog.files w) p (CreateCog.out_path_of p)) as Hsub.
  convert_cases E p w; try reflexivity; exact Hsub.
Qed.

Lemma convert_output (E : CreateCog.CogEnv) (p : string) (w : CreateCog.CogWorld) :
  exists l, CreateCog.output (CreateCog.convert E p w) = (CreateCog.output w ++ l)%list.
Proof.
  convert_cases E p w; rewrite <- ?List.app_assoc; eexists; reflexivity.
Qed.

Lemma convert_translations (E : CreateCog.CogEnv) (p : string) (w : CreateCog.CogWorld) :
  (CreateCog.translations (CreateCog.convert E p w) = CreateCog.translations w
   /\ CreateCog.files (CreateCog.convert E p w) = CreateCog.files w
   /\ (Py.str_in "SLC" (Py.basename p) = true \/ CreateCog.out_path_of p ∈ CreateCog.files w))
  \/ (CreateCog.translations (CreateCog.convert E p w)
        = (CreateCog.translations w ++ [(p, CreateCog.out_path_of p)])%list
      /\ Py.str_in "SLC" (Py.basename p) = false
      /\ CreateCog.out_path_of p ∉ CreateCog.files w).
Proof.
  convert_cases E p w; auto.
Qed.

Lemma convert_accounted (E : CreateCog.CogEnv) (p : string) (w : CreateCog.CogWorld) :
  writes_output E ->
  Py.str_in "SLC" (Py.basename p) = false ->
  CreateCog.out_path_of p ∈ CreateCog.files (CreateCog.convert E p w)
  \/ conversion_failed (Py.basename p) (CreateCog.convert E p w).
Proof.
  intros Hwrites Hno.
  pose proof (Hwrites (CreateCog.files w) p (CreateCog.out_path_of p)) as Hout.
  convert_cases E p w; try discriminate.
  - left. exact Hex.
  - right. exists e. left. cbn. apply elem_of_app. right. apply list_elem_of_singleton.
    reflexivity.
  - right. exists e. right. cbn. apply elem_of_app. right. apply list_elem_of_singleton.
    reflexivity.
  - left. apply Hout. reflexivity.
Qed.

Lemma convert_skips_slc (E : CreateCog.CogEnv) (p : string) (w : CreateCog.CogWorld) :
  Py.str_in "SLC" (Py.basename p) = true ->
  CreateCog.MsgSkipSLC (Py.basename p) ∈ CreateCog.output (CreateCog.convert E p w).
Proof.
  intros Hyes. convert_cases E p w; try discriminate.
  apply elem_of_app. right. apply list_elem_of_singleton. reflexivity.
Qed.

Lemma convert_all_cons (E : CreateCog.CogEnv) (p : string) (ps : list string)
    (w : CreateCog.CogWorld) :
  CreateCog.convert_all E (p :: ps) w = CreateCog.convert_all E ps (CreateCog.convert E p w).
Proof. reflexivity. Qed.

Lemma convert_all_files (E : CreateCog.CogEnv) (ps : list string) (w : CreateCog.CogWorld) :
  keeps_files E -> CreateCog.files w ⊆ CreateCog.files (CreateCog.convert_all E ps w).
Proof.
  intros Hkeep. revert w. induction ps as [|p ps IH]; intros w; [reflexivity|].
  rewrite convert_all_cons. etrans; [apply (convert_files E p w Hkeep)|apply IH].
Qed.

Lemma convert_all_output (E : CreateCog.CogEnv) (ps : list string) (w : CreateCog.CogWorld) :
  exists l, CreateCog.output (CreateCog.convert_all E ps w) = (CreateCog.output w ++ l)%list.
Proof.
  revert w. induction ps as [|p ps IH]; intros w.
  - exists []. rewrite List.app_nil_r. reflexivity.
  - rewrite convert_all_cons. destruct (IH (CreateCog.convert E p w)) as (l2 & ->).
    destruct (convert_output E p w) as (l1 & ->). exists (l1 ++ l2)%list.
    rewrite List.app_assoc. reflexivity.
Qed.

Lemma conversion_failed_later (E : CreateCog.CogEnv) (ps : list string) (f : string)
    (w : CreateCog.CogWorld) :
  conversion_failed f w -> conversion_failed f (CreateCog.convert_all E ps w).
Proof.
  intros (e & H). destruct (convert_all_output E ps w) as (l & Hl).
  exists e. rewrite Hl. destruct H as [H|H]; [left|right]; apply elem_of_app; left; exact H.
Qed.

(** The calls of a loop are, in order, those of a sub-list of the paths:
    each for a path that is not an SLC file and whose output was not there
    when the loop began. *)
Lemma convert_all_translations (E : CreateCog.CogEnv) (ps : list string)
    (w : CreateCog.CogWorld) :
  keeps_files E ->
  exists new,
    CreateCog.translations (CreateCog.convert_all E ps w)
      = (CreateCog.translations w ++ new)%list
    /\ sublist new (List.map (fun p => (p, CreateCog.out_path_of p)) ps)
    /\ forall src dst, (src, dst) ∈ new ->
         src ∈ ps /\ Py.str_in "SLC" (Py.basename src) = false
         /\ dst = CreateCog.out_path_of src /\ dst ∉ CreateCog.files w.
Proof.
  intros Hkeep. revert w. induction ps as [|p ps IH]; intros w.
  - exists []. split; [rewrite List.app_nil_r; reflexivity|]. split; [constructor|].
    intros src dst Hin. apply elem_of_nil in Hin. contradiction.
  - rewrite convert_all_cons.
    destruct (IH (CreateCog.convert E p w)) as (new & Hnew & Hlen & Hall).
    pose proof (convert_files E p w Hkeep) as Hsub.
    assert (Htail : forall src dst, (src, dst) ∈ new ->
              src ∈ p :: ps /\ Py.str_in "SLC" (Py.basename src) = false
              /\ dst = CreateCog.out_path_of src /\ dst ∉ CreateCog.files w).
    { intros src dst Hin. destruct (Hall src dst Hin) as (Hsrc & Hno & Hdst & Hfresh).
      split; [apply elem_of_cons; right; exact Hsrc|]. split; [exact Hno|].
      split; [exact Hdst|]. intros Hold. apply Hfresh, Hsub, Hold. }
    destruct (convert_translations E p w) as [(Hsame & _ & _) | (Hcall & Hno & Hfresh)].
    + exists new. rewrite Hnew, Hsame. split; [reflexivity|].
      split; [apply sublist_cons; exact Hlen|]. exact Htail.
    + exists ((p, CreateCog.out_path_of p) :: new). rewrite Hnew, Hcall.
      split; [rewrite <- List.app_assoc; reflexivity|].
      split; [apply sublist_skip; exact Hlen|].
      intros src dst Hin. apply elem_of_cons in Hin as [Heq | Hin]; [|exact (Htail src dst Hin)].
      injection Heq as -> ->. split; [apply elem_of_cons; left; reflexivity|].
      split; [exact Hno|]. split; [reflexivity|]. exact Hfresh.
Qed.

(** A loop over paths that are SLC files or have their output already
    calls nothing and leaves the files as they are. *)
Lemma convert_all_nothing_to_do (E : CreateCog.CogEnv) (ps : list string)
    (w : CreateCog.CogWorld) :
  (forall p, p ∈ ps ->
     Py.str_in "SLC" (Py.basename p) = true \/ CreateCog.out_path_of p ∈ CreateCog.files w) ->
  CreateCog.translations (CreateCog.convert_all E ps w) = CreateCog.translations w
  /\ CreateCog.files (CreateCog.convert_all E ps w) = CreateCog.files w.
Proof.
  revert w. induction ps as [|p ps IH]; intros w Hdone; [split; reflexivity|].
  rewrite convert_all_cons.
  destruct (convert_translations E p w) as [(Hsame & Hfiles & _) | (_ & Hno & Hfresh)].
  - destruct (IH (CreateCog.convert E p w)) as (Ht & Hf).
    { intros q Hq. rewrite Hfiles. apply Hdone. apply elem_of_cons. right. exact Hq. }
    rewrite Ht, Hf, Hsame, Hfiles. split; reflexivity.
  - exfalso. destruct (Hdone p) as [Hyes | Hthere].
    + apply elem_of_cons. left. reflexivity.
    + congruence.
    + exact (Hfresh Hthere).
Qed.

(** Every path of a loop is accounted for when it ends. *)
Lemma convert_all_accounted (E : CreateCog.CogEnv) (ps : list string)
    (w : CreateCog.CogWorld) (p : string) :
  keeps_files E -> writes_output E -> p ∈ ps ->
  if Py.str_in "SLC" (Py.basename p)
  then CreateCog.MsgSkipSLC (Py.basename p) ∈ CreateCog.output (CreateCog.convert_all E ps w)
  else CreateCog.out_path_of p ∈ CreateCog.files (CreateCog.convert_all E ps w)
       \/ conversion_failed (Py.basename p) (CreateCog.convert_all E ps w).
Proof.
  intros Hkeep Hwrites. revert w. induction ps as [|q ps IH]; intros w Hin.
  - apply elem_of_nil in Hin. contradiction.
  - rewrite convert_all_cons. apply elem_of_cons in Hin as [-> | Hin]; [|apply IH; exact Hin].
    destruct (Py.str_in "SLC" (Py.basename q)) eqn:Hslc.
    + destruct (convert_all_output E ps (CreateCog.convert E q w)) as (l & ->).
      apply elem_of_app. left. apply convert_skips_slc. exact Hslc.
    + destruct (convert_accounted E q w Hwrites Hslc) as [Hthere | Hfailed].
      * left. apply (convert_all_files E ps _ Hkeep). exact Hthere.
      * right. apply conversion_failed_later. exact Hfailed.
Qed.

Lemma script_loop (E : CreateCog.CogEnv) (w : CreateCog.CogWorld) (fs : gset string) :
  CreateCog.makedirs E (CreateCog.files w) = inr fs ->
  CreateCog.script E w
  = (Ret tt,
     CreateCog.say CreateCog.MsgDone
       (CreateCog.convert_all E (CreateCog.tif_files E)
          (CreateCog.say (CreateCog.MsgStart (length (CreateCog.tif_files E)))
             (CreateCog.mk_cog_world fs (CreateCog.translations w) (CreateCog.output w))))).
Proof. intros Hmk. unfold CreateCog.script. rewrite Hmk. reflexivity. Qed.

Lemma script_returns (E : CreateCog.CogEnv) (w : CreateCog.CogWorld) :
  (CreateCog.script E w).1 = Ret tt ->
  exists fs, CreateCog.makedirs E (CreateCog.files w) = inr fs.
Proof.
  unfold CreateCog.script.
  destruct (CreateCog.makedirs E (CreateCog.files w)) as [e|fs]; [discriminate|].
  intros _. exists fs. reflexivity.
Qed.

Lemma script_accounted (E : CreateCog.CogEnv) (w : CreateCog.CogWorld) (p : string) :
  keeps_files E -> writes_output E ->
  (CreateCog.script E w).1 = Ret tt ->
  p ∈ CreateCog.tif_files E ->
  if Py.str_in "SLC" (Py.basename p)
  then CreateCog.MsgSkipSLC (Py.basename p) ∈ CreateCog.output (CreateCog.script E w).2
  else CreateCog.out_path_of p ∈ CreateCog.files (CreateCog.script E w).2
       \/ conversion_failed (Py.basename p) (CreateCog.script E w).2.
Proof.
  intros Hkeep Hwrites Hret Hin. destruct (script_returns E w Hret) as (fs & Hmk).
  rewrite (script_loop E w fs Hmk). cbn [snd].
  set (w1 := CreateCog.say _ (CreateCog.mk_cog_world fs _ _)).
  pose proof (convert_all_accounted E (CreateCog.tif_files E) w1 p Hkeep Hwrites Hin) as Hacc.
  destruct (Py.str_in "SLC" (Py.basename p)).
  - cbn [CreateCog.say CreateCog.output]. apply elem_of_app. left. exact Hacc.
  - destruct Hacc as [Hthere | (e & Hfailed)]; [left; exact Hthere|].
    right. exists e. cbn [CreateCog.say CreateCog.output].
    destruct Hfailed as [H|H]; [left|right]; apply elem_of_app; left; exact H.
Qed.

(** A base name holds no separator. *)
Lemma basename_from_sep_free (p cur : string) :
  (Py.basename_from p cur = cur /\ has_sep p = false)
  \/ has_sep (Py.basename_from p cur) = false.
Proof.
  revert cur. induction p as [|ch p IH]; intros cur; [left; split; reflexivity|].
  cbn [Py.basename_from has_sep]. destruct (Py.is_sep ch).
  - right. destruct (IH p) as [[-> H] | H]; exact H.
  - destruct (IH cur) as [[-> H] | H]; [left; split; [reflexivity | exact H] | right; exact H].
Qed.

Lemma basename_sep_free (p : string) : has_sep (Py.basename p) = false.
Proof.
  unfold Py.basename. cbv zeta.
  destruct (basename_from_sep_free (Py.splitdrive p).2 (Py.splitdrive p).2)
    as [[-> H] | H]; exact H.
Qed.

(** Under the output directory, a name without separator and without
    drive letter is appended after a separator. *)
Lemma join_cog_dir (name : string) :
  has_sep name = false -> drive_letter name = false ->
  Py.join CreateCog.COG_DIR name = (CreateCog.COG_DIR ++ "\" ++ name)%string.
Proof.
  intros Hsep Hdrive.
  assert (Hsd : Py.splitdrive name = ("", name)).
  { destruct name as [|c1 [|c2 name]]; try reflexivity.
    cbn [has_sep] in Hsep. apply orb_false_iff in Hsep as [Hc1 _].
    change (Ascii.eqb c2 ":" = false) in Hdrive.
    unfold Py.splitdrive. rewrite Hc1, Hdrive. reflexivity. }
  assert (Hstart : Py.starts_with_sep name = false).
  { destruct name as [|c1 name]; [reflexivity|].
    cbn [has_sep] in Hsep. apply orb_false_iff in Hsep as [Hc1 _]. exact Hc1. }
  unfold Py.join. rewrite Hsd. cbn [fst snd]. rewrite Hstart.
  replace (Py.splitdrive CreateCog.COG_DIR) with ("D:", "\Capalla_data\cog_files")
    by (vm_compute; reflexivity).
  reflexivity.
Qed.

(** X14. The conversion script translates selectively. When the output
    directory can be made and the library removes no file, the run
    completes, and its calls of [cog_translate] are, in the order of the
    listing, those of a sub-list of the listed files, so that no entry of
    the listing is translated twice: each call is for a listed file whose
    name does not contain [SLC], with the output path the join of
    [COG_DIR] and the name, which is [COG_DIR\<name>] unless the name
    begins with a drive letter, and never for an output that existed
    before the run. *)
Theorem X14_conversion_is_selective (E : CreateCog.CogEnv) (w : CreateCog.CogWorld)
    (fs : gset string) :
  keeps_files E ->
  CreateCog.makedirs E (CreateCog.files w) = inr fs ->
  exists new,
    (CreateCog.script E w).1 = Ret tt
    /\ CreateCog.translations (CreateCog.script E w).2
       = (CreateCog.translations w ++ new)%list
    /\ sublist new (List.map (fun p => (p, CreateCog.out_path_of p)) (CreateCog.tif_files E))
    /\ (length new <= length (CreateCog.tif_files E))%nat
    /\ (NoDup (CreateCog.tif_files E) -> NoDup new)
    /\ forall src dst, (src, dst) ∈ new ->
         src ∈ CreateCog.tif_files E
         /\ Py.str_in "SLC" (Py.basename src) = false
         /\ dst = Py.join CreateCog.COG_DIR (Py.basename src)
         /\ (drive_letter (Py.basename src) = false ->
             dst = (CreateCog.COG_DIR ++ "\" ++ Py.basename src)%string)
         /\ dst ∉ CreateCog.files w.
Proof.
  intros Hkeep Hmk. rewrite (script_loop E w fs Hmk). cbn [fst snd].
  set (w1 := CreateCog.say _ (CreateCog.mk_cog_world fs _ _)).
  destruct (convert_all_translations E (CreateCog.tif_files E) w1 Hkeep)
    as (new & Hnew & Hsub & Hall).
  exists new. split; [reflexivity|]. split; [exact Hnew|]. split; [exact Hsub|].
  split.
  { apply sublist_length in Hsub. rewrite length_map in Hsub. exact Hsub. }
  split.
  { intros Hnodup. refine (sublist_NoDup _ _ _ Hsub).
    apply (NoDup_fmap_2_strong (fun p => (p, CreateCog.out_path_of p)));
      [|exact Hnodup].
    intros p q _ _ Heq. injection Heq as ->. reflexivity. }
  intros src dst Hin. destruct (Hall src dst Hin) as (Hsrc & Hno & Hdst & Hfresh).
  split; [exact Hsrc|]. split; [exact Hno|]. split; [exact Hdst|]. split.
  { intros Hdrive. rewrite Hdst. unfold CreateCog.out_path_of.
    apply join_cog_dir; [apply basename_sep_free | exact Hdrive]. }
  intros Hold. apply Hfresh. cbn [w1 CreateCog.say CreateCog.files].
  destruct Hkeep as [Hdirs _]. apply (Hdirs _ _ Hmk). exact Hold.
Qed.

Lemma sample_cog_env_keeps (paths : list string) (bad : string) :
  keeps_files (sample_cog_env paths bad).
Proof.
  split.
  - intros fs fs' Hmk. injection Hmk as <-. apply union_subseteq_l.
  - intros fs src dst. cbn. destruct (String.eqb src bad); cbn; [reflexivity|].
    apply union_subseteq_l.
Qed.

Lemma sample_cog_env_writes (paths : list string) (bad : string) :
  writes_output (sample_cog_env paths bad).
Proof.
  intros fs src dst. cbn. destruct (String.eqb src bad); cbn; [discriminate|].
  intros _. apply elem_of_union. right. apply elem_of_singleton. reflexivity.
Qed.

Lemma X14_conversion_is_selective_witness :
  let E := sample_cog_env sample_cog_paths "" in
  exists new,
    CreateCog.translations (CreateCog.script E sample_cog_world).2 = new
    /\ (length new <= 3)%nat.
Proof.
  intros E.
  destruct (X14_conversion_is_selective E sample_cog_world
              (CreateCog.files sample_cog_world ∪ {[CreateCog.COG_DIR]})
              (sample_cog_env_keeps _ _) eq_refl)
    as (new & _ & Hnew & _ & Hlen & _).
  exists new. split; [exact Hnew | exact Hlen].
Defined.

(** X15. Every listed file is accounted for when the conversion script
    ends. If the library removes no file and a translation that returns
    has written its output, then after a completed run a listed file whose
    name contains [SLC] has its skip line, and any other listed file
    either has its output in place or has an error line. *)
Theorem X15_every_file_accounted_for (E : CreateCog.CogEnv) (w : CreateCog.CogWorld)
    (p : string) :
  keeps_files E -> writes_output E ->
  (CreateCog.script E w).1 = Ret tt ->
  p ∈ CreateCog.tif_files E ->
  if Py.str_in "SLC" (Py.basename p)
  then CreateCog.MsgSkipSLC (Py.basename p) ∈ CreateCog.output (CreateCog.script E w).2
  else CreateCog.out_path_of p ∈ CreateCog.files (CreateCog.script E w).2
       \/ conversion_failed (Py.basename p) (CreateCog.script E w).2.
Proof. apply script_accounted. Qed.

Lemma X15_every_file_accounted_for_witness :
  let p := "D:\Capalla_data\tif_file\A_GEC_HH_1.tif" in
  let E := sample_cog_env sample_cog_paths p in
  CreateCog.out_path_of p ∈ CreateCog.files (CreateCog.script E sample_cog_world).2
  \/ conversion_failed (Py.basename p) (CreateCog.script E sample_cog_world).2.
Proof.
  intros p E.
  assert (Hin : p ∈ CreateCog.tif_files E) by (apply elem_of_cons; left; reflexivity).
  exact (X15_every_file_accounted_for E sample_cog_world p
           (sample_cog_env_keeps _ _) (sample_cog_env_writes _ _) eq_refl Hin).
Defined.

(** X16. Running the conversion script again converts nothing. Under the
    same two assumptions on the library, after a completed run that
    printed no error line a second run over the files the first one left
    makes no call of [cog_translate], whether or not it can make the
    directory. *)
Theorem X16_second_run_converts_nothing (E : CreateCog.CogEnv) (w : CreateCog.CogWorld) :
  keeps_files E -> writes_output E ->
  (CreateCog.script E w).1 = Ret tt ->
  (forall filename, ~ conversion_failed filename (CreateCog.script E w).2) ->
  CreateCog.translations (CreateCog.script E (CreateCog.script E w).2).2
  = CreateCog.translations (CreateCog.script E w).2.
Proof.
  intros Hkeep Hwrites Hret Hclean.
  assert (Hdone : forall p, p ∈ CreateCog.tif_files E ->
            Py.str_in "SLC" (Py.basename p) = true
            \/ CreateCog.out_path_of p ∈ CreateCog.files (CreateCog.script E w).2).
  { intros p Hin. pose proof (script_accounted E w p Hkeep Hwrites Hret Hin) as Hacc.
    destruct (Py.str_in "SLC" (Py.basename p)); [left; reflexivity|].
    destruct Hacc as [Hthere | Hfailed]; [right; exact Hthere|].
    exfalso. exact (Hclean _ Hfailed). }
  set (w1 := (CreateCog.script E w).2) in *.
  destruct (CreateCog.makedirs E (CreateCog.files w1)) as [e|fs2] eqn:Hmk.
  { unfold CreateCog.script at 1. rewrite Hmk. reflexivity. }
  rewrite (script_loop E w1 fs2 Hmk). cbn [snd CreateCog.say CreateCog.translations].
  destruct Hkeep as [Hdirs _].
  apply (convert_all_nothing_to_do E (CreateCog.tif_files E)
           (CreateCog.say (CreateCog.MsgStart (length (CreateCog.tif_files E)))
              (CreateCog.mk_cog_world fs2 (CreateCog.translations w1) (CreateCog.output w1)))).
  intros p Hin. destruct (Hdone p Hin) as [Hslc | Hthere]; [left; exact Hslc|].
  right. cbn [CreateCog.say CreateCog.files]. apply (Hdirs _ _ Hmk). exact Hthere.
Qed.

Lemma X16_second_run_converts_nothing_witness :
  let E := sample_cog_env sample_cog_paths "" in
  CreateCog.translations (CreateCog.script E (CreateCog.script E sample_cog_world).2).2
  = [("D:\Capalla_data\tif_file\A_GEC_HH_1.tif", "D:\Capalla_data\cog_files\A_GEC_HH_1.tif")].
Proof.
  intros E.
  assert (Hout : CreateCog.output (CreateCog.script E sample_cog_world).2
                 = [CreateCog.MsgStart 3; CreateCog.MsgConverting "A_GEC_HH_1.tif";
                    CreateCog.MsgSkipSLC "B_SLC_HH_1.tif";
                    CreateCog.MsgSkipExists "C_GEC_VV_1.tif"; CreateCog.MsgDone])
    by (vm_compute; reflexivity).
  assert (Hclean : forall filename,
            ~ conversion_failed filename (CreateCog.script E sample_cog_world).2).
  { intros filename (e & H). rewrite Hout in H.
    destruct H as [H|H];
      repeat (apply elem_of_cons in H as [H|H]; [discriminate H|]);
      apply elem_of_nil in H; exact H. }
  rewrite (X16_second_run_converts_nothing E sample_cog_world
             (sample_cog_env_keeps _ _) (sample_cog_env_writes _ _) eq_refl Hclean).
  vm_compute. reflexivity.
Defined.
